(** * sso-idp: a SAML 2.0 identity provider, embedded in Rocq

    The development follows the Go packages [idp] and [client]:
    - [idp/sp.go]       service-provider metadata and certificates,
    - [idp/sso.go]      request validation and redirect signatures,
    - [idp/response.go] response construction and artifacts,
    - [idp/password.go] the password login handler,
    - [idp/artifact.go] the HTTP-Artifact binding,
    - [client/ldap.go]  the LDAP password validator.

    Go strings are byte strings ([string]); byte slices are [list byte];
    maps are [gmap]; slices indexed in place are lists with stdpp's lookup
    and insert.  Functions of Go's standard library and of third-party
    packages (hashes, signatures, ASN.1, X.509, protobuf) are fields of a
    class the embedding is parametrised over. *)

From Stdlib Require Import ZArith String Ascii List Lia Bool.
From Stdlib.Strings Require Import Byte.
From stdpp Require Import base option list strings gmap.

Local Open Scope string_scope.
Local Open Scope Z_scope.

(** ** Go values *)

Abbreviation bytes := (list byte).

#[global] Instance byte_inhabited : Inhabited byte := populate x00.

#[global] Instance byte_eq_decision : EqDecision byte.
Proof.
  refine (fun a b => cast_if (decide (Byte.to_N a = Byte.to_N b))).
  - abstract (pose proof (Byte.of_to_N a); pose proof (Byte.of_to_N b); congruence).
  - abstract congruence.
Defined.

(** A Go [error] value; [errors.New] and [fmt.Errorf] carry a message. *)
Definition error := string.

(** The outcome of a Go call that returns [(T, error)] or only [error]
    (then [T] is [unit]); a failed type assertion or an index out of range
    is a run-time panic. *)
Inductive result (T : Type) : Type :=
| Ok (v : T)
| Err (e : error)
| Panic (reason : string).
Arguments Ok {T} v.
Arguments Err {T} e.
Arguments Panic {T} reason.

Definition bind {T U} (r : result T) (k : T -> result U) : result U :=
  match r with
  | Ok v => k v
  | Err e => Err e
  | Panic p => Panic p
  end.

Notation "x <- r ;; k" := (bind r (fun x => k))
  (at level 100, r at next level, right associativity).

(** [of_lib] lifts the [(T, error)] pair of a library call, which never
    panics. *)
Definition of_lib {T} (r : error + T) : result T :=
  match r with
  | inl e => Err e
  | inr v => Ok v
  end.

(** A function that returns only [error]: [None] is [nil]. *)
Definition of_error (r : option error) : result unit :=
  match r with
  | Some e => Err e
  | None => Ok tt
  end.

(** ** Go's [strings] package, at the separators the program uses *)

(** [strings.Split(s, sep)] for a one-byte [sep]: the substrings between
    the separators, one more than there are separators; the empty string
    splits into the one empty substring. *)
Fixpoint strings_Split (s : string) (sep : ascii) : list string :=
  match s with
  | EmptyString => [EmptyString]
  | String c s' =>
      if decide (c = sep) then EmptyString :: strings_Split s' sep
      else match strings_Split s' sep with
           | p :: ps => String c p :: ps
           | [] => [String c EmptyString]
           end
  end.

(** [strings.Join(elems, sep)]. *)
Definition strings_Join (elems : list string) (sep : string) : string :=
  String.concat sep elems.

(** [[]byte(s)]. *)
Definition bytes_of (s : string) : bytes := list_byte_of_string s.

(** ** idp/sp.go *)

(** [type AssertionConsumerService struct]; [Index] is a [uint32]. *)
Record AssertionConsumerService := mkACS {
  Index : Z;
  IsDefault : bool;
  Binding : string;
  Location : string
}.

#[global] Instance AssertionConsumerService_eq_dec : EqDecision AssertionConsumerService.
Proof. solve_decision. Defined.

(** [type SingleLogoutService struct], the same shape. *)
Record SingleLogoutService := mkSLO {
  sloIndex : Z;
  sloIsDefault : bool;
  sloBinding : string;
  sloLocation : string
}.

(** What [cert.PublicKey] of [crypto/x509] can hold: the interface value is
    an RSA key, a DSA key, a key of another algorithm (ECDSA, Ed25519) or
    [nil] for an algorithm the parser does not know. *)
Record rsa_PublicKey := { rsaN : Z; rsaE : Z }.
Record dsa_PublicKey := { dsaP : Z; dsaQ : Z; dsaG : Z; dsaY : Z }.

Inductive PublicKey :=
| RSAKey (k : rsa_PublicKey)
| DSAKey (k : dsa_PublicKey)
| OtherKey (algorithm : string)
| NilKey.

(** [type ServiceProvider struct]. *)
Record ServiceProvider := mkSP {
  EntityID : string;
  AssertionConsumerServices : list AssertionConsumerService;
  SingleLogoutServices : list SingleLogoutService;
  Certificate : string;
  publicKey : PublicKey
}.

(** ** Package saml *)

Module saml.

(** [type RequestAbstractType struct] (saml/protocol.go); a [time.Time]
    is held as nanoseconds since the epoch. *)
Module RequestAbstractType.
Record t := mk {
  ID : string;
  Version : string;
  IssueInstant : Z;
  Issuer : string;
  Destination : string
}.
End RequestAbstractType.

(** [type AuthnRequest struct]; the index is a [uint32], zero when the
    attribute is absent. *)
Module AuthnRequest.
Record t := mk {
  RequestAbstractType : RequestAbstractType.t;
  AssertionConsumerServiceURL : string;
  ProtocolBinding : string;
  AssertionConsumerServiceIndex : Z
}.
Definition ID (r : t) := RequestAbstractType.ID (RequestAbstractType r).
Definition Issuer (r : t) := RequestAbstractType.Issuer (RequestAbstractType r).
Definition IssueInstant (r : t) := RequestAbstractType.IssueInstant (RequestAbstractType r).
Definition Destination (r : t) := RequestAbstractType.Destination (RequestAbstractType r).
End AuthnRequest.

(** [type ArtifactResolve struct], with the fields the handler reads. *)
Module ArtifactResolve.
Record t := mk {
  RequestAbstractType : RequestAbstractType.t;
  Artifact : string
}.
Definition ID (r : t) := RequestAbstractType.ID (RequestAbstractType r).
End ArtifactResolve.

Module StatusCode.
Record t := mk { Value : string }.
End StatusCode.

Module Status.
Record t := mk { StatusCode : StatusCode.t }.
End Status.

(** Modelled from the spec: saml/assertion.go, with [Issuer], [NewID],
    [NewIssuer] and the assertion types, is not among the sources.  The
    records below have the fields idp/response.go sets; "Issuer =
    entityID". *)
Module Issuer.
Record t := mk { Value : string }.
End Issuer.

Definition NewIssuer (value : string) : Issuer.t := Issuer.mk value.

(** [type StatusResponseType struct] (saml/protocol.go). *)
Module StatusResponseType.
Record t := mk {
  ID : string;
  Version : string;
  IssueInstant : Z;
  Issuer : Issuer.t;
  Destination : string;
  InResponseTo : string;
  Status : Status.t
}.
End StatusResponseType.

Module NameID.
Record t := mk {
  Format : string;
  NameQualifier : string;
  SPNameQualifier : string;
  Value : string
}.
End NameID.

(** [Address] is [net.ParseIP(user.IP)], held as the text parsed. *)
Module SubjectConfirmationData.
Record t := mk {
  Address : string;
  InResponseTo : string;
  Recipient : string;
  NotOnOrAfter : Z
}.
End SubjectConfirmationData.

Module SubjectConfirmation.
Record t := mk {
  Method : string;
  SubjectConfirmationData : option SubjectConfirmationData.t
}.
End SubjectConfirmation.

Module Subject.
Record t := mk {
  NameID : NameID.t;
  SubjectConfirmation : SubjectConfirmation.t
}.
End Subject.

Module AudienceRestriction.
Record t := mk { Audience : string }.
End AudienceRestriction.

Module Conditions.
Record t := mk {
  NotOnOrAfter : Z;
  NotBefore : Z;
  AudienceRestriction : AudienceRestriction.t
}.
End Conditions.

Module AuthnStatement.
Record t := mk {
  AuthnInstant : Z;
  SessionIndex : string;
  SubjectLocality_DNSName : string;
  AuthnContext_AuthnContextClassRef : string
}.
End AuthnStatement.

(** The attributes of the assertion: names with their values. *)
Module AttributeStatement.
Definition t := list (string * list string).
End AttributeStatement.

Module Assertion.
Record t := mk {
  ID : string;
  IssueInstant : Z;
  Issuer : Issuer.t;
  Version : string;
  Subject : Subject.t;
  AttributeStatement : AttributeStatement.t;
  Conditions : Conditions.t;
  AuthnStatement : option AuthnStatement.t;
  Signature : option string
}.
End Assertion.

(** [type Response struct] (saml/protocol.go); [Assertion] is a pointer,
    never [nil] in a response this program builds. *)
Module Response.
Record t := mk {
  StatusResponseType : StatusResponseType.t;
  RawAssertion : string;
  Assertion : Assertion.t
}.
End Response.

(** [type ArtifactResponse struct] inside its SOAP envelope and body. *)
Module ArtifactResponse.
Record t := mk {
  StatusResponseType : StatusResponseType.t;
  Response : Response.t
}.
End ArtifactResponse.

End saml.

(** ** idp/sso.go: choosing the assertion consumer service *)

(** The [for i, a := range sp.AssertionConsumerServices] loop of
    [validateAuthRequest].  [acs] is the pointer variable of the source,
    held as the position it points to; [i] is the position of the head of
    the remaining slice.  The two [break]s return at once; a default entry
    overwrites [acs] and the scan goes on. *)
Fixpoint acsLoop (request : saml.AuthnRequest.t) (rest : list AssertionConsumerService)
    (i : nat) (acs : option (nat * AssertionConsumerService))
    : option (nat * AssertionConsumerService) :=
  match rest with
  | [] => acs
  | a :: rest' =>
      if decide (Index a = saml.AuthnRequest.AssertionConsumerServiceIndex request)
      then Some (i, a)
      else if decide (Location a = saml.AuthnRequest.AssertionConsumerServiceURL request)
      then Some (i, a)
      else if IsDefault a then acsLoop request rest' (S i) (Some (i, a))
      else acsLoop request rest' (S i) acs
  end.

(** The value of [acs] after the loop: [None] is the [nil] pointer,
    [Some (i, a)] the address of entry [i], which holds [a]. *)
Definition selectACS (sp : ServiceProvider) (request : saml.AuthnRequest.t)
    : option (nat * AssertionConsumerService) :=
  acsLoop request (AssertionConsumerServices sp) 0%nat None.

(** The entry [*acs]. *)
Definition selectedACS (sp : ServiceProvider) (request : saml.AuthnRequest.t)
    : option AssertionConsumerService :=
  snd <$> selectACS sp request.

(** ** Libraries the program calls

    The functions of Go's standard library whose results the program only
    passes on.  [sha1.Sum] returns a [[20]byte]. *)

Inductive crypto_Hash := SHA1 | SHA256.

Class GoLib := {
  base64_DecodeString : string -> error + bytes;
  base64_EncodeToString : bytes -> string;
  sha1_Sum : bytes -> bytes;
  sha1_Size : forall data, length (sha1_Sum data) = 20%nat;
  sha256_Sum : bytes -> bytes;
  rsa_VerifyPKCS1v15 : rsa_PublicKey -> crypto_Hash -> bytes -> bytes -> option error;
  dsa_Verify : dsa_PublicKey -> bytes -> Z -> Z -> bool;
  (** [asn1.Unmarshal(signature, dsaSig)]: the two integers and the rest. *)
  asn1_Unmarshal : bytes -> error + (Z * Z * bytes);
  (** [x509.ParseCertificate], with the [PublicKey] of the certificate. *)
  x509_ParseCertificate : bytes -> error + PublicKey
}.

(** ** idp/sso.go: the detached signature of a redirect query *)

Section Signature.
Context `{GoLib}.

Definition sha1Sum (sig : bytes) : bytes := sha1_Sum sig.
Definition sha256Sum (sig : bytes) : bytes := sha256_Sum sig.

(** The first loop of [verifySignature]: every component must split
    on [=] in two; a later occurrence of a key replaces an earlier. *)
Fixpoint splitParams (params : list string) (pMap : gmap string string)
    : result (gmap string string) :=
  match params with
  | [] => Ok pMap
  | p :: params' =>
      match strings_Split p "=" with
      | [k; v] => splitParams params' (<[k := v]> pMap)
      | _ => Err "trouble validating signature on request"
      end
  end.

(** [pMap[key]] of Go: the empty string for a missing key. *)
Definition index (pMap : gmap string string) (key : string) : string :=
  default "" (pMap !! key).

(** "Order them": the string [sig] the digest is computed over. *)
Definition signedString (pMap : gmap string string) : string :=
  let sigparts := ["SAMLRequest=" ++ index pMap "SAMLRequest"] in
  let sigparts :=
    match pMap !! "RelayState" with
    | Some state => (sigparts ++ [("RelayState=" ++ state)%string])%list
    | None => sigparts
    end in
  let sigparts := (sigparts ++ [("SigAlg=" ++ index pMap "SigAlg")%string])%list in
  strings_Join sigparts "&".

(** Lines 112-127: [rawQuery] to the bytes [sig]. *)
Definition signedBytes (rawQuery : string) : result bytes :=
  pMap <- splitParams (strings_Split rawQuery "&") ∅ ;;
  Ok (bytes_of (signedString pMap)).

(** The type assertions of [sp.publicKey] to a pointer to [dsa.PublicKey]
    and to [rsa.PublicKey]: an assertion with one result panics on any
    other dynamic type, [nil] included. *)
Definition assertDSA (key : PublicKey) : result dsa_PublicKey :=
  match key with
  | DSAKey k => Ok k
  | _ => Panic "interface conversion: interface {} is not *dsa.PublicKey"
  end.

Definition assertRSA (key : PublicKey) : result rsa_PublicKey :=
  match key with
  | RSAKey k => Ok k
  | _ => Panic "interface conversion: interface {} is not *rsa.PublicKey"
  end.

Definition verifyDSA (sp : ServiceProvider) (signature sum : bytes) : result unit :=
  match asn1_Unmarshal signature with
  | inl err => Err err
  | inr (sigR, sigS, rest) =>
      if decide (length rest ≠ 0%nat) then Err "trailing data after DSA signature"
      else if decide (Z.sgn sigR <= 0 ∨ Z.sgn sigS <= 0)
      then Err "DSA signature contained zero or negative values"
      else
        key <- assertDSA (publicKey sp) ;;
        if dsa_Verify key sum sigR sigS then Ok tt
        else Err "DSA verification failure"
  end.

(** The [switch alg] of [verifySignature]. *)
Definition verifyWith (alg : string) (sp : ServiceProvider) (signature sig : bytes)
    : result unit :=
  if decide (alg = "http://www.w3.org/2009/xmldsig11#dsa-sha256") then
    verifyDSA sp signature (sha256Sum sig)
  else if decide (alg = "http://www.w3.org/2000/09/xmldsig#dsa-sha1") then
    verifyDSA sp signature (sha1Sum sig)
  else if decide (alg = "http://www.w3.org/2000/09/xmldsig#rsa-sha1") then
    let sum := sha1Sum sig in
    key <- assertRSA (publicKey sp) ;;
    of_error (rsa_VerifyPKCS1v15 key SHA1 sum signature)
  else if decide (alg = "http://www.w3.org/2001/04/xmldsig-more#rsa-sha256") then
    let sum := sha256Sum sig in
    key <- assertRSA (publicKey sp) ;;
    of_error (rsa_VerifyPKCS1v15 key SHA256 sum signature)
  else Err ("unsupported signature algorithm, " ++ alg).

(** [func verifySignature(rawQuery, alg, expectedSig string, sp)]. *)
Definition verifySignature (rawQuery alg expectedSig : string) (sp : ServiceProvider)
    : result unit :=
  sig <- signedBytes rawQuery ;;
  signature <- of_lib (base64_DecodeString expectedSig) ;;
  verifyWith alg sp signature sig.

End Signature.

(** ** State: the clock, fresh identifiers, and a state monad *)

(** What the program reads from its environment: the successive readings
    of [time.Now()] (nanoseconds) and the successive strings drawn by
    [uuid.New().String()] and [saml.NewID()]. *)
Record World := mkWorld {
  clock : list Z;
  fresh : list string
}.

Definition M (S A : Type) : Type := S -> A * S.

Definition ret {S A} (a : A) : M S A := fun s => (a, s).

Definition bindM {S A B} (m : M S A) (k : A -> M S B) : M S B :=
  fun s => let '(a, s') := m s in k a s'.

Notation "x <~ m ;; k" := (bindM m (fun x => k))
  (at level 100, m at next level, right associativity).
Notation "m ;;; k" := (bindM m (fun _ => k))
  (at level 100, right associativity).

(** Errors on top of state: an error or a panic ends the block, the state
    reached stays. *)
Definition bindE {S A B} (m : M S (result A)) (k : A -> M S (result B))
    : M S (result B) :=
  fun s =>
    let '(r, s') := m s in
    match r with
    | Ok a => k a s'
    | Err e => (Err e, s')
    | Panic p => (Panic p, s')
    end.

Notation "x <~? m ;; k" := (bindE m (fun x => k))
  (at level 100, m at next level, right associativity).

(** [time.Now().UTC()]. *)
Definition time_Now : M World Z :=
  fun w => (hd 0 (clock w), {| clock := tl (clock w); fresh := fresh w |}).

(** [uuid.New().String()]. *)
Definition uuid_New : M World string :=
  fun w => (hd "" (fresh w), {| clock := clock w; fresh := tl (fresh w) |}).

(** [5 * time.Minute], in nanoseconds. *)
Definition fiveMinutes : Z := 5 * (60 * 1000000000).

(** ** Package net/http, as far as the handlers use it *)

Module http.

Record Cookie := mkCookie {
  Name : string;
  Value : string;
  Path : string;
  MaxAge : Z;
  Secure : bool;
  HttpOnly : bool
}.

(** A request after [r.ParseForm()]: [ParseFormErr] is the error of that
    call, [Form] the parsed [url.Values], [ClientCert] what
    [getCertFromRequest(r)] finds in the TLS state (the subject name of
    the certificate, or the error). *)
Record Request := mkRequest {
  RawQuery : string;
  ParseFormErr : option error;
  Form : gmap string (list string);
  Cookies : list Cookie;
  Body : string;
  ClientCert : error + string
}.

(** What has been written to an [http.ResponseWriter]: the status (none
    before [WriteHeader] or the first [Write]), the [Location] header,
    the cookies set and the body. *)
Record ResponseWriter := mkResponseWriter {
  Status : option Z;
  HeaderLocation : option string;
  SetCookies : list Cookie;
  Written : string
}.

Definition empty : ResponseWriter :=
  {| Status := None; HeaderLocation := None; SetCookies := []; Written := "" |}.

Definition StatusOK : Z := 200.
Definition StatusFound : Z := 302.
Definition StatusUnauthorized : Z := 401.
Definition StatusInternalServerError : Z := 500.

(** [r.Form.Get(key)]: the first value, or the empty string. *)
Definition Form_Get (r : Request) (key : string) : string :=
  match Form r !! key with
  | Some (v :: _) => v
  | _ => ""
  end.

(** [r.Cookie(name)]: the first cookie of that name. *)
Definition Request_Cookie (r : Request) (name : string) : option Cookie :=
  List.find (fun c => bool_decide (Name c = name)) (Cookies r).

(** [w.WriteHeader(code)]: only the first call counts. *)
Definition WriteHeader (code : Z) (w : ResponseWriter) : ResponseWriter :=
  {| Status := Some (default code (Status w));
     HeaderLocation := HeaderLocation w;
     SetCookies := SetCookies w;
     Written := Written w |}.

(** [w.Write(data)]: sends status 200 first if none was sent. *)
Definition Write (data : string) (w : ResponseWriter) : ResponseWriter :=
  {| Status := Some (default StatusOK (Status w));
     HeaderLocation := HeaderLocation w;
     SetCookies := SetCookies w;
     Written := Written w ++ data |}.

(** [http.SetCookie(w, cookie)]. *)
Definition SetCookie (c : Cookie) (w : ResponseWriter) : ResponseWriter :=
  {| Status := Status w;
     HeaderLocation := HeaderLocation w;
     SetCookies := (SetCookies w ++ [c])%list;
     Written := Written w |}.

(** [http.Error(w, error, code)]: the status and the message as body. *)
Definition Error (msg : string) (code : Z) (w : ResponseWriter) : ResponseWriter :=
  Write msg (WriteHeader code w).

(** [http.Redirect(w, r, url, code)] for a [url] that is absolute or a
    clean rooted path of ASCII characters, which the call leaves as it
    is: the [Location] header and the status. *)
Definition Redirect (url : string) (code : Z) (w : ResponseWriter) : ResponseWriter :=
  WriteHeader code
    {| Status := Status w;
       HeaderLocation := Some url;
       SetCookies := SetCookies w;
       Written := Written w |}.

End http.

(** ** Package net/url *)

Definition isUnreserved (c : ascii) : bool :=
  let n := N_of_ascii c in
  ((48 <=? n) && (n <=? 57) || (65 <=? n) && (n <=? 90) || (97 <=? n) && (n <=? 122)
   || (n =? 45) || (n =? 95) || (n =? 46) || (n =? 126))%N.

Definition upperhex (n : N) : ascii :=
  match get (N.to_nat n) "0123456789ABCDEF" with
  | Some c => c
  | None => "0"%char
  end.

(** [url.QueryEscape(s)]: a space becomes [+], letters, digits and
    [-_.~] stay, every other byte becomes [%XX]. *)
Fixpoint url_QueryEscape (s : string) : string :=
  match s with
  | EmptyString => EmptyString
  | String c s' =>
      if decide (c = " "%char) then String "+" (url_QueryEscape s')
      else if isUnreserved c then String c (url_QueryEscape s')
      else
        let n := N_of_ascii c in
        String "%" (String (upperhex (n / 16)) (String (upperhex (n mod 16))
          (url_QueryEscape s')))
  end.

(** ** Package store *)

Module store.

(** Modelled from the spec: the package [store] is not among the sources.
    A cache maps a key to bytes that expire: "Cache entries are
    (key -> bytes, expiresAt)", one TTL per cache; [Set] inserts or
    replaces, [Get] fails once [now >= expiresAt] or when the key is
    absent, [Delete] removes the key. *)
Record Cache := mkCache {
  ttl : Z;
  entries : gmap string (bytes * Z)
}.

Definition Set_ (key : string) (value : bytes) (now : Z) (c : Cache) : Cache :=
  {| ttl := ttl c; entries := <[key := (value, now + ttl c)]> (entries c) |}.

Definition Get (key : string) (now : Z) (c : Cache) : error + bytes :=
  match entries c !! key with
  | Some (value, expiresAt) =>
      if decide (expiresAt <= now) then inl "expired" else inr value
  | None => inl "not found"
  end.

Definition Delete (key : string) (c : Cache) : Cache :=
  {| ttl := ttl c; entries := delete key (entries c) |}.

End store.

(** ** Package model: what is kept in the caches *)

Module model.

(** Modelled from the spec: the protobuf messages of package [model] are
    not among the sources.  AuthnRequest (internal) is
    {ID, Issuer, AssertionConsumerServiceURL,
    AssertionConsumerServiceIndex, ProtocolBinding, RelayState,
    IssueInstant, Destination}. *)
Module AuthnRequest.
Record t := mk {
  ID : string;
  Issuer : string;
  AssertionConsumerServiceURL : string;
  AssertionConsumerServiceIndex : Z;
  ProtocolBinding : string;
  RelayState : string;
  IssueInstant : Z;
  Destination : string
}.
End AuthnRequest.

(** Modelled from the spec: an attribute is {Name, Values[]}; the source
    calls the second field [Value]. *)
Module Attribute.
Record t := mk {
  Name : string;
  Value : list string
}.
End Attribute.

(** Modelled from the spec: User (session-scoped) is {Name, Format,
    Context, IP, X509Certificate?, Attributes}. *)
Module User.
Record t := mk {
  Name : string;
  Format : string;
  Context : string;
  IP : string;
  X509Certificate : bytes;
  Attributes : list Attribute.t
}.
End User.

(** Modelled from the spec: ArtifactResponse (cache blob) is
    {Request: AuthnRequest, User: User}. *)
Module ArtifactResponse.
Record t := mk {
  User : User.t;
  Request : AuthnRequest.t
}.
End ArtifactResponse.

End model.

(** ** The identity provider (idp/idp.go) *)

(** [type IDP struct], with the fields the modelled handlers use.  The
    interface values [PasswordValidator] and [signer] are held as their
    one method; [Error] is [http.Error] unless replaced. *)
Record IDP := mkIDP {
  TempCache : store.Cache;
  UserCache : store.Cache;
  PasswordValidator : string -> string -> error + gmap string (list string);
  Error : string -> Z -> http.ResponseWriter -> http.ResponseWriter;
  signer_CreateSignature : saml.Assertion.t -> error + string;
  cookieName : string;
  serverName : string;
  entityID : string;
  sps : gmap string ServiceProvider
}.

Definition with_TempCache (c : store.Cache) (i : IDP) : IDP :=
  {| TempCache := c; UserCache := UserCache i;
     PasswordValidator := PasswordValidator i; Error := Error i;
     signer_CreateSignature := signer_CreateSignature i;
     cookieName := cookieName i; serverName := serverName i;
     entityID := entityID i; sps := sps i |}.

Definition with_UserCache (c : store.Cache) (i : IDP) : IDP :=
  {| TempCache := TempCache i; UserCache := c;
     PasswordValidator := PasswordValidator i; Error := Error i;
     signer_CreateSignature := signer_CreateSignature i;
     cookieName := cookieName i; serverName := serverName i;
     entityID := entityID i; sps := sps i |}.

Definition with_sps (m : gmap string ServiceProvider) (i : IDP) : IDP :=
  {| TempCache := TempCache i; UserCache := UserCache i;
     PasswordValidator := PasswordValidator i; Error := Error i;
     signer_CreateSignature := signer_CreateSignature i;
     cookieName := cookieName i; serverName := serverName i;
     entityID := entityID i; sps := m |}.

(** ** idp/sp.go and idp/idp.go: the registry *)

Section Registry.
Context `{GoLib}.

(** [func (sp *ServiceProvider) parseCertificate() error], returning the
    service provider as the call leaves it. *)
Definition parseCertificate (sp : ServiceProvider) : result ServiceProvider :=
  match base64_DecodeString (Certificate sp) with
  | inl _ => Err "failed to parse PEM block containing the public key"
  | inr block =>
      match x509_ParseCertificate block with
      | inl err => Err ("failed to parse certificate: " ++ err)
      | inr key =>
          Ok {| EntityID := EntityID sp;
                AssertionConsumerServices := AssertionConsumerServices sp;
                SingleLogoutServices := SingleLogoutServices sp;
                Certificate := Certificate sp;
                publicKey := key |}
      end
  end.

(** The loop of [configureSPs] over the service providers read from the
    key [sps] of the configuration. *)
Fixpoint registerSPs (configured : list ServiceProvider)
    (registry : gmap string ServiceProvider) : result (gmap string ServiceProvider) :=
  match configured with
  | [] => Ok registry
  | sp :: configured' =>
      sp' <- parseCertificate sp ;;
      registerSPs configured' (<[EntityID sp' := sp']> registry)
  end.

(** [func (i *IDP) configureSPs() error], after [initSPs] has stored what
    it fetched: [configured] is what the key [sps] holds then.  An error
    makes [Handler] fail, so no engine is built. *)
Definition configureSPs (configured : list ServiceProvider) (i : IDP) : result IDP :=
  registry <- registerSPs configured ∅ ;;
  Ok (with_sps registry i).

(** [func (i *IDP) validateAuthRequest(request, r) error]; the state is
    the request the pointer designates. *)
Definition validateAuthRequest (i : IDP) (r : http.Request)
    : M saml.AuthnRequest.t (result unit) :=
  fun request =>
    if decide (saml.AuthnRequest.Issuer request = "") then
      (Err "request does not contain an issuer", request)
    else
      match sps i !! saml.AuthnRequest.Issuer request with
      | None => (Err "request from an unregistered issuer", request)
      | Some sp =>
          match selectedACS sp request with
          | None => (Err "unable to determine assertion consumer service", request)
          | Some acs =>
              let verify :=
                verifySignature (http.RawQuery r) (http.Form_Get r "SigAlg")
                  (http.Form_Get r "Signature") sp in
              if decide (saml.AuthnRequest.AssertionConsumerServiceURL request = "") then
                (verify,
                 saml.AuthnRequest.mk
                   (saml.AuthnRequest.RequestAbstractType request)
                   (Location acs)
                   (saml.AuthnRequest.ProtocolBinding request)
                   (saml.AuthnRequest.AssertionConsumerServiceIndex request))
              else if decide (saml.AuthnRequest.AssertionConsumerServiceURL request
                              ≠ Location acs) then
                (Err "assertion consumer location in request does not match metadata",
                 request)
              else (verify, request)
          end
      end.

End Registry.

(** ** The state of a handler call *)

(** The identity provider with its two caches, the environment, and the
    response written so far. *)
Record St := mkSt {
  idp : IDP;
  world : World;
  w : http.ResponseWriter
}.

Definition liftW {A} (m : M World A) : M St A :=
  fun s => let '(a, wd) := m (world s) in (a, mkSt (idp s) wd (w s)).

Definition getIDP : M St IDP := fun s => (idp s, s).

Definition writer (f : http.ResponseWriter -> http.ResponseWriter) : M St unit :=
  fun s => (tt, mkSt (idp s) (world s) (f (w s))).

(** [i.Error(w, error, code)]. *)
Definition IDP_Error (msg : string) (code : Z) : M St unit :=
  fun s => (tt, mkSt (idp s) (world s) (Error (idp s) msg code (w s))).

(** The cache calls read the clock.  Modelled from the spec: [Set] of the
    in-memory store inserts or replaces and returns no error. *)
Definition TempCache_Get (key : string) : M St (error + bytes) :=
  now <~ liftW time_Now ;;
  i <~ getIDP ;;
  ret (store.Get key now (TempCache i)).

Definition TempCache_Set (key : string) (data : bytes) : M St unit :=
  now <~ liftW time_Now ;;
  fun s => (tt, mkSt (with_TempCache (store.Set_ key data now (TempCache (idp s))) (idp s))
                     (world s) (w s)).

Definition UserCache_Set (key : string) (data : bytes) : M St unit :=
  now <~ liftW time_Now ;;
  fun s => (tt, mkSt (with_UserCache (store.Set_ key data now (UserCache (idp s))) (idp s))
                     (world s) (w s)).

(** Encoders, decoders and the parts of package [idp] that are not among
    the sources: protobuf and XML codecs, [net/url], [net.ParseIP], and the
    HTTP-POST and PAOS bindings chosen by [respond]. *)
Class Deps := {
  proto_Marshal_User : model.User.t -> error + bytes;
  proto_Marshal_ArtifactResponse : model.ArtifactResponse.t -> error + bytes;
  proto_Unmarshal_AuthnRequest : bytes -> error + model.AuthnRequest.t;
  proto_Unmarshal_ArtifactResponse : bytes -> error + model.ArtifactResponse.t;
  xml_Decode_ArtifactResolve : string -> error + saml.ArtifactResolve.t;
  xml_Encode_ArtifactResponse : saml.ArtifactResponse.t -> string;
  url_URL : Type;
  url_Parse : string -> error + url_URL;
  (** [target.RawQuery = q; target.String()]. *)
  url_String_with_RawQuery : url_URL -> string -> string;
  (** [getIP(r).String()]. *)
  getIP_String : http.Request -> string;
  sendPostResponse : model.AuthnRequest.t -> model.User.t -> http.Request -> M St (result unit);
  sendECPResponse : model.AuthnRequest.t -> model.User.t -> http.Request -> M St (result unit)
}.

(** ** idp/response.go *)

(** Modelled from the spec: [saml.NewID()] is a "new UUID-style SAML ID". *)
Definition saml_NewID : M World string := uuid_New.

(** Modelled from the spec: [user.AttributeStatement()] is
    "AttributeStatement = user.Attributes". *)
Definition User_AttributeStatement (user : model.User.t) : saml.AttributeStatement.t :=
  (fun a => (model.Attribute.Name a, model.Attribute.Value a)) <$> model.User.Attributes user.

(** [func (i *IDP) makeResponse(id, issuer string, user *model.User)]. *)
Definition makeResponse (i : IDP) (id issuer : string) (user : model.User.t)
    : M World saml.Response.t :=
  now <~ time_Now ;;
  let fiveFromNow := now + fiveMinutes in
  responseID <~ saml_NewID ;;
  assertionID <~ saml_NewID ;;
  ret (saml.Response.mk
    (saml.StatusResponseType.mk
       responseID "2.0" now (saml.NewIssuer (entityID i)) "" id
       (saml.Status.mk (saml.StatusCode.mk "urn:oasis:names:tc:SAML:2.0:status:Success")))
    ""
    (saml.Assertion.mk
       assertionID now (saml.NewIssuer (entityID i)) "2.0"
       (saml.Subject.mk
          (saml.NameID.mk (model.User.Format user) (entityID i) issuer (model.User.Name user))
          (saml.SubjectConfirmation.mk "urn:oasis:names:tc:SAML:2.0:cm:sender-vouches" None))
       (User_AttributeStatement user)
       (saml.Conditions.mk fiveFromNow now (saml.AudienceRestriction.mk issuer))
       None
       None)).

(** [func (i *IDP) makeAuthnResponse(request, user)]: the two assignments
    through [resp.Assertion] rebuild the assertion. *)
Definition makeAuthnResponse (i : IDP) (request : model.AuthnRequest.t) (user : model.User.t)
    : M World saml.Response.t :=
  now <~ time_Now ;;
  let fiveFromNow := now + fiveMinutes in
  resp <~ makeResponse i (model.AuthnRequest.ID request) (model.AuthnRequest.Issuer request) user ;;
  sessionIndex <~ saml_NewID ;;
  let a := saml.Response.Assertion resp in
  ret (saml.Response.mk
    (saml.Response.StatusResponseType resp)
    (saml.Response.RawAssertion resp)
    (saml.Assertion.mk
       (saml.Assertion.ID a) (saml.Assertion.IssueInstant a)
       (saml.Assertion.Issuer a) (saml.Assertion.Version a)
       (saml.Subject.mk
          (saml.Subject.NameID (saml.Assertion.Subject a))
          (saml.SubjectConfirmation.mk "urn:oasis:names:tc:SAML:2.0:cm:bearer"
             (Some (saml.SubjectConfirmationData.mk
                (model.User.IP user)
                (model.AuthnRequest.ID request)
                (model.AuthnRequest.AssertionConsumerServiceURL request)
                fiveFromNow))))
       (saml.Assertion.AttributeStatement a)
       (saml.Assertion.Conditions a)
       (Some (saml.AuthnStatement.mk now sessionIndex (serverName i) (model.User.Context user)))
       (saml.Assertion.Signature a))).

Section Artifact.
Context `{GoLib}.

(** [func getArtifact(entityID string) string]; the two [for] loops copy
    the digests into place. *)
Definition getArtifact (entityID : string) : M World string :=
  let artifact := replicate 44 x00 in
  let artifact := <[1%nat := x04]> artifact in
  let artifact := <[3%nat := x01]> artifact in
  let source := sha1_Sum (bytes_of entityID) in
  let artifact :=
    foldl (fun art i => <[i := source !!! (i - 4)%nat]> art) artifact (seq 4 20) in
  id <~ uuid_New ;;
  let message := sha1_Sum (bytes_of id) in
  let artifact :=
    foldl (fun art i => <[i := message !!! (i - 24)%nat]> art) artifact (seq 24 20) in
  ret (base64_EncodeToString artifact).

End Artifact.

(** ** idp/artifact.go, idp/response.go and idp/password.go: the handlers *)

(** [xml.Header]: the prologue, with its two quoted attribute values and
    the final newline. *)
Definition xml_Header : string :=
  let q := String (ascii_of_nat 34) "" in
  "<?xml version=" ++ q ++ "1.0" ++ q ++ " encoding=" ++ q ++ "UTF-8" ++ q ++ "?>"
  ++ String (ascii_of_nat 10) "".

Section Handlers.
Context `{GoLib} `{Deps}.

(** [func (i *IDP) sendArtifactResponse(authRequest, user, w, r) error].
    Neither error branch returns: after a failed [url.Parse], [target] is
    [nil] and the assignment to [target.RawQuery] panics.  The query is
    [parameters.Encode()], which sorts the two keys. *)
Definition sendArtifactResponse (authRequest : model.AuthnRequest.t) (user : model.User.t)
    (r : http.Request) : M St (result unit) :=
  let target := url_Parse (model.AuthnRequest.AssertionConsumerServiceURL authRequest) in
  match target with
  | inl err => IDP_Error err http.StatusInternalServerError
  | inr _ => ret tt
  end ;;;
  i <~ getIDP ;;
  artifact <~ liftW (getArtifact (entityID i)) ;;
  let response := model.ArtifactResponse.mk user authRequest in
  let marshalled := proto_Marshal_ArtifactResponse response in
  match marshalled with
  | inl err => IDP_Error err http.StatusInternalServerError
  | inr _ => ret tt
  end ;;;
  let data := match marshalled with inl _ => [] | inr data => data end in
  TempCache_Set artifact data ;;;
  let parameters :=
    "RelayState=" ++ url_QueryEscape (model.AuthnRequest.RelayState authRequest)
    ++ "&SAMLart=" ++ url_QueryEscape artifact in
  match target with
  | inl _ => ret (Panic "invalid memory address or nil pointer dereference")
  | inr target =>
      writer (http.Redirect (url_String_with_RawQuery target parameters) http.StatusFound) ;;;
      ret (Ok tt)
  end.

(** [func (i *IDP) respond(authRequest, user, w, r) error]. *)
Definition respond (authRequest : model.AuthnRequest.t) (user : model.User.t)
    (r : http.Request) : M St (result unit) :=
  match proto_Marshal_User user with
  | inl err => ret (Err err)
  | inr data =>
      session <~ liftW uuid_New ;;
      UserCache_Set session data ;;;
      i <~ getIDP ;;
      writer (http.SetCookie
        {| http.Name := cookieName i; http.Path := "/"; http.Value := session;
           http.MaxAge := 0; http.Secure := true; http.HttpOnly := true |}) ;;;
      let binding := model.AuthnRequest.ProtocolBinding authRequest in
      if decide (binding = "urn:oasis:names:tc:SAML:2.0:bindings:HTTP-Artifact") then
        sendArtifactResponse authRequest user r
      else if decide (binding = "urn:oasis:names:tc:SAML:2.0:bindings:HTTP-POST") then
        sendPostResponse authRequest user r
      else if decide (binding = "urn:oasis:names:tc:SAML:2.0:bindings:PAOS") then
        sendECPResponse authRequest user r
      else ret (Err "unsupported protocol binding")
  end.

(** [func (i *IDP) processArtifactResolutionRequest(w, r)].  The envelope
    holds a copy of [*response], whose [Assertion] pointer it shares, so
    the signature assigned afterwards is in what is encoded. *)
Definition processArtifactResolutionRequest (r : http.Request) : M St unit :=
  match xml_Decode_ArtifactResolve (http.Body r) with
  | inl err => IDP_Error err http.StatusInternalServerError
  | inr resolve =>
      let artifact := saml.ArtifactResolve.Artifact resolve in
      cached <~ TempCache_Get artifact ;;
      match cached with
      | inl err => IDP_Error err http.StatusInternalServerError
      | inr data =>
          match proto_Unmarshal_ArtifactResponse data with
          | inl err => IDP_Error err http.StatusInternalServerError
          | inr artifactResponse =>
              now <~ liftW time_Now ;;
              i <~ getIDP ;;
              response <~ liftW (makeAuthnResponse i
                            (model.ArtifactResponse.Request artifactResponse)
                            (model.ArtifactResponse.User artifactResponse)) ;;
              envelopeID <~ liftW saml_NewID ;;
              let status := saml.StatusResponseType.mk
                envelopeID "2.0" now (saml.NewIssuer (entityID i)) ""
                (saml.ArtifactResolve.ID resolve)
                (saml.Status.mk
                   (saml.StatusCode.mk "urn:oasis:names:tc:SAML:2.0:status:Success")) in
              let a := saml.Response.Assertion response in
              match signer_CreateSignature i a with
              | inl err => IDP_Error err http.StatusInternalServerError
              | inr signature =>
                  let signed := saml.Assertion.mk
                    (saml.Assertion.ID a) (saml.Assertion.IssueInstant a)
                    (saml.Assertion.Issuer a) (saml.Assertion.Version a)
                    (saml.Assertion.Subject a) (saml.Assertion.AttributeStatement a)
                    (saml.Assertion.Conditions a) (saml.Assertion.AuthnStatement a)
                    (Some signature) in
                  let artResponseEnv := saml.ArtifactResponse.mk status
                    (saml.Response.mk (saml.Response.StatusResponseType response)
                       (saml.Response.RawAssertion response) signed) in
                  writer (http.Write xml_Header) ;;;
                  writer (http.Write (xml_Encode_ArtifactResponse artResponseEnv))
              end
          end
      end
  end.

(** [func (i *IDP) DefaultArtifactResolveHandler() http.HandlerFunc]. *)
Definition DefaultArtifactResolveHandler (r : http.Request) : M St unit :=
  match http.ClientCert r with
  | inl err => IDP_Error err http.StatusUnauthorized
  | inr _ => processArtifactResolutionRequest r
  end.

(** [var ErrInvalidPassword]. *)
Definition ErrInvalidPassword : error := "invalid login or password".

(** [func (i *IDP) buildAttributes(attrs map[string][]string)]; Go ranges
    over the map in no fixed order, here the order of [map_to_list]. *)
Definition buildAttributes (attrs : gmap string (list string)) : list model.Attribute.t :=
  (fun kv => model.Attribute.mk kv.1 kv.2) <$> map_to_list attrs.

(** [func (i *IDP) loginWithPasswordForm(r, authnReq)], which returns a
    user or an error; the default [Auditor] does nothing. *)
Definition loginWithPasswordForm (i : IDP) (r : http.Request)
    (authnReq : model.AuthnRequest.t) : option model.User.t * option error :=
  let userName := http.Form_Get r "username" in
  match PasswordValidator i userName (http.Form_Get r "password") with
  | inl err => (None, Some ErrInvalidPassword)
  | inr attrs =>
      (Some (model.User.mk userName
               "urn:oasis:names:tc:SAML:1.1:nameid-format:unspecified"
               "urn:oasis:names:tc:SAML:2.0:ac:classes:PasswordProtectedTransport"
               (getIP_String r) [] (buildAttributes attrs)),
       None)
  end.

(** The [func() error] closure of [DefaultPasswordLoginHandler]. *)
Definition passwordLogin (requestID : string) (r : http.Request) : M St (result unit) :=
  data <~? (cached <~ TempCache_Get requestID ;; ret (of_lib cached)) ;;
  req <~? ret (of_lib (proto_Unmarshal_AuthnRequest data)) ;;
  i <~ getIDP ;;
  let '(user, err) := loginWithPasswordForm i r req in
  match user with
  | Some user => respond req user r
  | None =>
      if decide (err = Some ErrInvalidPassword) then
        ret (Err "invalid login or password. Please try again")
      else ret (Ok tt)
  end.

(** [func (i *IDP) DefaultPasswordLoginHandler() http.HandlerFunc]; the
    result is [Panic] when the handler panics, [Ok] when it returns. *)
Definition DefaultPasswordLoginHandler (r : http.Request) : M St (result unit) :=
  match http.ParseFormErr r with
  | Some err => IDP_Error err http.StatusInternalServerError ;;; ret (Ok tt)
  | None =>
      let requestID := http.Form_Get r "requestId" in
      outcome <~ passwordLogin requestID r ;;
      match outcome with
      | Err err =>
          writer (http.Redirect
            ("/idp/static/login.html?requestId=" ++ url_QueryEscape requestID
             ++ "&error=" ++ url_QueryEscape err)
            http.StatusFound) ;;;
          ret (Ok tt)
      | Ok _ => ret (Ok tt)
      | Panic reason => ret (Panic reason)
      end
  end.

End Handlers.

(** ** client/ldap.go: the LDAP password validator *)

Module ldap.

(** [ldap.SearchRequest] of go-ldap, as [ldap.NewSearchRequest] fills it. *)
Record SearchRequest := NewSearchRequest {
  BaseDN : string;
  Scope : Z;
  DerefAliases : Z;
  SizeLimit : Z;
  TimeLimit : Z;
  TypesOnly : bool;
  Filter : string;
  Attributes : list string
}.

Definition ScopeWholeSubtree : Z := 2.
Definition NeverDerefAliases : Z := 0.

(** An entry of a search result; [GetAttributeValues] gives no values
    for an attribute the entry lacks. *)
Record Entry := mkEntry {
  DN : string;
  Values : gmap string (list string)
}.

Definition GetAttributeValues (e : Entry) (attribute : string) : list string :=
  default [] (Values e !! attribute).

(** What a client sends to the directory. *)
Inductive Op :=
| Dial (addr : string)
| SimpleBind (username password : string)
| Search (request : SearchRequest)
| Close.

(** [ldap.LDAPResultCodeMap[ldap.LDAPResultNoSuchObject]]. *)
Definition NoSuchObject : string := "No Such Object".

End ldap.

(** The directory server: how it answers a dial, a bind and a search. *)
Class Directory := {
  ldap_DialURL : string -> option error;
  ldap_SimpleBind : string -> string -> option error;
  ldap_Search : ldap.SearchRequest -> error + list ldap.Entry
}.

(** [type LdapClient struct], with its embedded [ldapConfig]. *)
Record LdapClient := mkLdapClient {
  Addr : string;
  BindDN : string;
  BindDNCredential : string;
  SearchBase : string
}.

Section Ldap.
Context `{Directory}.

(** The state is the list of operations sent so far. *)
Definition send (op : ldap.Op) : M (list ldap.Op) unit :=
  fun sent => (tt, (sent ++ [op])%list).

(** [func (client *LdapClient) getConn(username, password)]. *)
Definition getConn (client : LdapClient) (username password : string)
    : M (list ldap.Op) (error + unit) :=
  send (ldap.Dial (Addr client)) ;;;
  match ldap_DialURL (Addr client) with
  | Some err => ret (inl err)
  | None =>
      send (ldap.SimpleBind username password) ;;;
      match ldap_SimpleBind username password with
      | Some err => ret (inl err)
      | None => ret (inr tt)
      end
  end.

Definition getConnWithAdmin (client : LdapClient) : M (list ldap.Op) (error + unit) :=
  getConn client (BindDN client) (BindDNCredential client).

(** [func (client *LdapClient) sendRequest(request)]; the deferred
    [conn.Close()] runs after the search. *)
Definition sendRequest (client : LdapClient) (request : ldap.SearchRequest)
    : M (list ldap.Op) (error + list ldap.Entry) :=
  conn <~ getConnWithAdmin client ;;
  match conn with
  | inl err => ret (inl err)
  | inr _ =>
      send (ldap.Search request) ;;;
      let result := ldap_Search request in
      send ldap.Close ;;;
      ret result
  end.

Definition buildSearchRequest (dn filter : string) (attributes : list string)
    : ldap.SearchRequest :=
  ldap.NewSearchRequest dn ldap.ScopeWholeSubtree ldap.NeverDerefAliases 0 0 false
    filter attributes.

(** [func (client *LdapClient) getAttributes(entry, attributes)]. *)
Definition getAttributes (entry : ldap.Entry) (attributes : list string)
    : gmap string (list string) :=
  foldl (fun attrs attribute => <[attribute := ldap.GetAttributeValues entry attribute]> attrs)
    ∅ attributes.

(** The [for _, entry := range result.Entries] loop of [Authenticate]. *)
Fixpoint bindEntries (client : LdapClient) (password : string) (attributes : list string)
    (entries : list ldap.Entry) : M (list ldap.Op) (error + gmap string (list string)) :=
  match entries with
  | [] => ret (inl ldap.NoSuchObject)
  | entry :: entries' =>
      conn <~ getConn client (ldap.DN entry) password ;;
      match conn with
      | inl _ => bindEntries client password attributes entries'
      | inr _ =>
          send ldap.Close ;;;
          ret (inr (getAttributes entry attributes))
      end
  end.

(** The filter [fmt.Sprintf("(cn=%s)", username)]. *)
Definition searchFilter (username : string) : string :=
  "(cn=" ++ username ++ ")".

(** [func (client *LdapClient) Authenticate(username, password)]. *)
Definition Authenticate (client : LdapClient) (username password : string)
    : M (list ldap.Op) (error + gmap string (list string)) :=
  let attributes := ["cn"; "gidNumber"; "memberUid"; "uid"; "uidNumber"; "mail"] in
  let request := buildSearchRequest (SearchBase client) (searchFilter username) attributes in
  result <~ sendRequest client request ;;
  match result with
  | inl _ => ret (inl "can not find user's DN")
  | inr entries => bindEntries client password attributes entries
  end.

End Ldap.

(** RFC 4515, section 3: in a filter value the bytes [*], [(], [)], [\]
    and NUL are written as a backslash and two hexadecimal digits. *)
Definition rfc4515_special (c : ascii) : bool :=
  let n := N_of_ascii c in
  ((n =? 42) || (n =? 40) || (n =? 41) || (n =? 92) || (n =? 0))%N.

Definition lowerhex (n : N) : ascii :=
  match get (N.to_nat n) "0123456789abcdef" with
  | Some c => c
  | None => "0"%char
  end.

Fixpoint rfc4515_escape (s : string) : string :=
  match s with
  | EmptyString => EmptyString
  | String c s' =>
      if rfc4515_special c then
        let n := N_of_ascii c in
        String (ascii_of_nat 92) (String (lowerhex (n / 16)) (String (lowerhex (n mod 16))
          (rfc4515_escape s')))
      else String c (rfc4515_escape s')
  end.

(** The filter the specification asks for: the name escaped, then
    substituted. *)
Definition searchFilter_escaped (username : string) : string :=
  "(cn=" ++ rfc4515_escape username ++ ")".

(** ** Vocabulary of the statements *)

(** An entry answers a request when the request names its index or its
    location. *)
Definition answers (request : saml.AuthnRequest.t) (a : AssertionConsumerService) : Prop :=
  Index a = saml.AuthnRequest.AssertionConsumerServiceIndex request
  ∨ Location a = saml.AuthnRequest.AssertionConsumerServiceURL request.

#[global] Instance answers_dec request a : Decision (answers request a).
Proof. unfold answers. apply _. Defined.

(** The selection in the words of the specification: the entry with the
    index of the request; else the entry with its URL; else the first
    default entry. *)
Definition SelectACS_spec (sp : ServiceProvider) (request : saml.AuthnRequest.t)
    : option AssertionConsumerService :=
  let l := AssertionConsumerServices sp in
  match List.find (fun a => bool_decide
          (Index a = saml.AuthnRequest.AssertionConsumerServiceIndex request)) l with
  | Some a => Some a
  | None =>
      match List.find (fun a => bool_decide
              (Location a = saml.AuthnRequest.AssertionConsumerServiceURL request)) l with
      | Some a => Some a
      | None => List.find IsDefault l
      end
  end.

(** The metadata with the entries at [i] and [j] exchanged. *)
Definition swapACS (i j : nat) (sp : ServiceProvider) : ServiceProvider :=
  let l := AssertionConsumerServices sp in
  {| EntityID := EntityID sp;
     AssertionConsumerServices :=
       match l !! i, l !! j with
       | Some a, Some b => <[j := a]> (<[i := b]> l)
       | _, _ => l
       end;
     SingleLogoutServices := SingleLogoutServices sp;
     Certificate := Certificate sp;
     publicKey := publicKey sp |}.

(** A byte occurs in a string. *)
Fixpoint occurs (c : ascii) (s : string) : bool :=
  match s with
  | EmptyString => false
  | String c' s' => bool_decide (c' = c) || occurs c s'
  end.

(** A query parameter whose name and raw value hold neither [&] nor [=],
    as in a URL-encoded query. *)
Definition encoded (kv : string * string) : Prop :=
  occurs "&" kv.1 = false ∧ occurs "=" kv.1 = false
  ∧ occurs "&" kv.2 = false ∧ occurs "=" kv.2 = false.

(** The raw query made of the parameters [ps], in their order. *)
Definition component (kv : string * string) : string := kv.1 ++ "=" ++ kv.2.

Definition rawQueryOf (ps : list (string * string)) : string :=
  strings_Join (component <$> ps) "&".

(** The name and the raw value of a component [k=v]. *)
Definition parameterOf (p : string) : string * string :=
  match strings_Split p "=" with
  | [k; v] => (k, v)
  | _ => ("", "")
  end.

(** The parameter [key] occurs in [ps] with the raw value [v] only
    ([Some v]), or does not occur ([None]). *)
Definition param (ps : list (string * string)) (key : string) (v : option string) : Prop :=
  forall v', (key, v') ∈ ps <-> v = Some v'.

(** The four signature algorithms of [verifySignature]. *)
Definition supportedAlgorithms : list string :=
  [ "http://www.w3.org/2000/09/xmldsig#rsa-sha1";
    "http://www.w3.org/2001/04/xmldsig-more#rsa-sha256";
    "http://www.w3.org/2000/09/xmldsig#dsa-sha1";
    "http://www.w3.org/2009/xmldsig11#dsa-sha256" ].

Definition dsaAlgorithms : list string :=
  [ "http://www.w3.org/2000/09/xmldsig#dsa-sha1";
    "http://www.w3.org/2009/xmldsig11#dsa-sha256" ].

Definition rsaAlgorithms : list string :=
  [ "http://www.w3.org/2000/09/xmldsig#rsa-sha1";
    "http://www.w3.org/2001/04/xmldsig-more#rsa-sha256" ].

(** A call is rejected when it returns an error. *)
Definition rejected {T} (r : result T) : Prop := ∃ e, r = Err e.

(** The certificate of a service provider decodes and parses, and the key
    held is the key of the certificate. *)
Definition certified `{GoLib} (sp : ServiceProvider) : Prop :=
  ∃ block, base64_DecodeString (Certificate sp) = inr block
           ∧ x509_ParseCertificate block = inr (publicKey sp).

(** The bytes [getArtifact] encodes. *)
Definition artifactBytes `{GoLib} (entityID id : string) : bytes :=
  [x00; x04; x00; x01] ++ sha1_Sum (bytes_of entityID) ++ sha1_Sum (bytes_of id).

(** The state in which the next request is served: the identity provider
    and the environment as they are, and a new response writer. *)
Definition nextRequest (s : St) : St := mkSt (idp s) (world s) http.empty.

(** The search requests among the operations sent to the directory. *)
Definition searches (sent : list ldap.Op) : list ldap.SearchRequest :=
  omap (fun op => match op with ldap.Search request => Some request | _ => None end) sent.

(** A name without the bytes RFC 4515 has escaped. *)
Fixpoint rfc4515_plain (s : string) : bool :=
  match s with
  | EmptyString => true
  | String c s' => negb (rfc4515_special c) && rfc4515_plain s'
  end.

(** ** Stand-ins for the libraries, to run the model on examples

    A digest is the input cut or padded to its size; base64 is the
    identity on bytes; an ASN.1 signature is two bytes and a rest; the
    first byte of a certificate names the algorithm of its key. *)

Definition sampleDigest (size : nat) (data : bytes) : bytes :=
  take size (data ++ replicate size x00).

Definition sampleKey (block : bytes) : error + PublicKey :=
  match block with
  | x52 :: _ => inr (RSAKey {| rsaN := 3233; rsaE := 17 |})
  | x44 :: _ => inr (DSAKey {| dsaP := 23; dsaQ := 11; dsaG := 4; dsaY := 8 |})
  | x45 :: _ => inr (OtherKey "ECDSA")
  | _ => inl "x509: malformed certificate"
  end.

#[local] Instance sampleLib : GoLib.
Proof.
  refine {|
    base64_DecodeString := fun s => inr (bytes_of s);
    base64_EncodeToString := string_of_list_byte;
    sha1_Sum := sampleDigest 20;
    sha256_Sum := sampleDigest 32;
    rsa_VerifyPKCS1v15 := fun _ _ sum signature =>
      if decide (sum = signature) then None else Some "crypto/rsa: verification error";
    dsa_Verify := fun _ _ _ _ => false;
    asn1_Unmarshal := fun signature =>
      match signature with
      | r :: s :: rest => inr (Z.of_N (Byte.to_N r), Z.of_N (Byte.to_N s), rest)
      | _ => inl "asn1: syntax error"
      end;
    x509_ParseCertificate := sampleKey
  |}.
  intros data. unfold sampleDigest.
  rewrite length_take, length_app, length_replicate. lia.
Defined.

(** ** Examples the statements are run on *)

Definition bindingPOST : string := "urn:oasis:names:tc:SAML:2.0:bindings:HTTP-POST".
Definition bindingArtifact : string := "urn:oasis:names:tc:SAML:2.0:bindings:HTTP-Artifact".

Definition acsU : AssertionConsumerService :=
  mkACS 1 false bindingPOST "https://sp.example/acs/u".
Definition acsV : AssertionConsumerService :=
  mkACS 0 false bindingPOST "https://sp.example/acs/v".
Definition acsD : AssertionConsumerService :=
  mkACS 2 true bindingPOST "https://sp.example/acs/d".

(** A service provider with an RSA key and the entries [acss]. *)
Definition spWith (acss : list AssertionConsumerService) : ServiceProvider :=
  mkSP "https://sp.example/" acss [] "RSA certificate"
    (RSAKey {| rsaN := 3233; rsaE := 17 |}).

(** An authentication request of that service provider. *)
Definition requestFor (url : string) (index : Z) : saml.AuthnRequest.t :=
  saml.AuthnRequest.mk
    (saml.RequestAbstractType.mk "_abc" "2.0" 0 "https://sp.example/" "")
    url bindingPOST index.

(** An identity provider with the registry [registry], the caches
    [temp] and [users] and the password validator [validator]; its signer
    signs every assertion. *)
Definition idpWith (registry : gmap string ServiceProvider) (temp users : store.Cache)
    (validator : string -> string -> error + gmap string (list string)) : IDP :=
  {| TempCache := temp; UserCache := users;
     PasswordValidator := validator;
     Error := http.Error;
     signer_CreateSignature := fun _ => inr "signature";
     cookieName := "idp-sess";
     serverName := "idp.example";
     entityID := "https://idp.example/";
     sps := registry |}.

Definition noPassword : string -> string -> error + gmap string (list string) :=
  fun _ _ => inl "Invalid Credentials".

(** A request with the raw query [rawQuery] and the form [form], without
    cookies and without a client certificate. *)
Definition requestWith (rawQuery : string) (form : gmap string (list string))
    (body : string) : http.Request :=
  http.mkRequest rawQuery None form [] body (inl "no client certificate").

(** The parameters of a signed redirect query, RelayState and Signature
    among them, in an order other than the canonical one. *)
Definition signedParams : list (string * string) :=
  [ ("SigAlg", "http%3A%2F%2Fwww.w3.org%2F2000%2F09%2Fxmldsig%23rsa-sha1");
    ("RelayState", "a%20b");
    ("Signature", "c2lnbmVk");
    ("SAMLRequest", "fZJNT8Mw%3D%3D") ].

(** A service provider as the configuration holds it, before
    [parseCertificate]: the key is [nil]. *)
Definition spConfigured : ServiceProvider :=
  mkSP "https://sp.example/" [acsV] [] "RSA certificate" NilKey.

(** A cached authentication request and a user. *)
Definition exampleRequest : model.AuthnRequest.t :=
  model.AuthnRequest.mk "_abc" "https://sp.example/" "https://sp.example/acs/v" 0
    bindingArtifact "state" 0 "".

Definition exampleUser : model.User.t :=
  model.User.mk "alice" "urn:oasis:names:tc:SAML:1.1:nameid-format:unspecified"
    "urn:oasis:names:tc:SAML:2.0:ac:classes:PasswordProtectedTransport"
    "192.0.2.7" [] [].

Definition exampleIDP : IDP :=
  idpWith {[ "https://sp.example/" := spWith [acsV] ]}
    (store.mkCache 300 ∅) (store.mkCache 28800 ∅) noPassword.

(** Stand-ins for the codecs: the decoders know the two blobs of the
    examples; the body of an ArtifactResolve is its artifact; a URL is its
    text; the bindings that are not modelled write nothing. *)
#[local] Instance sampleDeps : Deps := {|
  proto_Marshal_User := fun _ => inr (bytes_of "user");
  proto_Marshal_ArtifactResponse := fun _ => inr (bytes_of "artifact response");
  proto_Unmarshal_AuthnRequest := fun data =>
    if decide (data = bytes_of "request") then inr exampleRequest
    else inl "proto: cannot parse invalid wire-format data";
  proto_Unmarshal_ArtifactResponse := fun data =>
    if decide (data = bytes_of "artifact response")
    then inr (model.ArtifactResponse.mk exampleUser exampleRequest)
    else inl "proto: cannot parse invalid wire-format data";
  xml_Decode_ArtifactResolve := fun body =>
    inr (saml.ArtifactResolve.mk
           (saml.RequestAbstractType.mk "_resolve" "2.0" 0 "https://sp.example/" "")
           body);
  xml_Encode_ArtifactResponse := fun _ => "<Envelope/>";
  url_URL := string;
  url_Parse := fun text => inr text;
  url_String_with_RawQuery := fun target query => target ++ "?" ++ query;
  getIP_String := fun _ => "192.0.2.7";
  sendPostResponse := fun _ _ _ => ret (Ok tt);
  sendECPResponse := fun _ _ _ => ret (Ok tt)
|}.

(** The form of a password login. *)
Definition loginForm (requestId username password : string) : gmap string (list string) :=
  {[ "requestId" := [requestId]; "username" := [username]; "password" := [password] ]}.

(** A state in which the request cache holds the request blob under the
    key 1234 until the reading 5000. *)
Definition loginState : St :=
  mkSt (idpWith {[ "https://sp.example/" := spWith [acsV] ]}
          (store.mkCache 300 {[ "1234" := (bytes_of "request", 5000) ]})
          (store.mkCache 28800 ∅) noPassword)
       (mkWorld [4000; 4001] ["uuid-1"; "uuid-2"])
       http.empty.

(** An ArtifactResolve for [artifact] over a connection with a client
    certificate. *)
Definition resolveRequest (artifact : string) : http.Request :=
  http.mkRequest "" None ∅ [] artifact (inr "CN=sp.example").

(** The artifact flow of the examples: the redirect at the reading 1000,
    with a request cache that keeps entries for 300, then two
    resolutions at the readings 1100 and 1200. *)
Definition artifactState : St :=
  mkSt exampleIDP
       (mkWorld [1000; 1100; 1101; 1102; 1103; 1200; 1201; 1202; 1203]
                ["uuid-1"; "id-1"; "id-2"; "id-3"; "id-4"; "id-5"; "id-6"; "id-7"; "id-8"])
       http.empty.

Definition exampleArtifact : string :=
  (getArtifact (entityID exampleIDP) (world artifactState)).1.

Definition afterRedirect : St :=
  (sendArtifactResponse exampleRequest exampleUser (requestWith "" ∅ "") artifactState).2.

Definition afterResolve : St :=
  (DefaultArtifactResolveHandler (resolveRequest exampleArtifact)
     (nextRequest afterRedirect)).2.

Definition afterSecondResolve : St :=
  (DefaultArtifactResolveHandler (resolveRequest exampleArtifact)
     (nextRequest afterResolve)).2.

(** A directory with two people who share a password; it answers the
    filters of the examples. *)
Definition entryAlice : ldap.Entry :=
  ldap.mkEntry "cn=alice,ou=people,dc=example" {[ "cn" := ["alice"]; "uid" := ["alice"] ]}.
Definition entryBob : ldap.Entry :=
  ldap.mkEntry "cn=bob,ou=people,dc=example" {[ "cn" := ["bob"]; "uid" := ["bob"] ]}.

#[local] Instance sampleDirectory : Directory := {|
  ldap_DialURL := fun _ => None;
  ldap_SimpleBind := fun username password =>
    if decide (password = "secret") then None else Some "Invalid Credentials";
  ldap_Search := fun request =>
    if decide (ldap.Filter request = "(cn=*)") then inr [entryAlice; entryBob]
    else if decide (ldap.Filter request = "(cn=alice)") then inr [entryAlice]
    else if decide (ldap.Filter request = "(cn=bob)") then inr [entryBob]
    else inr []
|}.

Definition sampleClient : LdapClient :=
  mkLdapClient "ldap://localhost:389" "cn=admin,dc=example" "secret" "ou=people,dc=example".

(** * Further functions of the packages *)

(** ** idp/sp.go: reading and saving metadata *)

Module metadata.

(** Modelled from the spec: the metadata types of package [saml] are not
    among the sources.  An endpoint has the four fields [convertMetadata]
    copies; a descriptor has the entity ID, the certificate of the
    [X509Data] element ([None] when the pointer is [nil]) and the two
    lists of endpoints. *)
Record IndexedEndpoint := mkEndpoint {
  Index : Z;
  IsDefault : bool;
  Binding : string;
  Location : string
}.

Record SPEntityDescriptor := mkDescriptor {
  EntityID : string;
  X509Data : option string;
  AssertionConsumerService : list IndexedEndpoint;
  SingleLogoutService : list IndexedEndpoint
}.

End metadata.

(** [s := make([]B, len(l)); for i, val := range l { s[i] = f(val) }]. *)
Definition fillSlice {A B} (f : A -> B) (zero : B) (l : list A) : list B :=
  foldl (fun s iv => <[iv.1 := f iv.2]> s) (replicate (length l) zero) (imap pair l).

Definition toACS (val : metadata.IndexedEndpoint) : AssertionConsumerService :=
  mkACS (metadata.Index val) (metadata.IsDefault val) (metadata.Binding val)
    (metadata.Location val).

Definition toSLO (val : metadata.IndexedEndpoint) : SingleLogoutService :=
  mkSLO (metadata.Index val) (metadata.IsDefault val) (metadata.Binding val)
    (metadata.Location val).

(** [func convertMetadata(spMeta *saml.SPEntityDescriptor)]; [None] is the
    [nil] pointer.  The key is left [nil]. *)
Definition convertMetadata (spMeta : option metadata.SPEntityDescriptor)
    : result ServiceProvider :=
  match spMeta with
  | None => Err "service provider entity descriptor not found"
  | Some spMeta =>
      match metadata.X509Data spMeta with
      | None =>
          Err "service provider's SSO descriptor does not contain required X509Data element"
      | Some certificate =>
          Ok {| EntityID := metadata.EntityID spMeta;
                AssertionConsumerServices :=
                  fillSlice toACS (mkACS 0 false "" "")
                    (metadata.AssertionConsumerService spMeta);
                SingleLogoutServices :=
                  fillSlice toSLO (mkSLO 0 false "" "")
                    (metadata.SingleLogoutService spMeta);
                Certificate := certificate;
                publicKey := NilKey |}
      end
  end.

(** The loop of [SaveSpFromMetadata] over the configured service
    providers: the first with the entity ID of the new one is replaced;
    [None] when the loop ends with [found] false. *)
Fixpoint replaceFirst (serviceProvider : ServiceProvider) (sps : list ServiceProvider)
    : option (list ServiceProvider) :=
  match sps with
  | [] => None
  | client :: sps' =>
      if decide (EntityID client = EntityID serviceProvider)
      then Some (serviceProvider :: sps')
      else (fun l => client :: l) <$> replaceFirst serviceProvider sps'
  end.

(** The list [SaveSpFromMetadata] hands to [viper.Set]. *)
Definition upsertSP (serviceProvider : ServiceProvider) (sps : list ServiceProvider)
    : list ServiceProvider :=
  match replaceFirst serviceProvider sps with
  | Some sps' => sps'
  | None => (sps ++ [serviceProvider])%list
  end.

(** The XML decoder of metadata and the configuration file. *)
Class ConfigLib := {
  xml_Decode_SPEntityDescriptor : string -> error + metadata.SPEntityDescriptor;
  viper_WriteConfig : list ServiceProvider -> option error
}.

(** [func ReadSPMetadata(metadata io.Reader)]. *)
Definition ReadSPMetadata `{ConfigLib} (text : string) : result ServiceProvider :=
  sp <- of_lib (xml_Decode_SPEntityDescriptor text) ;;
  convertMetadata (Some sp).

(** [func SaveSpFromMetadata(metadata io.ReadCloser) error]; the state is
    what [viper.UnmarshalKey] yields for the key [sps] of the
    configuration: an error or the list, which [viper.Set] replaces. *)
Definition SaveSpFromMetadata `{ConfigLib} (text : string)
    : M (error + list ServiceProvider) (result unit) :=
  fun config =>
    match ReadSPMetadata text with
    | Ok serviceProvider =>
        match config with
        | inl err => (Err err, config)
        | inr sps =>
            let sps' := upsertSP serviceProvider sps in
            (of_error (viper_WriteConfig sps'), inr sps')
        end
    | Err e => (Err e, config)
    | Panic p => (Panic p, config)
    end.

(** ** idp/idp.go: the remote address and the attribute sources *)

(** The text [getIP] hands to [net.ParseIP]: the remote address up to its
    first colon. *)
Definition getIP_text (remoteAddr : string) : string :=
  if occurs ":" remoteAddr then hd "" (strings_Split remoteAddr ":") else remoteAddr.

(** An [AttributeSource]: [AddAttributes] may change the user and may
    return an error. *)
Definition AttributeSource : Type :=
  model.User.t -> model.AuthnRequest.t -> model.User.t * option error.

(** [func (i *IDP) setUserAttributes(user, req) error]; the state is the
    user the pointer designates. *)
Fixpoint setUserAttributes (sources : list AttributeSource) (req : model.AuthnRequest.t)
    : M model.User.t (option error) :=
  match sources with
  | [] => ret None
  | source :: sources' =>
      fun user =>
        let '(user', err) := source user req in
        match err with
        | Some e => (Some e, user')
        | None => setUserAttributes sources' req user'
        end
  end.

(** Modelled from the spec: [user.AppendAttributes(atts)] of package [model]
    is not among the sources; "each source appends to user.Attributes". *)
Definition User_AppendAttributes (atts : list model.Attribute.t) (user : model.User.t)
    : model.User.t :=
  model.User.mk (model.User.Name user) (model.User.Format user) (model.User.Context user)
    (model.User.IP user) (model.User.X509Certificate user)
    (model.User.Attributes user ++ atts)%list.

(** [func (ss *simpleSource) AddAttributes(user, _) error]. *)
Definition simpleSource (users : gmap string (list model.Attribute.t)) : AttributeSource :=
  fun user _ =>
    match users !! model.User.Name user with
    | Some atts => (User_AppendAttributes atts user, None)
    | None => (user, None)
    end.

(** ** idp/sso.go: sessions, logout and the redirect handlers *)

(** [type LogoutRequest struct] of package [saml] (saml/protocol.go), with
    the fields the handlers use. *)
Module LogoutRequest.
Record t := mk {
  RequestAbstractType : saml.RequestAbstractType.t;
  SingleLogoutServiceUrl : string;
  LogoutResponse : string;
  ProtocolBinding : string
}.
Definition Issuer (r : t) :=
  saml.RequestAbstractType.Issuer (RequestAbstractType r).
End LogoutRequest.

(** [func (i *IDP) validateLogoutRequest(request, r) error]; the state is
    the request the pointer designates.  The HTTP request is not read. *)
Definition validateLogoutRequest (i : IDP) (r : http.Request)
    : M LogoutRequest.t (result unit) :=
  fun request =>
    if decide (LogoutRequest.Issuer request = "") then
      (Err "request does not contain an issuer", request)
    else
      match sps i !! LogoutRequest.Issuer request with
      | None => (Err "request from an unregistered issuer", request)
      | Some sp =>
          match SingleLogoutServices sp with
          | [] => (Err "sp slo api not found", request)
          | slos :: _ =>
              if decide (LogoutRequest.SingleLogoutServiceUrl request = "") then
                (Ok tt,
                 LogoutRequest.mk (LogoutRequest.RequestAbstractType request)
                   (sloLocation slos) (LogoutRequest.LogoutResponse request)
                   (sloBinding slos))
              else if decide (LogoutRequest.SingleLogoutServiceUrl request
                              ≠ sloLocation slos) then
                (Err "slo in request does not match metadata", request)
              else (Ok tt, request)
          end
      end.

Definition UserCache_Get (key : string) : M St (error + bytes) :=
  now <~ liftW time_Now ;;
  i <~ getIDP ;;
  ret (store.Get key now (UserCache i)).

(** Modelled from the spec: [Delete] of the in-memory store returns no
    error. *)
Definition UserCache_Delete (key : string) : M St unit :=
  fun s => (tt, mkSt (with_UserCache (store.Delete key (UserCache (idp s))) (idp s))
                     (world s) (w s)).

(** What the redirect handlers need beside [GoLib] and [Deps]: the reader
    that inflates and decodes a request, [model.NewAuthnRequest], two more
    protobuf codecs, the raw bytes of the client certificate and the
    attribute sources of the identity provider. *)
Class SSODeps := {
  flate_xml_Decode_AuthnRequest : bytes -> error + saml.AuthnRequest.t;
  flate_xml_Decode_LogoutRequest : bytes -> error + LogoutRequest.t;
  model_NewAuthnRequest : saml.AuthnRequest.t -> string -> error + model.AuthnRequest.t;
  proto_Marshal_AuthnRequest : model.AuthnRequest.t -> error + bytes;
  proto_Unmarshal_User : bytes -> error + model.User.t;
  clientCert_Raw : http.Request -> bytes;
  AttributeSources : list AttributeSource
}.

(** [func (i *IDP) LogoutPost(logoutReq) []byte]: [text/template] writes
    the two values as they are. *)
Definition LogoutPost (logoutReq : LogoutRequest.t) : string :=
  let q := String (ascii_of_nat 34) "" in
  "<form method=" ++ q ++ "post" ++ q ++ " action=" ++ q
  ++ LogoutRequest.SingleLogoutServiceUrl logoutReq
  ++ q ++ " id=" ++ q ++ "SAMLRequestForm" ++ q ++ ">"
  ++ "<input type=" ++ q ++ "hidden" ++ q ++ " name=" ++ q ++ "logoutResponse" ++ q
  ++ " value=" ++ q ++ LogoutRequest.LogoutResponse logoutReq ++ q ++ " />"
  ++ "<input id=" ++ q ++ "SAMLSubmitButton" ++ q ++ " type=" ++ q ++ "submit" ++ q
  ++ " value=" ++ q ++ "Submit" ++ q ++ " />"
  ++ "</form>"
  ++ "<script>document.getElementById('SAMLSubmitButton').style.visibility="
  ++ q ++ "hidden" ++ q ++ ";"
  ++ "document.getElementById('SAMLRequestForm').submit();</script>".

Definition StatusBadRequest : Z := 400.
Definition StatusTemporaryRedirect : Z := 307.

Section Redirect.
Context `{GoLib} `{Deps} `{SSODeps}.

(** [func (i *IDP) getUserFromSession(r) *model.User]. *)
Definition getUserFromSession (r : http.Request) : M St (option model.User.t) :=
  i <~ getIDP ;;
  match http.Request_Cookie r (cookieName i) with
  | None => ret None
  | Some cookie =>
      cached <~ UserCache_Get (http.Value cookie) ;;
      match cached with
      | inl _ => ret None
      | inr data =>
          match proto_Unmarshal_User data with
          | inl _ => ret None
          | inr user => ret (Some user)
          end
      end
  end.

(** [func (i *IDP) deleteUserFromSession(r)]. *)
Definition deleteUserFromSession (r : http.Request) : M St unit :=
  i <~ getIDP ;;
  match http.Request_Cookie r (cookieName i) with
  | None => ret tt
  | Some cookie =>
      cached <~ UserCache_Get (http.Value cookie) ;;
      match cached with
      | inl _ => ret tt
      | inr _ => UserCache_Delete (http.Value cookie)
      end
  end.

(** [func (i *IDP) loginWithCert(r, authnReq)], which returns a user, an
    error, or neither; the subject name of the certificate is what
    [getSubjectDN] returns. *)
Definition loginWithCert (r : http.Request) (authnReq : model.AuthnRequest.t)
    : option model.User.t * option error :=
  match http.ClientCert r with
  | inr subject =>
      let user := model.User.mk subject
        "urn:oasis:names:tc:SAML:1.1:nameid-format:X509SubjectName"
        "urn:oasis:names:tc:SAML:2.0:ac:classes:X509"
        (getIP_String r) (clientCert_Raw r) [] in
      match setUserAttributes AttributeSources authnReq user with
      | (Some err, _) => (None, Some err)
      | (None, user') => (Some user', None)
      end
  | inl _ => (None, None)
  end.

(** The [func() error] closure of [DefaultRedirectSSOHandler]. *)
Definition redirectSSO (r : http.Request) : M St (result unit) :=
  match http.ParseFormErr r with
  | Some err => ret (Err err)
  | None =>
      let relayState := http.Form_Get r "RelayState" in
      if decide (80 < String.length relayState)%nat then
        ret (Err "RelayState cannot be longer than 80 characters")
      else
        let samlReq := http.Form_Get r "SAMLRequest" in
        reqBytes <~? ret (of_lib (base64_DecodeString samlReq)) ;;
        loginReq <~? ret (of_lib (flate_xml_Decode_AuthnRequest reqBytes)) ;;
        i <~ getIDP ;;
        let '(valid, loginReq) := validateAuthRequest i r loginReq in
        _ <~? ret valid ;;
        saveableRequest <~? ret (of_lib (model_NewAuthnRequest loginReq relayState)) ;;
        session <~ getUserFromSession r ;;
        match session with
        | Some user => respond saveableRequest user r
        | None =>
            match loginWithCert r saveableRequest with
            | (Some user, _) => respond saveableRequest user r
            | (None, Some err) => ret (Err err)
            | (None, None) =>
                data <~? ret (of_lib (proto_Marshal_AuthnRequest saveableRequest)) ;;
                id <~ liftW uuid_New ;;
                TempCache_Set id data ;;;
                writer (http.Redirect
                  ("/idp/static/login.html?requestId=" ++ url_QueryEscape id)
                  StatusTemporaryRedirect) ;;;
                ret (Ok tt)
            end
        end
  end.

(** [func (i *IDP) DefaultRedirectSSOHandler() http.HandlerFunc]; the
    result is [Panic] when the handler panics, [Ok] when it returns. *)
Definition DefaultRedirectSSOHandler (r : http.Request) : M St (result unit) :=
  outcome <~ redirectSSO r ;;
  match outcome with
  | Err err => IDP_Error err StatusBadRequest ;;; ret (Ok tt)
  | Ok _ => ret (Ok tt)
  | Panic reason => ret (Panic reason)
  end.

(** The [func() error] closure of [DefaultRedirectSLOHandler]; of the
    headers only the cookie is kept. *)
Definition redirectSLO (r : http.Request) : M St (result unit) :=
  match http.ParseFormErr r with
  | Some err => ret (Err err)
  | None =>
      let samlReq := http.Form_Get r "SAMLRequest" in
      reqBytes <~? ret (of_lib (base64_DecodeString samlReq)) ;;
      logoutReq <~? ret (of_lib (flate_xml_Decode_LogoutRequest reqBytes)) ;;
      i <~ getIDP ;;
      let '(valid, logoutReq) := validateLogoutRequest i r logoutReq in
      _ <~? ret valid ;;
      deleteUserFromSession r ;;;
      writer (http.SetCookie
        {| http.Name := cookieName i; http.Value := ""; http.Path := "";
           http.MaxAge := -1; http.Secure := false; http.HttpOnly := false |}) ;;;
      let binding := LogoutRequest.ProtocolBinding logoutReq in
      if decide (binding = "urn:oasis:names:tc:SAML:2.0:bindings:HTTP-POST") then
        writer (http.Write "<!DOCTYPE html><html><body>") ;;;
        writer (http.Write (LogoutPost logoutReq)) ;;;
        writer (http.Write "</body></html>") ;;;
        ret (Ok tt)
      else if decide (binding = "urn:oasis:names:tc:SAML:2.0:bindings:HTTP-Redirect") then
        writer (http.Redirect (LogoutRequest.SingleLogoutServiceUrl logoutReq)
                  http.StatusFound) ;;;
        ret (Ok tt)
      else ret (Err "unsupported protocol binding")
  end.

(** [func (i *IDP) DefaultRedirectSLOHandler() http.HandlerFunc]. *)
Definition DefaultRedirectSLOHandler (r : http.Request) : M St (result unit) :=
  outcome <~ redirectSLO r ;;
  match outcome with
  | Err err => IDP_Error err StatusBadRequest ;;; ret (Ok tt)
  | Ok _ => ret (Ok tt)
  | Panic reason => ret (Panic reason)
  end.

End Redirect.

(** ** Vocabulary and examples of the further statements *)

(** The raw value of the last parameter named [key]. *)
Definition lastValue (key : string) (ps : list (string * string)) : option string :=
  snd <$> last (List.filter (fun kv => bool_decide (kv.1 = key)) ps).

(** The directory lets [username] bind with [password] over a new
    connection of [client]. *)
Definition canBind `{Directory} (client : LdapClient) (username password : string) : bool :=
  match ldap_DialURL (Addr client), ldap_SimpleBind username password with
  | None, None => true
  | _, _ => false
  end.

(** How many operations of a trace dial, and how many close. *)
Definition dials (sent : list ldap.Op) : nat :=
  length (List.filter (fun op => match op with ldap.Dial _ => true | _ => false end) sent).

Definition closes (sent : list ldap.Op) : nat :=
  length (List.filter (fun op => match op with ldap.Close => true | _ => false end) sent).

(** The six attributes [Authenticate] asks for. *)
Definition ldapAttributes : list string :=
  ["cn"; "gidNumber"; "memberUid"; "uid"; "uidNumber"; "mail"].

(** The session cookie [respond] sets. *)
Definition sessionCookie (i : IDP) (session : string) : http.Cookie :=
  {| http.Name := cookieName i; http.Value := session; http.Path := "/";
     http.MaxAge := 0; http.Secure := true; http.HttpOnly := true |}.

(** The cookie [DefaultRedirectSLOHandler] sets to end the session. *)
Definition expiredCookie (i : IDP) : http.Cookie :=
  {| http.Name := cookieName i; http.Value := ""; http.Path := "";
     http.MaxAge := -1; http.Secure := false; http.HttpOnly := false |}.

(** Stand-ins for the decoders of the redirect handlers: the inflated
    request is the example request when the bytes spell its name, a user
    blob is the example user, there are no attribute sources. *)
Definition exampleLogout : LogoutRequest.t :=
  LogoutRequest.mk
    (saml.RequestAbstractType.mk "_out" "2.0" 0 "https://sp.example/" "")
    "" "" "urn:oasis:names:tc:SAML:2.0:bindings:HTTP-Redirect".

#[local] Instance sampleSSODeps : SSODeps := {|
  flate_xml_Decode_AuthnRequest := fun data =>
    if decide (data = bytes_of "authn") then inr (requestFor "" 0)
    else if decide (data = bytes_of "stranger") then
      inr (saml.AuthnRequest.mk
             (saml.RequestAbstractType.mk "_x" "2.0" 0 "https://evil.example/" "")
             "" bindingPOST 0)
    else inl "XML syntax error";
  flate_xml_Decode_LogoutRequest := fun data =>
    if decide (data = bytes_of "logout") then inr exampleLogout
    else inl "XML syntax error";
  model_NewAuthnRequest := fun request relayState =>
    inr (model.AuthnRequest.mk
           (saml.AuthnRequest.ID request) (saml.AuthnRequest.Issuer request)
           (saml.AuthnRequest.AssertionConsumerServiceURL request)
           (saml.AuthnRequest.AssertionConsumerServiceIndex request)
           (saml.AuthnRequest.ProtocolBinding request) relayState
           (saml.AuthnRequest.IssueInstant request)
           (saml.AuthnRequest.Destination request));
  proto_Marshal_AuthnRequest := fun _ => inr (bytes_of "request");
  proto_Unmarshal_User := fun data =>
    if decide (data = bytes_of "user") then inr exampleUser
    else inl "proto: cannot parse invalid wire-format data";
  clientCert_Raw := fun _ => [];
  AttributeSources := []
|}.

#[local] Instance sampleConfigLib : ConfigLib := {|
  xml_Decode_SPEntityDescriptor := fun text =>
    if decide (text = "")
    then inl "EOF"
    else inr (metadata.mkDescriptor text (Some "RSA certificate")
                [metadata.mkEndpoint 0 true bindingPOST "https://sp.example/acs/v";
                 metadata.mkEndpoint 1 false bindingArtifact "https://sp.example/acs/u"]
                [metadata.mkEndpoint 0 false bindingPOST "https://sp.example/slo"]);
  viper_WriteConfig := fun _ => None
|}.

(** A service provider with a logout endpoint, and a registry with it. *)
Definition spLogout : ServiceProvider :=
  mkSP "https://sp.example/" [acsV]
    [mkSLO 0 false "urn:oasis:names:tc:SAML:2.0:bindings:HTTP-Redirect"
       "https://sp.example/slo"]
    "RSA certificate" (RSAKey {| rsaN := 3233; rsaE := 17 |}).

(** A redirect request: the form holds the decoded values of the raw
    query. *)
Definition ssoRequest (samlRequest relayState signature : string)
    (cookies : list http.Cookie) : http.Request :=
  http.mkRequest
    ("SAMLRequest=" ++ samlRequest ++ "&SigAlg=rsa-sha1")
    None
    {[ "SAMLRequest" := [samlRequest]; "RelayState" := [relayState];
       "SigAlg" := ["http://www.w3.org/2000/09/xmldsig#rsa-sha1"];
       "Signature" := [signature] ]}
    cookies "" (inl "no client certificate").

(** A state with a session of the example user under the key [sess-1],
    kept until the reading 9000. *)
Definition sessionState : St :=
  mkSt (idpWith {[ "https://sp.example/" := spLogout ]}
          (store.mkCache 300 ∅)
          (store.mkCache 28800 {[ "sess-1" := (bytes_of "user", 9000) ]})
          (fun username password =>
             if decide (password = "secret") then inr {[ "cn" := [username] ]}
             else inl "Invalid Credentials"))
       (mkWorld [4000; 4001; 4002; 4003; 4004; 4005] ["uuid-1"; "uuid-2"; "uuid-3"])
       http.empty.

(** The redirect request passes the checks of [DefaultRedirectSSOHandler]
    up to and including [validateAuthRequest]. *)
Definition validated `{GoLib} `{SSODeps} (i : IDP) (r : http.Request) : Prop :=
  http.ParseFormErr r = None
  ∧ (String.length (http.Form_Get r "RelayState") <= 80)%nat
  ∧ exists reqBytes loginReq request',
      base64_DecodeString (http.Form_Get r "SAMLRequest") = inr reqBytes
      ∧ flate_xml_Decode_AuthnRequest reqBytes = inr loginReq
      ∧ validateAuthRequest i r loginReq = (Ok tt, request').

(** Codecs that can fail: a URL with a space does not parse, a blob for a
    user without a name does not marshal; the rest as in the stand-ins
    above. *)
Definition strictDeps : Deps := {|
  proto_Marshal_User := fun _ => inr (bytes_of "user");
  proto_Marshal_ArtifactResponse := fun response =>
    if decide (model.User.Name (model.ArtifactResponse.User response) = "")
    then inl "proto: required field not set"
    else inr (bytes_of "artifact response");
  proto_Unmarshal_AuthnRequest := fun data =>
    if decide (data = bytes_of "request") then inr exampleRequest
    else inl "proto: cannot parse invalid wire-format data";
  proto_Unmarshal_ArtifactResponse := fun data =>
    if decide (data = bytes_of "artifact response")
    then inr (model.ArtifactResponse.mk exampleUser exampleRequest)
    else inl "proto: cannot parse invalid wire-format data";
  xml_Decode_ArtifactResolve := fun body =>
    inr (saml.ArtifactResolve.mk
           (saml.RequestAbstractType.mk "_resolve" "2.0" 0 "https://sp.example/" "")
           body);
  xml_Encode_ArtifactResponse := fun _ => "<Envelope/>";
  url_URL := string;
  url_Parse := fun text =>
    if occurs " " text then inl "invalid character in host name" else inr text;
  url_String_with_RawQuery := fun target query => target ++ "?" ++ query;
  getIP_String := fun _ => "192.0.2.7";
  sendPostResponse := fun _ _ _ => ret (Ok tt);
  sendECPResponse := fun _ _ _ => ret (Ok tt)
|}.

(** The binds among the operations sent that the directory refuses. *)
Definition failedBinds `{Directory} (sent : list ldap.Op) : nat :=
  length (List.filter
            (fun op => match op with
                       | ldap.SimpleBind username password =>
                           bool_decide (is_Some (ldap_SimpleBind username password))
                       | _ => false
                       end) sent).

(** Decoders as above, but the request the bytes spell asks for the
    HTTP-Artifact binding. *)
Definition artifactSSODeps : SSODeps := {|
  flate_xml_Decode_AuthnRequest := fun data =>
    if decide (data = bytes_of "authn") then
      inr (saml.AuthnRequest.mk
             (saml.RequestAbstractType.mk "_abc" "2.0" 0 "https://sp.example/" "")
             "" bindingArtifact 0)
    else inl "XML syntax error";
  flate_xml_Decode_LogoutRequest := fun _ => inl "XML syntax error";
  model_NewAuthnRequest := fun request relayState =>
    inr (model.AuthnRequest.mk
           (saml.AuthnRequest.ID request) (saml.AuthnRequest.Issuer request)
           (saml.AuthnRequest.AssertionConsumerServiceURL request)
           (saml.AuthnRequest.AssertionConsumerServiceIndex request)
           (saml.AuthnRequest.ProtocolBinding request) relayState
           (saml.AuthnRequest.IssueInstant request)
           (saml.AuthnRequest.Destination request));
  proto_Marshal_AuthnRequest := fun _ => inr (bytes_of "request");
  proto_Unmarshal_User := fun data =>
    if decide (data = bytes_of "user") then inr exampleUser
    else inl "proto: cannot parse invalid wire-format data";
  clientCert_Raw := fun _ => [];
  AttributeSources := []
|}.

(** * Properties *)

(** ** The library models on examples *)

Example strings_Split_three : strings_Split "a=b=c" "=" = ["a"; "b"; "c"].
Proof. reflexivity. Qed.

Example strings_Split_empty : strings_Split "" "&" = [""].
Proof. reflexivity. Qed.

Example strings_Split_adjacent : strings_Split "a&&b" "&" = ["a"; ""; "b"].
Proof. reflexivity. Qed.

Example url_QueryEscape_reserved : url_QueryEscape "a b&c=d/e~f" = "a+b%26c%3Dd%2Fe~f".
Proof. reflexivity. Qed.

Example rfc4515_escape_specials : rfc4515_escape "a*(b)" = "a\2a\28b\29".
Proof. reflexivity. Qed.

(** ** Choosing the assertion consumer service *)

Section SelectACS.
Variable request : saml.AuthnRequest.t.

(** The first answering entry ends the scan, whatever [acs] held. *)
Lemma acsLoop_first_answer l : forall i0 acs k a,
  l !! k = Some a ->
  answers request a ->
  (forall j b, (j < k)%nat -> l !! j = Some b -> ¬ answers request b) ->
  acsLoop request l i0 acs = Some ((i0 + k)%nat, a).
Proof.
  induction l as [|x l IH]; intros i0 acs k a Hk Ha Hbefore; [done|].
  destruct k as [|k]; simpl in *.
  - injection Hk as ->. rewrite Nat.add_0_r.
    destruct Ha as [Ha|Ha].
    + by rewrite decide_True.
    + destruct (decide _); [done|]. by rewrite decide_True.
  - assert (¬ answers request x) as Hx by (apply (Hbefore 0%nat); [lia|done]).
    unfold answers in Hx.
    rewrite decide_False by tauto. rewrite decide_False by tauto.
    replace (i0 + S k)%nat with (S i0 + k)%nat by lia.
    destruct (IsDefault x); apply IH; try done;
      intros j b Hj Hb; apply (Hbefore (S j)); (lia || done).
Qed.

(** What the scan returns, by value: the first answering entry, else the
    last default entry, else what [acs] held. *)
Lemma acsLoop_value l : forall i0 acs,
  snd <$> acsLoop request l i0 acs =
    match List.find (fun a => bool_decide (answers request a)) l with
    | Some a => Some a
    | None =>
        match last (List.filter IsDefault l) with
        | Some d => Some d
        | None => snd <$> acs
        end
    end.
Proof.
  induction l as [|x l IH]; intros i0 acs; [done|]. simpl.
  destruct (decide (Index x = _)) as [Hi|Hi].
  { rewrite bool_decide_eq_true_2 by (by left). done. }
  destruct (decide (Location x = _)) as [Hl|Hl].
  { rewrite bool_decide_eq_true_2 by (by right). done. }
  rewrite bool_decide_eq_false_2 by (unfold answers; tauto).
  destruct (IsDefault x) eqn:Hd; rewrite IH; [|done].
  destruct (List.find _ l); [done|].
  simpl. destruct (List.filter IsDefault l) as [|d ds] eqn:Hf; [done|].
  change (last (x :: d :: ds)) with (last (d :: ds)).
  destruct (last (d :: ds)) eqn:Hlast; [done|].
  by apply last_None in Hlast.
Qed.

(** The pointer designates an entry of the slice. *)
Lemma acsLoop_lookup l : forall i0 acs i a,
  acsLoop request l i0 acs = Some (i, a) ->
  acs = Some (i, a) ∨ (∃ k, i = (i0 + k)%nat ∧ l !! k = Some a).
Proof.
  induction l as [|x l IH]; intros i0 acs i a Hr; simpl in Hr; [by left|].
  repeat case_decide; simplify_eq.
  - right. exists 0%nat. split; [lia|done].
  - right. exists 0%nat. split; [lia|done].
  - destruct (IsDefault x); apply IH in Hr as [Hr|(k & -> & Hk)].
    + simplify_eq. right. exists 0%nat. split; [lia|done].
    + right. exists (S k). split; [lia|done].
    + by left.
    + right. exists (S k). split; [lia|done].
Qed.

End SelectACS.

Lemma selectACS_lookup sp request i a :
  selectACS sp request = Some (i, a) -> AssertionConsumerServices sp !! i = Some a.
Proof.
  intros Hr. apply acsLoop_lookup in Hr as [?|(k & -> & Hk)]; [done|]. done.
Qed.

Lemma selectedACS_value sp request :
  selectedACS sp request =
    match List.find (fun a => bool_decide (answers request a))
            (AssertionConsumerServices sp) with
    | Some a => Some a
    | None => last (List.filter IsDefault (AssertionConsumerServices sp))
    end.
Proof.
  unfold selectedACS, selectACS. rewrite acsLoop_value.
  destruct (List.find _ _); [done|]. by destruct (last _).
Qed.

(** *** Exchanging two entries *)

Section Swap.
Context {A : Type}.
Implicit Types l : list A.

(** Replacing an entry that fails [f] by another that fails [f] keeps
    the entries that pass [f], in their order. *)
Lemma filter_insert_out (f : A -> bool) l : forall i a b,
  l !! i = Some a -> f a = false -> f b = false ->
  List.filter f (<[i := b]> l) = List.filter f l.
Proof.
  induction l as [|x l IH]; intros i a b Hi Ha Hb; [done|].
  destruct i as [|i]; simpl in *.
  - injection Hi as ->. by rewrite Ha, Hb.
  - rewrite (IH i a b) by done. done.
Qed.

Lemma elem_of_exchange l i j a b x :
  l !! i = Some a -> l !! j = Some b ->
  x ∈ <[j := a]> (<[i := b]> l) <-> x ∈ l.
Proof.
  intros Hi Hj.
  pose proof (lookup_lt_Some _ _ _ Hi) as Hli.
  pose proof (lookup_lt_Some _ _ _ Hj) as Hlj.
  rewrite !list_elem_of_lookup. split; intros [k Hk].
  - apply list_lookup_insert_Some in Hk as [(-> & -> & _)|[Hne Hk]]; [eauto|].
    apply list_lookup_insert_Some in Hk as [(-> & -> & _)|[Hne' Hk]]; eauto.
  - destruct (decide (k = j)) as [->|Hkj].
    + destruct (decide (i = j)) as [->|Hij].
      * exists j. simplify_eq. apply list_lookup_insert_eq.
        by rewrite length_insert.
      * exists i. simplify_eq.
        rewrite list_lookup_insert_ne by done. by apply list_lookup_insert_eq.
    + destruct (decide (k = i)) as [->|Hki].
      * exists j. simplify_eq. apply list_lookup_insert_eq.
        by rewrite length_insert.
      * exists k. by rewrite !list_lookup_insert_ne.
Qed.

(** When all entries that pass [f] are one and the same, [find] does not
    depend on the order. *)
Lemma find_unique (f : A -> bool) l l' :
  (forall x y, x ∈ l -> y ∈ l -> f x = true -> f y = true -> x = y) ->
  (forall x, x ∈ l' <-> x ∈ l) ->
  List.find f l' = List.find f l.
Proof.
  intros Huniq Hsame.
  destruct (List.find f l) as [a|] eqn:Hl.
  - apply List.find_some in Hl as [Hin Hfa]. apply list_elem_of_In in Hin.
    destruct (List.find f l') as [a'|] eqn:Hl'.
    + apply List.find_some in Hl' as [Hin' Hfa']. apply list_elem_of_In in Hin'.
      f_equal. apply Huniq; try done. by apply Hsame.
    + apply Hsame, list_elem_of_In in Hin.
      pose proof (List.find_none _ _ Hl' _ Hin). congruence.
  - destruct (List.find f l') as [a'|] eqn:Hl'; [|done].
    apply List.find_some in Hl' as [Hin' Hfa'].
    apply list_elem_of_In, Hsame, list_elem_of_In in Hin'.
    pose proof (List.find_none _ _ Hl _ Hin'). congruence.
Qed.

End Swap.

(** Exchanging two entries that are not defaults keeps the selection when
    the entries that answer the request are one and the same. *)
Lemma selectedACS_swap sp request i j a b :
  AssertionConsumerServices sp !! i = Some a ->
  AssertionConsumerServices sp !! j = Some b ->
  IsDefault a = false -> IsDefault b = false ->
  (forall x y, x ∈ AssertionConsumerServices sp -> y ∈ AssertionConsumerServices sp ->
     answers request x -> answers request y -> x = y) ->
  selectedACS (swapACS i j sp) request = selectedACS sp request.
Proof.
  intros Hi Hj Ha Hb Huniq. rewrite !selectedACS_value.
  unfold swapACS; simpl. rewrite Hi, Hj.
  rewrite (find_unique _ (AssertionConsumerServices sp)
             (<[j:=a]> (<[i:=b]> (AssertionConsumerServices sp)))).
  - destruct (List.find _ _); [done|]. f_equal.
    assert (<[i:=b]> (AssertionConsumerServices sp) !! j = Some b) as Hj'.
    { destruct (decide (i = j)) as [->|Hij].
      - apply list_lookup_insert_eq. by eapply lookup_lt_Some.
      - by rewrite list_lookup_insert_ne. }
    rewrite (filter_insert_out _ _ j b a) by done.
    by rewrite (filter_insert_out _ _ i a b).
  - intros x y Hx Hy Hfx%bool_decide_eq_true Hfy%bool_decide_eq_true.
    by apply Huniq.
  - intros x. by apply elem_of_exchange.
Qed.

(** Without an answering entry the selection is the last default. *)
Lemma selectedACS_no_answer sp request :
  (forall a, a ∈ AssertionConsumerServices sp -> ¬ answers request a) ->
  selectedACS sp request = last (List.filter IsDefault (AssertionConsumerServices sp)).
Proof.
  intros Hnone. rewrite selectedACS_value.
  destruct (List.find _ _) as [x|] eqn:Hfind; [|done].
  apply List.find_some in Hfind as [Hin Hx].
  apply list_elem_of_In in Hin. apply bool_decide_eq_true in Hx.
  by destruct (Hnone x).
Qed.

(** What [validateAuthRequest] does with the entry it selected. *)
Lemma validateAuthRequest_selected `{GoLib} (i : IDP) (r : http.Request) sp request :
  saml.AuthnRequest.Issuer request ≠ "" ->
  sps i !! saml.AuthnRequest.Issuer request = Some sp ->
  match selectedACS sp request with
  | None =>
      validateAuthRequest i r request
      = (Err "unable to determine assertion consumer service", request)
  | Some acs =>
      (saml.AuthnRequest.AssertionConsumerServiceURL request = "" ->
       saml.AuthnRequest.AssertionConsumerServiceURL (validateAuthRequest i r request).2
       = Location acs)
      ∧ (saml.AuthnRequest.AssertionConsumerServiceURL request ≠ "" ->
         saml.AuthnRequest.AssertionConsumerServiceURL request ≠ Location acs ->
         validateAuthRequest i r request
         = (Err "assertion consumer location in request does not match metadata", request))
  end.
Proof.
  intros Hissuer Hsp. unfold validateAuthRequest.
  rewrite decide_False by done. rewrite Hsp.
  destruct (selectedACS sp request) as [acs|]; [|done].
  split.
  - intros ->. by rewrite decide_True.
  - intros Hne Hdiff. rewrite decide_False by done. by rewrite decide_True.
Qed.

(** C1 (amended).  The entry [validateAuthRequest] selects is the first
    entry in metadata order that answers the request, by its index or by
    its location: an entry with the index of the request is selected also
    after entries that are defaults, as long as no earlier entry answers.
    When no entry answers, the selection is a default entry, none exactly
    when there is no default, and the entry marked default when there is
    one such entry.  Exchanging two entries that are not defaults and have
    distinct indices keeps the selection when the request names an index
    and the entries that answer it are one and the same.  A request
    without a URL takes the location of the selected entry; with another
    URL than that location it is refused. *)
Theorem selectACS_first_answer_then_default `{GoLib} (sp : ServiceProvider)
    (request : saml.AuthnRequest.t) :
  let l := AssertionConsumerServices sp in
  (forall i a,
     l !! i = Some a -> answers request a ->
     (forall j b, (j < i)%nat -> l !! j = Some b -> ¬ answers request b) ->
     selectACS sp request = Some (i, a))
  ∧ ((forall a, a ∈ l -> ¬ answers request a) ->
     (forall a, selectedACS sp request = Some a -> a ∈ l ∧ IsDefault a = true)
     ∧ (selectedACS sp request = None <-> forall a, a ∈ l -> IsDefault a = false)
     ∧ (forall d, List.filter IsDefault l = [d] -> selectedACS sp request = Some d))
  ∧ (forall i j a b,
       l !! i = Some a -> l !! j = Some b ->
       IsDefault a = false -> IsDefault b = false -> Index a ≠ Index b ->
       (∃ c, c ∈ l ∧ Index c = saml.AuthnRequest.AssertionConsumerServiceIndex request) ->
       (forall x y, x ∈ l -> y ∈ l -> answers request x -> answers request y -> x = y) ->
       selectedACS (swapACS i j sp) request = selectedACS sp request)
  ∧ (forall (i : IDP) (r : http.Request),
       saml.AuthnRequest.Issuer request ≠ "" ->
       sps i !! saml.AuthnRequest.Issuer request = Some sp ->
       match selectedACS sp request with
       | None =>
           validateAuthRequest i r request
           = (Err "unable to determine assertion consumer service", request)
       | Some acs =>
           (saml.AuthnRequest.AssertionConsumerServiceURL request = "" ->
            saml.AuthnRequest.AssertionConsumerServiceURL (validateAuthRequest i r request).2
            = Location acs)
           ∧ (saml.AuthnRequest.AssertionConsumerServiceURL request ≠ "" ->
              saml.AuthnRequest.AssertionConsumerServiceURL request ≠ Location acs ->
              validateAuthRequest i r request
              = (Err "assertion consumer location in request does not match metadata",
                 request))
       end).
Proof.
  intros l. split; [|split; [|split]].
  - intros i a Hi Ha Hbefore. unfold selectACS.
    by rewrite (acsLoop_first_answer request _ 0%nat None i a).
  - intros Hnone.
    pose proof (selectedACS_no_answer sp request Hnone) as Hsel. fold l in Hsel.
    rewrite Hsel. split; [|split].
    + intros a [ds Hds]%last_Some.
      assert (In a (List.filter IsDefault l)) as Hin.
      { rewrite Hds. apply in_or_app. right. by left. }
      apply List.filter_In in Hin as [Hin Hd]. by apply list_elem_of_In in Hin.
    + rewrite last_None. split.
      * intros Hempty a Ha. destruct (IsDefault a) eqn:Hd; [|done].
        assert (In a (List.filter IsDefault l)) as Hin.
        { apply List.filter_In. split; [by apply list_elem_of_In|done]. }
        rewrite Hempty in Hin. destruct Hin.
      * intros Hall. destruct (List.filter IsDefault l) as [|d ds] eqn:Hf; [done|].
        assert (In d (List.filter IsDefault l)) as Hin by (rewrite Hf; by left).
        apply List.filter_In in Hin as [Hin Hd]. apply list_elem_of_In in Hin.
        rewrite (Hall d Hin) in Hd. done.
    + intros d Hd. by rewrite Hd.
  - intros i j a b Hi Hj Ha Hb _ _ Huniq. by eapply selectedACS_swap.
  - intros i r Hissuer Hsp. by apply validateAuthRequest_selected.
Qed.

(** C1 as stated fails: the first entry has the URL of the request, the
    second its index.  The specification selects the second; the code
    stops at the first.  Exchanging the two, which are not defaults and
    have distinct indices, changes the selection. *)
Lemma selectACS_url_entry_before_index_entry :
  Index acsV = saml.AuthnRequest.AssertionConsumerServiceIndex
                 (requestFor "https://sp.example/acs/u" 0)
  ∧ SelectACS_spec (spWith [acsU; acsV]) (requestFor "https://sp.example/acs/u" 0)
    = Some acsV
  ∧ selectedACS (spWith [acsU; acsV]) (requestFor "https://sp.example/acs/u" 0)
    = Some acsU
  ∧ selectedACS (spWith [acsU; acsV]) (requestFor "https://sp.example/acs/u" 0)
    ≠ SelectACS_spec (spWith [acsU; acsV]) (requestFor "https://sp.example/acs/u" 0)
  ∧ selectedACS (swapACS 0 1 (spWith [acsU; acsV])) (requestFor "https://sp.example/acs/u" 0)
    ≠ selectedACS (spWith [acsU; acsV]) (requestFor "https://sp.example/acs/u" 0).
Proof. repeat split; try reflexivity; vm_compute; discriminate. Qed.

Lemma selectACS_first_answer_then_default_witness :
  selectACS (spWith [acsD; acsV; acsU]) (requestFor "" 0) = Some (1%nat, acsV)
  ∧ selectedACS (spWith [acsD; acsU]) (requestFor "" 7) = Some acsD
  ∧ selectedACS (swapACS 1 2 (spWith [acsD; acsV; acsU])) (requestFor "" 0)
    = selectedACS (spWith [acsD; acsV; acsU]) (requestFor "" 0)
  ∧ saml.AuthnRequest.AssertionConsumerServiceURL
      (validateAuthRequest
         (idpWith {[ "https://sp.example/" := spWith [acsD; acsV; acsU] ]}
            (store.mkCache 300 ∅) (store.mkCache 28800 ∅) noPassword)
         (requestWith "" ∅ "") (requestFor "" 0)).2
    = "https://sp.example/acs/v".
Proof.
  destruct (selectACS_first_answer_then_default
              (spWith [acsD; acsV; acsU]) (requestFor "" 0)) as (First & _ & Swap & Validate).
  destruct (selectACS_first_answer_then_default
              (spWith [acsD; acsU]) (requestFor "" 7)) as (_ & Default & _).
  split; [|split; [|split]].
  - apply First; [reflexivity| left; reflexivity |].
    intros [|j] b Hj Hb; [|lia]. injection Hb as <-.
    unfold answers; simpl. intros [?|?]; discriminate.
  - apply Default; [|reflexivity].
    intros a Ha. unfold answers.
    apply list_elem_of_In in Ha. simpl in Ha.
    destruct Ha as [<-|[<-|[]]]; simpl; intros [?|?]; discriminate.
  - apply (Swap 1%nat 2%nat acsV acsU); try reflexivity; try discriminate.
    + exists acsV. split; [|reflexivity]. apply list_elem_of_In. simpl. tauto.
    + intros x y Hx Hy. unfold answers.
      apply list_elem_of_In in Hx. apply list_elem_of_In in Hy. simpl in Hx, Hy.
      destruct Hx as [<-|[<-|[<-|[]]]]; destruct Hy as [<-|[<-|[<-|[]]]]; simpl;
        intros [?|?] [?|?]; (reflexivity || discriminate).
  - specialize (Validate
      (idpWith {[ "https://sp.example/" := spWith [acsD; acsV; acsU] ]}
         (store.mkCache 300 ∅) (store.mkCache 28800 ∅) noPassword)
      (requestWith "" ∅ "")).
    change (selectedACS (spWith [acsD; acsV; acsU]) (requestFor "" 0))
      with (Some acsV) in Validate.
    apply Validate; [discriminate|reflexivity|reflexivity].
Defined.

(** ** The canonical string of a redirect signature *)

Lemma append_nil (b : string) : "" ++ b = b.
Proof. reflexivity. Qed.

Lemma append_cons c (a b : string) : String c a ++ b = String c (a ++ b).
Proof. reflexivity. Qed.

Lemma occurs_app c (a b : string) : occurs c (a ++ b) = occurs c a || occurs c b.
Proof.
  induction a as [|x a IH]; [done|].
  rewrite append_cons. simpl. rewrite IH. by rewrite orb_assoc.
Qed.

(** A string without the separator is its own single part. *)
Lemma strings_Split_whole sep s :
  occurs sep s = false -> strings_Split s sep = [s].
Proof.
  induction s as [|c s IH]; simpl; [done|]. intros Hocc.
  apply orb_false_iff in Hocc as [Hc Hs]. apply bool_decide_eq_false in Hc.
  rewrite decide_False by done. by rewrite IH.
Qed.

(** The part before the first separator is split off. *)
Lemma strings_Split_app sep p rest :
  occurs sep p = false ->
  strings_Split (p ++ String sep rest) sep = p :: strings_Split rest sep.
Proof.
  induction p as [|c p IH]; intros Hocc.
  - rewrite append_nil. simpl. by rewrite decide_True.
  - rewrite append_cons. simpl in *.
    apply orb_false_iff in Hocc as [Hc Hp]. apply bool_decide_eq_false in Hc.
    rewrite decide_False by done. by rewrite IH.
Qed.

(** There is always at least one part. *)
Lemma strings_Split_nonempty s sep : strings_Split s sep ≠ [].
Proof.
  induction s as [|c s IH]; simpl; [done|].
  case_decide; [done|]. by destruct (strings_Split s sep).
Qed.

(** [strings.Split] undoes [strings.Join] on parts without the separator. *)
Lemma strings_Split_Join sep parts :
  parts ≠ [] ->
  Forall (fun p => occurs sep p = false) parts ->
  strings_Split (strings_Join parts (String sep "")) sep = parts.
Proof.
  unfold strings_Join. induction parts as [|p parts IH]; [done|].
  intros _ Hparts. apply Forall_cons in Hparts as [Hp Hparts].
  destruct parts as [|q parts].
  - simpl. by apply strings_Split_whole.
  - change (String.concat (String sep "") (p :: q :: parts))
      with (p ++ String sep (String.concat (String sep "") (q :: parts))).
    rewrite strings_Split_app by done. f_equal. by apply IH.
Qed.

(** A component [k=v] splits into its name and its value. *)
Lemma strings_Split_component kv :
  encoded kv -> strings_Split (component kv) "=" = [kv.1; kv.2].
Proof.
  intros (_ & Hk & _ & Hv). unfold component.
  change (kv.1 ++ "=" ++ kv.2) with (kv.1 ++ String "=" kv.2).
  rewrite strings_Split_app by done. by rewrite strings_Split_whole.
Qed.

Lemma component_no_amp kv : encoded kv -> occurs "&" (component kv) = false.
Proof.
  intros (Hk & _ & Hv & _). unfold component.
  rewrite !occurs_app, Hk, Hv. reflexivity.
Qed.

(** The map the first loop builds from well-formed components. *)
Lemma splitParams_components ps : forall pMap,
  Forall encoded ps ->
  splitParams (component <$> ps) pMap
  = Ok (foldl (fun m kv => <[kv.1 := kv.2]> m) pMap ps).
Proof.
  induction ps as [|kv ps IH]; intros pMap Hps; [done|].
  apply Forall_cons in Hps as [Hkv Hps]. simpl.
  rewrite strings_Split_component by done. by apply IH.
Qed.

(** The first loop fails as soon as one component is not [k=v]. *)
Lemma splitParams_bad params : forall pMap p,
  p ∈ params -> length (strings_Split p "=") ≠ 2%nat ->
  splitParams params pMap = Err "trouble validating signature on request".
Proof.
  induction params as [|q params IH]; intros pMap p Hin Hbad.
  - by apply elem_of_nil in Hin.
  - simpl. apply elem_of_cons in Hin as [<-|Hin].
    + destruct (strings_Split p "=") as [|k [|v [|? ?]]]; simpl in *; done.
    + destruct (strings_Split q "=") as [|k [|v [|? ?]]]; try done.
      by eapply IH.
Qed.

(** Looking up a key after the first loop. *)
Lemma lookup_params ps key : forall (pMap : gmap string string) v,
  param ps key v ->
  foldl (fun m kv => <[kv.1 := kv.2]> m) pMap ps !! key
  = match v with Some _ => v | None => pMap !! key end.
Proof.
  induction ps as [|[k x] ps IH] using rev_ind; intros pMap v Hparam.
  - destruct v as [v|]; [|done].
    destruct (Hparam v) as [_ Hin]. specialize (Hin eq_refl).
    by apply elem_of_nil in Hin.
  - rewrite foldl_app. simpl.
    destruct (decide (k = key)) as [->|Hne].
    + rewrite lookup_insert_eq.
      destruct (Hparam x) as [Hin _]. rewrite Hin; [done|].
      apply elem_of_app. right. by apply list_elem_of_singleton.
    + rewrite lookup_insert_ne by done. apply IH.
      intros v'. rewrite <- (Hparam v'). rewrite elem_of_app, list_elem_of_singleton.
      split; [tauto|]. intros [?|?]; [done|congruence].
Qed.

Lemma string_app_assoc (a b c : string) : (a ++ b) ++ c = a ++ (b ++ c).
Proof.
  induction a as [|x a IH]; [done|]. rewrite !append_cons. by rewrite IH.
Qed.

Lemma param_Permutation ps ps' key v :
  ps' ≡ₚ ps -> param ps key v -> param ps' key v.
Proof. intros Hperm Hparam v'. rewrite <- (Hparam v'). by rewrite Hperm. Qed.

(** The canonical string of a well-formed query, by the values of its
    three parameters. *)
Lemma signedBytes_canonical `{GoLib} ps samlRequest relayState sigAlg :
  Forall encoded ps ->
  param ps "SAMLRequest" (Some samlRequest) ->
  param ps "RelayState" relayState ->
  param ps "SigAlg" (Some sigAlg) ->
  signedBytes (rawQueryOf ps)
  = Ok (bytes_of ("SAMLRequest=" ++ samlRequest
                  ++ match relayState with
                     | Some state => "&RelayState=" ++ state
                     | None => ""
                     end
                  ++ "&SigAlg=" ++ sigAlg)).
Proof.
  intros Hps Hreq Hrelay Halg.
  assert (ps ≠ []) as Hne.
  { intros ->. destruct (Hreq samlRequest) as [_ Hin].
    specialize (Hin eq_refl). by apply elem_of_nil in Hin. }
  unfold signedBytes, rawQueryOf.
  rewrite strings_Split_Join.
  - rewrite splitParams_components by done. simpl. do 2 f_equal.
    unfold signedString, index.
    rewrite (lookup_params ps "SAMLRequest" ∅ (Some samlRequest)) by done.
    rewrite (lookup_params ps "SigAlg" ∅ (Some sigAlg)) by done.
    rewrite (lookup_params ps "RelayState" ∅ relayState) by done.
    destruct relayState as [state|]; simpl.
    + unfold strings_Join. simpl. rewrite !string_app_assoc. reflexivity.
    + rewrite lookup_empty. unfold strings_Join. simpl.
      rewrite !string_app_assoc. reflexivity.
  - by destruct ps.
  - apply Forall_fmap. eapply Forall_impl; [exact Hps|].
    intros kv Hkv. by apply component_no_amp.
Qed.

(** *** Every raw query is made of parameters, or is refused *)

Lemma strings_Split_free sep s :
  Forall (fun p => occurs sep p = false) (strings_Split s sep).
Proof.
  induction s as [|c s IH]; simpl; [by repeat constructor|].
  case_decide.
  - by constructor.
  - destruct (strings_Split s sep) as [|p ps] eqn:Hs.
    { by apply strings_Split_nonempty in Hs. }
    apply Forall_cons in IH as [Hp Hps]. constructor; [|done].
    simpl. rewrite Hp. by rewrite bool_decide_eq_false_2.
Qed.

Lemma strings_Join_Split sep s :
  strings_Join (strings_Split s sep) (String sep "") = s.
Proof.
  unfold strings_Join. induction s as [|c s IH]; simpl; [done|].
  pose proof (strings_Split_nonempty s sep) as Hne.
  case_decide as Hc.
  - subst c. destruct (strings_Split s sep) as [|p ps]; [done|].
    change (String.concat (String sep "") ("" :: p :: ps))
      with ("" ++ String sep (String.concat (String sep "") (p :: ps))).
    by rewrite IH.
  - destruct (strings_Split s sep) as [|p ps]; [done|].
    destruct ps as [|q ps].
    + simpl in *. by rewrite IH.
    + change (String.concat (String sep "") (String c p :: q :: ps))
        with (String c (p ++ String sep (String.concat (String sep "") (q :: ps)))).
      change (String.concat (String sep "") (p :: q :: ps))
        with (p ++ String sep (String.concat (String sep "") (q :: ps))) in IH.
      by rewrite IH.
Qed.

(** A component that splits in two is the component of its parameter,
    which is encoded when the component holds no [&]. *)
Lemma parameterOf_component p :
  occurs "&" p = false -> length (strings_Split p "=") = 2%nat ->
  component (parameterOf p) = p ∧ encoded (parameterOf p).
Proof.
  intros Hamp Hlen. unfold parameterOf.
  pose proof (strings_Join_Split "=" p) as Hjoin.
  pose proof (strings_Split_free "=" p) as Hfree.
  destruct (strings_Split p "=") as [|k [|v [|? ?]]]; try done.
  apply Forall_cons in Hfree as [Hk Hfree]. apply Forall_cons in Hfree as [Hv _].
  unfold strings_Join in Hjoin. simpl in Hjoin.
  split; [exact Hjoin|].
  rewrite <- Hjoin in Hamp. rewrite !occurs_app in Hamp.
  apply orb_false_iff in Hamp as [Hk' Hamp]. apply orb_false_iff in Hamp as [_ Hv'].
  by repeat split.
Qed.

(** So the two theorems on [verifySignature] below cover every raw query. *)
Lemma rawQuery_cases rawQuery :
  (∃ ps, Forall encoded ps ∧ rawQuery = rawQueryOf ps)
  ∨ (∃ p, p ∈ strings_Split rawQuery "&" ∧ length (strings_Split p "=") ≠ 2%nat).
Proof.
  pose proof (strings_Split_free "&" rawQuery) as Hfree.
  pose proof (strings_Join_Split "&" rawQuery) as Hjoin.
  destruct (Forall_Exists_dec (fun p => length (strings_Split p "=") = 2%nat)
              (fun p => length (strings_Split p "=") ≠ 2%nat)
              (fun p => decide _) (strings_Split rawQuery "&")) as [Hall|Hbad].
  - left. exists (parameterOf <$> strings_Split rawQuery "&").
    assert (Forall (fun p => component (parameterOf p) = p ∧ encoded (parameterOf p))
              (strings_Split rawQuery "&")) as Hparts.
    { apply Forall_forall. intros p Hp.
      apply parameterOf_component.
      - by eapply (proj1 (Forall_forall _ _) Hfree).
      - by eapply (proj1 (Forall_forall _ _) Hall). }
    split.
    + apply Forall_fmap. eapply Forall_impl; [exact Hparts|]. by intros p [_ ?].
    + unfold rawQueryOf. rewrite <- list_fmap_compose.
      rewrite <- Hjoin at 1. f_equal.
      rewrite <- (list_fmap_id (strings_Split rawQuery "&")) at 1.
      apply Forall_fmap_ext. eapply Forall_impl; [exact Hparts|].
      intros p [Hp _]. unfold compose, id. by rewrite Hp.
  - right. apply Exists_exists in Hbad as (p & Hp & Hlen). eauto.
Qed.

(** C2.  For a raw query made of URL-encoded parameters [k=v] joined by
    [&], in any order, in which SAMLRequest and SigAlg occur and
    RelayState may occur, the bytes [verifySignature] hashes and verifies
    are SAMLRequest=v, then &RelayState=v exactly when RelayState occurs,
    then &SigAlg=v, each v being the raw value of the query; a permutation
    of the parameters gives the same bytes. *)
Theorem verifySignature_canonical_string `{GoLib} (ps : list (string * string))
    (samlRequest sigAlg : string) (relayState : option string)
    (alg expectedSig : string) (sp : ServiceProvider) :
  Forall encoded ps ->
  param ps "SAMLRequest" (Some samlRequest) ->
  param ps "RelayState" relayState ->
  param ps "SigAlg" (Some sigAlg) ->
  let canonical :=
    "SAMLRequest=" ++ samlRequest
    ++ match relayState with
       | Some state => "&RelayState=" ++ state
       | None => ""
       end
    ++ "&SigAlg=" ++ sigAlg in
  signedBytes (rawQueryOf ps) = Ok (bytes_of canonical)
  ∧ verifySignature (rawQueryOf ps) alg expectedSig sp
    = (signature <- of_lib (base64_DecodeString expectedSig) ;;
       verifyWith alg sp signature (bytes_of canonical))
  ∧ (forall ps', ps' ≡ₚ ps -> signedBytes (rawQueryOf ps') = Ok (bytes_of canonical)).
Proof.
  intros Hps Hreq Hrelay Halg canonical.
  pose proof (signedBytes_canonical ps samlRequest relayState sigAlg
                Hps Hreq Hrelay Halg) as Hsigned.
  split; [exact Hsigned|]. split.
  - unfold verifySignature. rewrite Hsigned. reflexivity.
  - intros ps' Hperm. apply signedBytes_canonical.
    + by rewrite Hperm.
    + by apply (param_Permutation ps).
    + by apply (param_Permutation ps).
    + by apply (param_Permutation ps).
Qed.

(** C10.  When one of the components of the raw query between [&] does
    not split on [=] in exactly two parts, [verifySignature] returns an
    error, whatever the algorithm, the signature and the key are. *)
Theorem verifySignature_malformed_component `{GoLib} (rawQuery alg expectedSig : string)
    (sp : ServiceProvider) (p : string) :
  p ∈ strings_Split rawQuery "&" ->
  length (strings_Split p "=") ≠ 2%nat ->
  verifySignature rawQuery alg expectedSig sp
  = Err "trouble validating signature on request".
Proof.
  intros Hin Hbad. unfold verifySignature, signedBytes.
  by rewrite (splitParams_bad _ ∅ p).
Qed.

(** Membership of a pair in an explicit list of parameters. *)
Ltac solve_param :=
  let v' := fresh "v" in
  let Hin := fresh "Hin" in
  intros v'; split;
  [ intros Hin; apply list_elem_of_In in Hin; simpl in Hin;
    intuition congruence
  | intros Hin; try discriminate Hin; injection Hin as <-;
    apply list_elem_of_In; simpl; tauto ].

Lemma verifySignature_canonical_string_witness :
  signedBytes (rawQueryOf signedParams)
  = Ok (bytes_of ("SAMLRequest=fZJNT8Mw%3D%3D&RelayState=a%20b"
                  ++ "&SigAlg=http%3A%2F%2Fwww.w3.org%2F2000%2F09%2Fxmldsig%23rsa-sha1")).
Proof.
  refine (proj1 (verifySignature_canonical_string signedParams
            "fZJNT8Mw%3D%3D" "http%3A%2F%2Fwww.w3.org%2F2000%2F09%2Fxmldsig%23rsa-sha1"
            (Some "a%20b") "" "" (spWith []) _ _ _ _)).
  - repeat constructor.
  - solve_param.
  - solve_param.
  - solve_param.
Defined.

Lemma verifySignature_malformed_component_witness :
  verifySignature "SAMLRequest=fZJNT8Mw==&SigAlg=rsa-sha1&Signature=c2lnbmVk"
    "http://www.w3.org/2000/09/xmldsig#rsa-sha1" "c2lnbmVk" (spWith [])
  = Err "trouble validating signature on request".
Proof.
  apply (verifySignature_malformed_component _ _ _ _ "SAMLRequest=fZJNT8Mw==").
  - apply list_elem_of_In. vm_compute. left. reflexivity.
  - vm_compute. lia.
Defined.

(** ** Errors of the signature check *)

Lemma splitParams_total params : forall pMap,
  (∃ pMap', splitParams params pMap = Ok pMap')
  ∨ splitParams params pMap = Err "trouble validating signature on request".
Proof.
  induction params as [|p params IH]; intros pMap; simpl; [eauto|].
  destruct (strings_Split p "=") as [|k [|v [|? ?]]]; eauto.
Qed.

Lemma signedBytes_total `{GoLib} rawQuery :
  (∃ sig, signedBytes rawQuery = Ok sig)
  ∨ signedBytes rawQuery = Err "trouble validating signature on request".
Proof.
  unfold signedBytes.
  destruct (splitParams_total (strings_Split rawQuery "&") ∅) as [[pMap ->]| ->];
    simpl; eauto.
Qed.

Lemma verifyWith_unsupported `{GoLib} alg sp signature sig :
  alg ∉ supportedAlgorithms ->
  verifyWith alg sp signature sig = Err ("unsupported signature algorithm, " ++ alg).
Proof.
  unfold supportedAlgorithms. rewrite !not_elem_of_cons. intros (? & ? & ? & ? & _).
  unfold verifyWith. by rewrite !decide_False.
Qed.

Lemma verifyWith_dsa `{GoLib} alg sp signature sig :
  alg ∈ dsaAlgorithms ->
  ∃ sum, verifyWith alg sp signature sig = verifyDSA sp signature sum.
Proof.
  unfold dsaAlgorithms. rewrite !elem_of_cons. intros [->|[->|Hnil]].
  - exists (sha1Sum sig). unfold verifyWith.
    rewrite decide_False by discriminate. by rewrite decide_True.
  - exists (sha256Sum sig). unfold verifyWith. by rewrite decide_True.
  - by apply elem_of_nil in Hnil.
Qed.

Lemma verifyDSA_trailing `{GoLib} sp signature sum sigR sigS rest :
  asn1_Unmarshal signature = inr (sigR, sigS, rest) -> rest ≠ [] ->
  verifyDSA sp signature sum = Err "trailing data after DSA signature".
Proof.
  intros Hasn Hrest. unfold verifyDSA. rewrite Hasn.
  rewrite decide_True; [done|]. by destruct rest.
Qed.

Lemma verifyDSA_not_positive `{GoLib} sp signature sum sigR sigS :
  asn1_Unmarshal signature = inr (sigR, sigS, []) -> sigR <= 0 ∨ sigS <= 0 ->
  verifyDSA sp signature sum = Err "DSA signature contained zero or negative values".
Proof.
  intros Hasn Hsign. unfold verifyDSA. rewrite Hasn.
  destruct (decide (length (@nil byte) ≠ 0%nat)) as [Hne|_]; [done|].
  rewrite decide_True; [done|]. lia.
Qed.

(** C6 (amended).  With an algorithm that is not one of the four URIs
    [verifySignature] returns an error: the unsupported-algorithm error
    when the raw query splits into well-formed components and the
    signature is valid base64, and the error of the earlier step
    otherwise.  With a DSA algorithm a signature whose ASN.1 decoding
    leaves trailing bytes, or holds R <= 0 or S <= 0, is rejected,
    with the error of [verifyDSA] when the earlier steps pass. *)
Theorem verifySignature_rejections `{GoLib} (rawQuery alg expectedSig : string)
    (sp : ServiceProvider) :
  (alg ∉ supportedAlgorithms ->
     rejected (verifySignature rawQuery alg expectedSig sp)
     ∧ (forall sig signature,
          signedBytes rawQuery = Ok sig ->
          base64_DecodeString expectedSig = inr signature ->
          verifySignature rawQuery alg expectedSig sp
          = Err ("unsupported signature algorithm, " ++ alg)))
  ∧ (alg ∈ dsaAlgorithms ->
     forall signature sigR sigS rest,
       base64_DecodeString expectedSig = inr signature ->
       asn1_Unmarshal signature = inr (sigR, sigS, rest) ->
       (rest ≠ [] ->
          rejected (verifySignature rawQuery alg expectedSig sp)
          ∧ (forall sig, signedBytes rawQuery = Ok sig ->
               verifySignature rawQuery alg expectedSig sp
               = Err "trailing data after DSA signature"))
       ∧ (sigR <= 0 ∨ sigS <= 0 ->
          rejected (verifySignature rawQuery alg expectedSig sp)
          ∧ (forall sig, signedBytes rawQuery = Ok sig -> rest = [] ->
               verifySignature rawQuery alg expectedSig sp
               = Err "DSA signature contained zero or negative values"))).
Proof.
  split.
  - intros Halg. split.
    + unfold verifySignature.
      destruct (signedBytes_total rawQuery) as [[sig ->]| ->]; simpl; [|by eexists].
      destruct (base64_DecodeString expectedSig) as [err|signature]; simpl; [by eexists|].
      rewrite verifyWith_unsupported by done. by eexists.
    + intros sig signature Hsig Hdec. unfold verifySignature.
      rewrite Hsig, Hdec. simpl. by apply verifyWith_unsupported.
  - intros Halg signature sigR sigS rest Hdec Hasn. split.
    + intros Hrest. split.
      * unfold verifySignature.
        destruct (signedBytes_total rawQuery) as [[sig ->]| ->]; simpl; [|by eexists].
        rewrite Hdec. simpl.
        destruct (verifyWith_dsa alg sp signature sig Halg) as [sum ->].
        rewrite (verifyDSA_trailing _ _ _ sigR sigS rest) by done. by eexists.
      * intros sig Hsig. unfold verifySignature. rewrite Hsig, Hdec. simpl.
        destruct (verifyWith_dsa alg sp signature sig Halg) as [sum ->].
        by apply (verifyDSA_trailing _ _ _ sigR sigS rest).
    + intros Hsign. split.
      * unfold verifySignature.
        destruct (signedBytes_total rawQuery) as [[sig ->]| ->]; simpl; [|by eexists].
        rewrite Hdec. simpl.
        destruct (verifyWith_dsa alg sp signature sig Halg) as [sum ->].
        destruct rest as [|b rest].
        -- rewrite (verifyDSA_not_positive _ _ _ sigR sigS) by done. by eexists.
        -- rewrite (verifyDSA_trailing _ _ _ sigR sigS (b :: rest)) by done. by eexists.
      * intros sig Hsig ->. unfold verifySignature. rewrite Hsig, Hdec. simpl.
        destruct (verifyWith_dsa alg sp signature sig Halg) as [sum ->].
        by apply (verifyDSA_not_positive _ _ _ sigR sigS).
Qed.

(** C6 as stated fails: a raw query whose one component has no [=] is
    refused before the algorithm is looked at, with another error than
    the unsupported-algorithm error. *)
Lemma verifySignature_unsupported_after_split :
  ("http://example.org/none" ∉ supportedAlgorithms)
  ∧ verifySignature "SAMLRequest" "http://example.org/none" "c2lnbmVk" (spWith [])
    = Err "trouble validating signature on request"
  ∧ verifySignature "SAMLRequest" "http://example.org/none" "c2lnbmVk" (spWith [])
    ≠ Err ("unsupported signature algorithm, " ++ "http://example.org/none").
Proof.
  split; [|split].
  - unfold supportedAlgorithms. rewrite !not_elem_of_cons.
    repeat split; try discriminate. apply not_elem_of_nil.
  - reflexivity.
  - vm_compute. discriminate.
Qed.

Lemma verifySignature_rejections_witness :
  verifySignature "SAMLRequest=fZJNT8Mw&SigAlg=none" "http://example.org/none" "c2lnbmVk"
    (spWith [])
  = Err ("unsupported signature algorithm, " ++ "http://example.org/none")
  ∧ verifySignature "SAMLRequest=fZJNT8Mw&SigAlg=dsa" "http://www.w3.org/2000/09/xmldsig#dsa-sha1"
      "abc" (spWith [])
    = Err "trailing data after DSA signature"
  ∧ rejected (verifySignature "SigAlg=dsa" "http://www.w3.org/2009/xmldsig11#dsa-sha256"
                (String zero "a") (spWith [])).
Proof.
  destruct (verifySignature_rejections "SAMLRequest=fZJNT8Mw&SigAlg=none"
              "http://example.org/none" "c2lnbmVk" (spWith [])) as [Unsupported _].
  destruct (verifySignature_rejections "SAMLRequest=fZJNT8Mw&SigAlg=dsa"
              "http://www.w3.org/2000/09/xmldsig#dsa-sha1" "abc" (spWith []))
    as [_ Trailing].
  destruct (verifySignature_rejections "SigAlg=dsa"
              "http://www.w3.org/2009/xmldsig11#dsa-sha256" (String zero "a") (spWith []))
    as [_ Sign].
  split; [|split].
  - apply Unsupported with (sig := bytes_of "SAMLRequest=fZJNT8Mw&SigAlg=none")
                            (signature := bytes_of "c2lnbmVk"); try reflexivity.
    unfold supportedAlgorithms. rewrite !not_elem_of_cons.
    repeat split; try discriminate. apply not_elem_of_nil.
  - assert ("http://www.w3.org/2000/09/xmldsig#dsa-sha1" ∈ dsaAlgorithms) as Hdsa.
    { unfold dsaAlgorithms. rewrite !elem_of_cons. tauto. }
    destruct (Trailing Hdsa (bytes_of "abc") 97 98 [x63] eq_refl eq_refl) as [Rest _].
    destruct Rest as [_ Rest]; [discriminate|].
    by apply (Rest (bytes_of "SAMLRequest=fZJNT8Mw&SigAlg=dsa")).
  - assert ("http://www.w3.org/2009/xmldsig11#dsa-sha256" ∈ dsaAlgorithms) as Hdsa.
    { unfold dsaAlgorithms. rewrite !elem_of_cons. tauto. }
    destruct (Sign Hdsa (bytes_of (String zero "a")) 0 97 [] eq_refl eq_refl)
      as [_ Values].
    destruct Values as [Values _]; [left; lia|]. exact Values.
Defined.

(** ** The keys of the registry *)

Lemma parseCertificate_certified `{GoLib} sp sp' :
  parseCertificate sp = Ok sp' -> certified sp'.
Proof.
  unfold parseCertificate, certified. intros Hparse.
  destruct (base64_DecodeString (Certificate sp)) as [err|block] eqn:Hdec; [done|].
  destruct (x509_ParseCertificate block) as [err|key] eqn:Hkey; [done|].
  injection Hparse as <-. simpl. eauto.
Qed.

Lemma registerSPs_certified `{GoLib} configured : forall registry registry',
  (forall id sp, registry !! id = Some sp -> certified sp) ->
  registerSPs configured registry = Ok registry' ->
  forall id sp, registry' !! id = Some sp -> certified sp.
Proof.
  induction configured as [|c configured IH]; intros registry registry' Hreg Hrun.
  - simpl in Hrun. by injection Hrun as <-.
  - simpl in Hrun.
    destruct (parseCertificate c) as [c'| |] eqn:Hparse; try done. simpl in Hrun.
    eapply IH; [|exact Hrun].
    intros id sp Hlookup.
    destruct (decide (EntityID c' = id)) as [<-|Hne].
    + rewrite lookup_insert_eq in Hlookup. injection Hlookup as <-.
      by eapply parseCertificate_certified.
    + rewrite lookup_insert_ne in Hlookup by done. by eapply Hreg.
Qed.

Lemma verifyWith_rsa_panics `{GoLib} alg sp signature sig :
  alg ∈ rsaAlgorithms -> (forall k, publicKey sp ≠ RSAKey k) ->
  verifyWith alg sp signature sig
  = Panic "interface conversion: interface {} is not *rsa.PublicKey".
Proof.
  unfold rsaAlgorithms. rewrite !elem_of_cons.
  intros [->|[->|Hnil]] Hkey; [| |by apply elem_of_nil in Hnil];
    unfold verifyWith; repeat (rewrite decide_False by discriminate);
    rewrite decide_True by done;
    destruct (publicKey sp) as [k| | |]; try done; by destruct (Hkey k).
Qed.

Lemma verifyDSA_panics `{GoLib} sp signature sum sigR sigS :
  asn1_Unmarshal signature = inr (sigR, sigS, []) -> 0 < sigR -> 0 < sigS ->
  (forall k, publicKey sp ≠ DSAKey k) ->
  verifyDSA sp signature sum
  = Panic "interface conversion: interface {} is not *dsa.PublicKey".
Proof.
  intros Hasn HR HS Hkey. unfold verifyDSA. rewrite Hasn.
  destruct (decide (length (@nil byte) ≠ 0%nat)) as [Hne|_]; [done|].
  rewrite decide_False by lia.
  destruct (publicKey sp) as [|k| |]; try done. by destruct (Hkey k).
Qed.

(** C3, where the code departs from it.  Every service provider that
    [configureSPs] puts in the registry has a certificate that decodes
    and parses, and holds the key of that certificate, of whatever
    algorithm: nothing makes it an RSA or DSA key.  The type assertions
    of [verifySignature] do fail: with a key that is not a DSA key, a DSA
    algorithm in the request and a well-formed signature panic; with a
    key that is not an RSA key, an RSA algorithm panics. *)
Theorem registry_key_type_assertion_panics `{GoLib} (configured : list ServiceProvider)
    (i i' : IDP) (issuer : string) (sp : ServiceProvider) :
  configureSPs configured i = Ok i' ->
  sps i' !! issuer = Some sp ->
  certified sp
  ∧ (forall rawQuery alg expectedSig sig signature sigR sigS,
       alg ∈ dsaAlgorithms ->
       (forall k, publicKey sp ≠ DSAKey k) ->
       signedBytes rawQuery = Ok sig ->
       base64_DecodeString expectedSig = inr signature ->
       asn1_Unmarshal signature = inr (sigR, sigS, []) -> 0 < sigR -> 0 < sigS ->
       verifySignature rawQuery alg expectedSig sp
       = Panic "interface conversion: interface {} is not *dsa.PublicKey")
  ∧ (forall rawQuery alg expectedSig sig signature,
       alg ∈ rsaAlgorithms ->
       (forall k, publicKey sp ≠ RSAKey k) ->
       signedBytes rawQuery = Ok sig ->
       base64_DecodeString expectedSig = inr signature ->
       verifySignature rawQuery alg expectedSig sp
       = Panic "interface conversion: interface {} is not *rsa.PublicKey").
Proof.
  intros Hconf Hsp. split; [|split].
  - unfold configureSPs in Hconf.
    destruct (registerSPs configured ∅) as [registry| |] eqn:Hreg; try done.
    injection Hconf as <-. simpl in Hsp.
    eapply (registerSPs_certified configured ∅ registry); [|exact Hreg|exact Hsp].
    intros id sp0 Hempty. by rewrite lookup_empty in Hempty.
  - intros rawQuery alg expectedSig sig signature sigR sigS Halg Hkey Hsig Hdec Hasn HR HS.
    unfold verifySignature. rewrite Hsig, Hdec. simpl.
    destruct (verifyWith_dsa alg sp signature sig Halg) as [sum ->].
    by apply (verifyDSA_panics _ _ _ sigR sigS).
  - intros rawQuery alg expectedSig sig signature Halg Hkey Hsig Hdec.
    unfold verifySignature. rewrite Hsig, Hdec. simpl.
    by apply verifyWith_rsa_panics.
Qed.

Lemma registry_key_type_assertion_panics_witness :
  configureSPs [spConfigured]
    (idpWith ∅ (store.mkCache 300 ∅) (store.mkCache 28800 ∅) noPassword)
  = Ok (idpWith {[ "https://sp.example/" := spWith [acsV] ]}
          (store.mkCache 300 ∅) (store.mkCache 28800 ∅) noPassword)
  ∧ verifySignature "SAMLRequest=fZJNT8Mw&SigAlg=dsa-sha1&Signature=ab"
      "http://www.w3.org/2000/09/xmldsig#dsa-sha1" "ab" (spWith [acsV])
    = Panic "interface conversion: interface {} is not *dsa.PublicKey".
Proof.
  assert (configureSPs [spConfigured]
            (idpWith ∅ (store.mkCache 300 ∅) (store.mkCache 28800 ∅) noPassword)
          = Ok (idpWith {[ "https://sp.example/" := spWith [acsV] ]}
                  (store.mkCache 300 ∅) (store.mkCache 28800 ∅) noPassword)) as Hconf
    by reflexivity.
  split; [exact Hconf|].
  destruct (registry_key_type_assertion_panics _ _ _ "https://sp.example/" (spWith [acsV])
              Hconf eq_refl) as (_ & Dsa & _).
  apply (Dsa _ _ _ (bytes_of "SAMLRequest=fZJNT8Mw&SigAlg=dsa-sha1")
           (bytes_of "ab") 97 98); try reflexivity; try lia.
  - unfold dsaAlgorithms. rewrite !elem_of_cons. tauto.
  - discriminate.
Defined.

(** ** The artifact *)

(** A digest of twenty bytes, as the list of its bytes. *)
Lemma twenty_bytes (l : bytes) :
  length l = 20%nat ->
  ∃ b0 b1 b2 b3 b4 b5 b6 b7 b8 b9 c0 c1 c2 c3 c4 c5 c6 c7 c8 c9,
    l = [b0; b1; b2; b3; b4; b5; b6; b7; b8; b9; c0; c1; c2; c3; c4; c5; c6; c7; c8; c9].
Proof.
  intros Hlen.
  do 20 (destruct l as [|? l]; [discriminate Hlen|]).
  destruct l; [|discriminate Hlen]. repeat eexists.
Qed.

Lemma getArtifact_bytes `{GoLib} entityID wd :
  getArtifact entityID wd
  = (base64_EncodeToString (artifactBytes entityID (hd "" (fresh wd))),
     {| clock := clock wd; fresh := tl (fresh wd) |}).
Proof.
  unfold getArtifact, artifactBytes, bindM, uuid_New, ret.
  destruct (twenty_bytes _ (sha1_Size (bytes_of entityID)))
    as (b0&b1&b2&b3&b4&b5&b6&b7&b8&b9&c0&c1&c2&c3&c4&c5&c6&c7&c8&c9&->).
  destruct (twenty_bytes _ (sha1_Size (bytes_of (hd "" (fresh wd)))))
    as (d0&d1&d2&d3&d4&d5&d6&d7&d8&d9&e0&e1&e2&e3&e4&e5&e6&e7&e8&e9&->).
  reflexivity.
Qed.

Lemma artifactBytes_layout `{GoLib} entityID id :
  length (artifactBytes entityID id) = 44%nat
  ∧ take 2 (artifactBytes entityID id) = [x00; x04]
  ∧ take 2 (drop 2 (artifactBytes entityID id)) = [x00; x01]
  ∧ take 20 (drop 4 (artifactBytes entityID id)) = sha1_Sum (bytes_of entityID)
  ∧ drop 24 (artifactBytes entityID id) = sha1_Sum (bytes_of id).
Proof.
  unfold artifactBytes.
  pose proof (sha1_Size (bytes_of entityID)) as Hsource.
  pose proof (sha1_Size (bytes_of id)) as Hmessage.
  split; [|split; [|split; [|split]]].
  - rewrite !length_app, Hsource, Hmessage. reflexivity.
  - reflexivity.
  - reflexivity.
  - change (take 20 (sha1_Sum (bytes_of entityID) ++ sha1_Sum (bytes_of id))
            = sha1_Sum (bytes_of entityID)).
    by apply take_app_length'.
  - change (drop 20 (sha1_Sum (bytes_of entityID) ++ sha1_Sum (bytes_of id))
            = sha1_Sum (bytes_of id)).
    by apply drop_app_length'.
Qed.

(** C4.  [getArtifact] returns the base64 encoding of 44 bytes: 0x00 0x04,
    then 0x00 0x01, then the SHA-1 of the entity ID, then the SHA-1 of the
    UUID string drawn by the call; the next call has the same layout with
    the next UUID, and differs in the last twenty bytes as soon as the
    digests of the two UUIDs differ. *)
Theorem getArtifact_layout `{GoLib} (entityID : string) (wd : World) :
  let id := (uuid_New wd).1 in
  let id' := (uuid_New (uuid_New wd).2).1 in
  ∃ artifact artifact' : bytes,
    (getArtifact entityID wd).1 = base64_EncodeToString artifact
    ∧ length artifact = 44%nat
    ∧ take 2 artifact = [x00; x04]
    ∧ take 2 (drop 2 artifact) = [x00; x01]
    ∧ take 20 (drop 4 artifact) = sha1_Sum (bytes_of entityID)
    ∧ drop 24 artifact = sha1_Sum (bytes_of id)
    ∧ (getArtifact entityID (getArtifact entityID wd).2).1
      = base64_EncodeToString artifact'
    ∧ length artifact' = 44%nat
    ∧ drop 24 artifact' = sha1_Sum (bytes_of id')
    ∧ (sha1_Sum (bytes_of id) ≠ sha1_Sum (bytes_of id') ->
       drop 24 artifact ≠ drop 24 artifact').
Proof.
  intros id id'.
  exists (artifactBytes entityID id), (artifactBytes entityID id').
  destruct (artifactBytes_layout entityID id) as (Hlen & H01 & H23 & Hsource & Hmessage).
  destruct (artifactBytes_layout entityID id') as (Hlen' & _ & _ & _ & Hmessage').
  rewrite !getArtifact_bytes.
  repeat (split; [done|]).
  by rewrite Hmessage, Hmessage'.
Qed.

Lemma getArtifact_layout_witness :
  ∃ artifact artifact' : bytes,
    (getArtifact "https://idp.example/" (mkWorld [] ["uuid-1"; "uuid-2"])).1
    = base64_EncodeToString artifact
    ∧ length artifact = 44%nat
    ∧ drop 24 artifact ≠ drop 24 artifact'.
Proof.
  destruct (getArtifact_layout "https://idp.example/" (mkWorld [] ["uuid-1"; "uuid-2"]))
    as (artifact & artifact' & Henc & Hlen & _ & _ & _ & _ & _ & _ & _ & Hdiff).
  exists artifact, artifact'. split; [exact Henc|]. split; [exact Hlen|].
  apply Hdiff. vm_compute. discriminate.
Defined.

(** ** The response to an authentication request *)

(** [makeResponse] reads the clock once and draws two identifiers. *)
Lemma makeResponse_run (i : IDP) (id issuer : string) (user : model.User.t) (wd : World) :
  let now := (time_Now wd).1 in
  saml.Assertion.Conditions (saml.Response.Assertion (makeResponse i id issuer user wd).1)
  = saml.Conditions.mk (now + fiveMinutes) now (saml.AudienceRestriction.mk issuer)
  ∧ saml.StatusResponseType.InResponseTo
      (saml.Response.StatusResponseType (makeResponse i id issuer user wd).1) = id
  ∧ (makeResponse i id issuer user wd).2
    = {| clock := tl (clock wd); fresh := tl (tl (fresh wd)) |}.
Proof. repeat split. Qed.

(** [makeAuthnResponse] reads the clock, then lets [makeResponse] read it
    again; it keeps the status, the name identifier and the conditions of
    the response [makeResponse] built. *)
Lemma makeAuthnResponse_keeps (i : IDP) (req : model.AuthnRequest.t)
    (user : model.User.t) (wd : World) :
  let inner := (makeResponse i (model.AuthnRequest.ID req) (model.AuthnRequest.Issuer req)
                  user (time_Now wd).2).1 in
  let resp := (makeAuthnResponse i req user wd).1 in
  saml.Response.StatusResponseType resp = saml.Response.StatusResponseType inner
  ∧ saml.Assertion.Conditions (saml.Response.Assertion resp)
    = saml.Assertion.Conditions (saml.Response.Assertion inner)
  ∧ saml.Subject.NameID (saml.Assertion.Subject (saml.Response.Assertion resp))
    = saml.Subject.NameID (saml.Assertion.Subject (saml.Response.Assertion inner)).
Proof. repeat split. Qed.

(** C5 (amended).  The response [makeAuthnResponse] builds has
    InResponseTo = req.ID, Issuer = the entity ID and status Success; its
    subject NameID has Format = user.Format, NameQualifier = entity ID,
    SPNameQualifier = req.Issuer and Value = user.Name; its subject
    confirmation is bearer with InResponseTo = req.ID, Recipient =
    req.AssertionConsumerServiceURL and NotOnOrAfter = five minutes after
    the clock reading of [makeAuthnResponse]; its conditions have
    NotBefore = the later clock reading of [makeResponse], NotOnOrAfter =
    five minutes after that reading, and Audience = req.Issuer. *)
Theorem makeAuthnResponse_postconditions (i : IDP) (req : model.AuthnRequest.t)
    (user : model.User.t) (wd : World) :
  let resp := (makeAuthnResponse i req user wd).1 in
  let now := (time_Now wd).1 in
  let now' := (time_Now (time_Now wd).2).1 in
  let status := saml.Response.StatusResponseType resp in
  let subject := saml.Assertion.Subject (saml.Response.Assertion resp) in
  let nameID := saml.Subject.NameID subject in
  let conditions := saml.Assertion.Conditions (saml.Response.Assertion resp) in
  saml.StatusResponseType.InResponseTo status = model.AuthnRequest.ID req
  ∧ saml.StatusResponseType.Issuer status = saml.NewIssuer (entityID i)
  ∧ saml.StatusCode.Value (saml.Status.StatusCode (saml.StatusResponseType.Status status))
    = "urn:oasis:names:tc:SAML:2.0:status:Success"
  ∧ saml.NameID.Format nameID = model.User.Format user
  ∧ saml.NameID.NameQualifier nameID = entityID i
  ∧ saml.NameID.SPNameQualifier nameID = model.AuthnRequest.Issuer req
  ∧ saml.NameID.Value nameID = model.User.Name user
  ∧ saml.SubjectConfirmation.Method (saml.Subject.SubjectConfirmation subject)
    = "urn:oasis:names:tc:SAML:2.0:cm:bearer"
  ∧ saml.SubjectConfirmation.SubjectConfirmationData (saml.Subject.SubjectConfirmation subject)
    = Some (saml.SubjectConfirmationData.mk
              (model.User.IP user)
              (model.AuthnRequest.ID req)
              (model.AuthnRequest.AssertionConsumerServiceURL req)
              (now + fiveMinutes))
  ∧ saml.Conditions.NotBefore conditions = now'
  ∧ saml.Conditions.NotOnOrAfter conditions = now' + fiveMinutes
  ∧ saml.AudienceRestriction.Audience (saml.Conditions.AudienceRestriction conditions)
    = model.AuthnRequest.Issuer req.
Proof.
  intros resp now now' status subject nameID conditions.
  destruct (makeAuthnResponse_keeps i req user wd) as (Hstatus & Hconditions & HnameID).
  destruct (makeResponse_run i (model.AuthnRequest.ID req) (model.AuthnRequest.Issuer req)
              user (time_Now wd).2) as (Hinner & Hto & _).
  subst status conditions nameID subject resp.
  rewrite Hstatus, Hconditions, HnameID, Hinner.
  repeat split.
Qed.

(** C5 as stated fails: the clock is read once by [makeAuthnResponse] and
    once more by [makeResponse].  When the two readings differ, no single
    instant is both five minutes before the subject confirmation expires
    and the NotBefore of the conditions. *)
Lemma makeAuthnResponse_two_clock_readings :
  ¬ ∃ now : Z,
      saml.SubjectConfirmation.SubjectConfirmationData
        (saml.Subject.SubjectConfirmation
           (saml.Assertion.Subject
              (saml.Response.Assertion
                 (makeAuthnResponse exampleIDP exampleRequest exampleUser
                    (mkWorld [1000; 1001] ["id-1"; "id-2"; "id-3"])).1)))
      = Some (saml.SubjectConfirmationData.mk
                (model.User.IP exampleUser)
                (model.AuthnRequest.ID exampleRequest)
                (model.AuthnRequest.AssertionConsumerServiceURL exampleRequest)
                (now + fiveMinutes))
      ∧ saml.Conditions.NotBefore
          (saml.Assertion.Conditions
             (saml.Response.Assertion
                (makeAuthnResponse exampleIDP exampleRequest exampleUser
                   (mkWorld [1000; 1001] ["id-1"; "id-2"; "id-3"])).1))
        = now
      ∧ saml.Conditions.NotOnOrAfter
          (saml.Assertion.Conditions
             (saml.Response.Assertion
                (makeAuthnResponse exampleIDP exampleRequest exampleUser
                   (mkWorld [1000; 1001] ["id-1"; "id-2"; "id-3"])).1))
        = now + fiveMinutes.
Proof.
  intros (now & Hconfirmation & Hbefore & _).
  vm_compute in Hbefore. subst now. vm_compute in Hconfirmation. discriminate.
Qed.

(** ** The password login handler *)

Lemma error_text_escaped :
  url_QueryEscape "invalid login or password. Please try again"
  = "invalid+login+or+password.+Please+try+again".
Proof. reflexivity. Qed.

(** The closure of the handler on a cached request and a wrong password:
    the error, and a state in which only a clock reading is used up. *)
Lemma passwordLogin_invalid `{GoLib} `{Deps} (s : St) (r : http.Request) requestID
    data req err :
  store.Get requestID (time_Now (world s)).1 (TempCache (idp s)) = inr data ->
  proto_Unmarshal_AuthnRequest data = inr req ->
  PasswordValidator (idp s) (http.Form_Get r "username") (http.Form_Get r "password")
  = inl err ->
  passwordLogin requestID r s
  = (Err "invalid login or password. Please try again",
     mkSt (idp s) (time_Now (world s)).2 (w s)).
Proof.
  intros Hget Hreq Hpw.
  unfold passwordLogin, bindE, bindM, TempCache_Get, liftW, getIDP, ret.
  simpl. simpl in Hget. rewrite Hget. simpl. rewrite Hreq. simpl.
  unfold loginWithPasswordForm. rewrite Hpw. reflexivity.
Qed.

(** C7.  For a cached request and a user name and password the validator
    refuses, the handler returns after one redirect with status 302 to
    /idp/static/login.html, with the request id and the error text
    "invalid login or password. Please try again" in the query; it sets
    no cookie and leaves the identity provider, its user cache included,
    as it was. *)
Theorem invalid_password_redirects `{GoLib} `{Deps} (s : St) (r : http.Request)
    (data : bytes) (req : model.AuthnRequest.t) (err : error) :
  http.ParseFormErr r = None ->
  store.Get (http.Form_Get r "requestId") (time_Now (world s)).1 (TempCache (idp s))
  = inr data ->
  proto_Unmarshal_AuthnRequest data = inr req ->
  PasswordValidator (idp s) (http.Form_Get r "username") (http.Form_Get r "password")
  = inl err ->
  let location :=
    "/idp/static/login.html?requestId=" ++ url_QueryEscape (http.Form_Get r "requestId")
    ++ "&error=invalid+login+or+password.+Please+try+again" in
  let s' := (DefaultPasswordLoginHandler r s).2 in
  (DefaultPasswordLoginHandler r s).1 = Ok tt
  ∧ w s' = http.Redirect location http.StatusFound (w s)
  ∧ http.HeaderLocation (w s') = Some location
  ∧ (http.Status (w s) = None -> http.Status (w s') = Some 302)
  ∧ http.SetCookies (w s') = http.SetCookies (w s)
  ∧ UserCache (idp s') = UserCache (idp s)
  ∧ idp s' = idp s.
Proof.
  intros Hform Hget Hreq Hpw location s'.
  assert (DefaultPasswordLoginHandler r s
          = (Ok tt, mkSt (idp s) (time_Now (world s)).2
                         (http.Redirect location http.StatusFound (w s)))) as Hrun.
  { unfold DefaultPasswordLoginHandler. rewrite Hform.
    unfold bindM at 1.
    rewrite (passwordLogin_invalid s r _ data req err) by done.
    unfold bindM, writer, ret, location. reflexivity. }
  subst s'. rewrite Hrun. simpl.
  repeat split. intros Hfresh. by rewrite Hfresh.
Qed.

Lemma invalid_password_redirects_witness :
  (DefaultPasswordLoginHandler
     (requestWith "" (loginForm "1234" "alice" "wrong") "") loginState).1 = Ok tt
  ∧ w (DefaultPasswordLoginHandler
         (requestWith "" (loginForm "1234" "alice" "wrong") "") loginState).2
    = http.mkResponseWriter (Some 302)
        (Some ("/idp/static/login.html?requestId=1234"
               ++ "&error=invalid+login+or+password.+Please+try+again"))
        [] ""
  ∧ UserCache (idp (DefaultPasswordLoginHandler
         (requestWith "" (loginForm "1234" "alice" "wrong") "") loginState).2)
    = store.mkCache 28800 ∅.
Proof.
  assert (proto_Unmarshal_AuthnRequest (bytes_of "request") = inr exampleRequest)
    as Hrequest by (vm_compute; reflexivity).
  destruct (invalid_password_redirects loginState
              (requestWith "" (loginForm "1234" "alice" "wrong") "")
              (bytes_of "request") exampleRequest "Invalid Credentials"
              eq_refl eq_refl Hrequest eq_refl)
    as (Hout & Hw & _ & _ & _ & Hcache & _).
  split; [exact Hout|]. split; [|exact Hcache].
  rewrite Hw. reflexivity.
Defined.

(** ** The artifact in the request cache *)

(** The resolution handler writes a response and uses up clock readings
    and identifiers; it never touches the identity provider. *)
Lemma processArtifactResolutionRequest_idp `{GoLib} `{Deps} (r : http.Request) (s : St) :
  idp (processArtifactResolutionRequest r s).2 = idp s.
Proof.
  unfold processArtifactResolutionRequest.
  destruct (xml_Decode_ArtifactResolve (http.Body r)) as [err|resolve]; [done|].
  unfold bindM, TempCache_Get, liftW, getIDP, ret. simpl.
  destruct (store.Get _ _ _) as [err|data]; [done|].
  destruct (proto_Unmarshal_ArtifactResponse data) as [err|blob]; [done|].
  simpl.
  destruct (signer_CreateSignature _ _) as [err|signature]; done.
Qed.

Lemma DefaultArtifactResolveHandler_idp `{GoLib} `{Deps} (r : http.Request) (s : St) :
  idp (DefaultArtifactResolveHandler r s).2 = idp s.
Proof.
  unfold DefaultArtifactResolveHandler.
  destruct (http.ClientCert r); [done|]. apply processArtifactResolutionRequest_idp.
Qed.

(** A resolution whose artifact is in the cache and has not expired is
    answered with status 200, when decoding and signing succeed. *)
Lemma DefaultArtifactResolveHandler_found `{GoLib} `{Deps} (r : http.Request) (s : St)
    dn resolve data blob :
  http.ClientCert r = inr dn ->
  xml_Decode_ArtifactResolve (http.Body r) = inr resolve ->
  store.Get (saml.ArtifactResolve.Artifact resolve) (time_Now (world s)).1
    (TempCache (idp s)) = inr data ->
  proto_Unmarshal_ArtifactResponse data = inr blob ->
  (forall a, ∃ signature, signer_CreateSignature (idp s) a = inr signature) ->
  http.Status (w s) = None ->
  http.Status (w (DefaultArtifactResolveHandler r s).2) = Some 200.
Proof.
  intros Hcert Hdecode Hget Hblob Hsigner Hfresh.
  unfold DefaultArtifactResolveHandler, processArtifactResolutionRequest.
  rewrite Hcert, Hdecode.
  unfold bindM, TempCache_Get, liftW, getIDP, ret. simpl. simpl in Hget.
  rewrite Hget, Hblob. simpl.
  match goal with
  | |- context [signer_CreateSignature (idp s) ?a] =>
      destruct (Hsigner a) as [signature ->]
  end.
  simpl. by rewrite Hfresh.
Qed.

(** What [sendArtifactResponse] leaves in the request cache. *)
Lemma sendArtifactResponse_stores `{GoLib} `{Deps} (authRequest : model.AuthnRequest.t)
    (user : model.User.t) (r : http.Request) (s : St) target data :
  url_Parse (model.AuthnRequest.AssertionConsumerServiceURL authRequest) = inr target ->
  proto_Marshal_ArtifactResponse (model.ArtifactResponse.mk user authRequest) = inr data ->
  let artifact := (getArtifact (entityID (idp s)) (world s)).1 in
  let now := (time_Now (getArtifact (entityID (idp s)) (world s)).2).1 in
  TempCache (idp (sendArtifactResponse authRequest user r s).2)
  = store.Set_ artifact data now (TempCache (idp s)).
Proof.
  intros Htarget Hdata artifact now.
  unfold sendArtifactResponse. rewrite Htarget, Hdata.
  unfold bindM, TempCache_Set, IDP_Error, liftW, getIDP, ret, writer.
  subst artifact now. cbn -[getArtifact].
  destruct (getArtifact (entityID (idp s)) (world s)) as [artifact wd]. reflexivity.
Qed.

(** C9 (amended).  An artifact is not consumed by its resolution.  The
    handler performs no [Delete] and no [Set]: after it has run, the
    identity provider and both caches are as before, so every key is
    retrievable exactly as before.  A second ArtifactResolve with the
    same artifact, while the entry has not expired, is answered with
    status 200 again when decoding and signing succeed.  The entry
    [sendArtifactResponse] stored leaves the cache by expiry only. *)
Theorem artifact_remains_until_expiry `{GoLib} `{Deps} (s : St) (r : http.Request) :
  let s1 := (DefaultArtifactResolveHandler r s).2 in
  idp s1 = idp s
  ∧ (forall key now,
       store.Get key now (TempCache (idp s1)) = store.Get key now (TempCache (idp s)))
  ∧ (forall dn resolve data blob,
       http.ClientCert r = inr dn ->
       xml_Decode_ArtifactResolve (http.Body r) = inr resolve ->
       store.Get (saml.ArtifactResolve.Artifact resolve)
         (time_Now (world s1)).1 (TempCache (idp s)) = inr data ->
       proto_Unmarshal_ArtifactResponse data = inr blob ->
       (forall a, ∃ signature, signer_CreateSignature (idp s) a = inr signature) ->
       http.Status (w (DefaultArtifactResolveHandler r (nextRequest s1)).2) = Some 200).
Proof.
  intros s1.
  assert (idp s1 = idp s) as Hidp by apply DefaultArtifactResolveHandler_idp.
  split; [exact Hidp|]. split.
  - intros key now. by rewrite Hidp.
  - intros dn resolve data blob Hcert Hdecode Hget Hblob Hsigner.
    apply (DefaultArtifactResolveHandler_found r (nextRequest s1) dn resolve data blob);
      try done; unfold nextRequest; simpl; by rewrite Hidp.
Qed.

(** C9 as stated fails: the artifact stored by the redirect is resolved
    with status 200, is still retrievable afterwards, and a second
    resolution before its expiry is answered with status 200 as well. *)
Lemma artifact_resolved_twice :
  TempCache (idp afterRedirect)
  = store.mkCache 300 {[ exampleArtifact := (bytes_of "artifact response", 1300) ]}
  ∧ http.Status (w afterResolve) = Some 200
  ∧ store.Get exampleArtifact 1200 (TempCache (idp afterResolve))
    = inr (bytes_of "artifact response")
  ∧ http.Status (w afterSecondResolve) = Some 200.
Proof. vm_compute. repeat split. Qed.

Lemma artifact_remains_until_expiry_witness :
  idp afterResolve = idp afterRedirect
  ∧ http.Status (w afterSecondResolve) = Some 200.
Proof.
  destruct (artifact_remains_until_expiry (nextRequest afterRedirect)
              (resolveRequest exampleArtifact)) as (Hidp & _ & Hsecond).
  split; [exact Hidp|].
  apply (Hsecond "CN=sp.example"
           (saml.ArtifactResolve.mk
              (saml.RequestAbstractType.mk "_resolve" "2.0" 0 "https://sp.example/" "")
              exampleArtifact)
           (bytes_of "artifact response")
           (model.ArtifactResponse.mk exampleUser exampleRequest)).
  - reflexivity.
  - reflexivity.
  - vm_compute. reflexivity.
  - vm_compute. reflexivity.
  - intros a. eexists. reflexivity.
Defined.

(** ** The LDAP search filter *)

Section LdapTrace.
Context `{Directory}.

Lemma searches_app sent sent' :
  searches (sent ++ sent')%list = (searches sent ++ searches sent')%list.
Proof. unfold searches. by rewrite omap_app. Qed.

(** A connection attempt dials and binds; it sends no search. *)
Lemma getConn_searches client username password sent :
  searches (getConn client username password sent).2 = searches sent.
Proof.
  unfold getConn, bindM, send, ret. simpl.
  destruct (ldap_DialURL (Addr client)); simpl.
  - rewrite searches_app. simpl. by rewrite app_nil_r.
  - destruct (ldap_SimpleBind username password); simpl;
      rewrite !searches_app; simpl; by rewrite !app_nil_r.
Qed.

(** Nor does the loop that binds as the entries found. *)
Lemma bindEntries_searches client password attributes entries : forall sent,
  searches (bindEntries client password attributes entries sent).2 = searches sent.
Proof.
  induction entries as [|entry entries IH]; intros sent; [done|].
  simpl. unfold bindM.
  pose proof (getConn_searches client (ldap.DN entry) password sent) as Hconn.
  destruct (getConn client (ldap.DN entry) password sent) as [[err|conn] sent'];
    simpl in *.
  - by rewrite IH.
  - unfold send, ret. simpl. rewrite searches_app. simpl.
    by rewrite app_nil_r.
Qed.

(** [sendRequest] sends its request once the administrator is bound. *)
Lemma sendRequest_searches client request sent :
  searches (sendRequest client request sent).2
  = (searches sent ++ match (getConnWithAdmin client sent).1 with
                      | inr _ => [request]
                      | inl _ => []
                      end)%list.
Proof.
  unfold sendRequest, bindM, getConnWithAdmin.
  pose proof (getConn_searches client (BindDN client) (BindDNCredential client) sent)
    as Hconn.
  destruct (getConn client (BindDN client) (BindDNCredential client) sent)
    as [[err|conn] sent']; simpl in *.
  - by rewrite app_nil_r.
  - unfold send, ret. simpl. rewrite !searches_app. simpl.
    by rewrite app_nil_r, Hconn.
Qed.

Lemma Authenticate_searches client username password sent :
  searches (Authenticate client username password sent).2
  = (searches sent
     ++ match (getConnWithAdmin client sent).1 with
        | inr _ =>
            [ buildSearchRequest (SearchBase client) (searchFilter username)
                ["cn"; "gidNumber"; "memberUid"; "uid"; "uidNumber"; "mail"] ]
        | inl _ => []
        end)%list.
Proof.
  unfold Authenticate, bindM.
  pose proof (sendRequest_searches client
    (buildSearchRequest (SearchBase client) (searchFilter username)
       ["cn"; "gidNumber"; "memberUid"; "uid"; "uidNumber"; "mail"]) sent) as Hsend.
  destruct (sendRequest client _ sent) as [[err|entries] sent']; simpl in *.
  - done.
  - by rewrite bindEntries_searches.
Qed.

End LdapTrace.

Lemma string_length_app (a b : string) :
  String.length (a ++ b) = (String.length a + String.length b)%nat.
Proof.
  induction a as [|c a IH]; [done|]. rewrite append_cons. simpl. by rewrite IH.
Qed.

(** Escaping leaves a plain name as it is, and makes any other name
    longer. *)
Lemma rfc4515_escape_plain s : rfc4515_plain s = true -> rfc4515_escape s = s.
Proof.
  induction s as [|c s IH]; [done|]. simpl.
  intros [Hc Hs]%andb_true_iff. apply negb_true_iff in Hc.
  rewrite Hc. by rewrite IH.
Qed.

Lemma rfc4515_escape_length s :
  (String.length s <= String.length (rfc4515_escape s))%nat
  ∧ (rfc4515_plain s = false ->
     (String.length s < String.length (rfc4515_escape s))%nat).
Proof.
  induction s as [|c s [IHle IHlt]]; [done|]. simpl.
  destruct (rfc4515_special c); simpl.
  - split; [lia|]. intros _. lia.
  - split; [lia|]. intros Hs. specialize (IHlt Hs). lia.
Qed.

(** C8 (amended).  The filter [Authenticate] sends to the directory is
    (cn=<user>) with the name substituted as it is, without escaping:
    every search the call sends carries that filter, and it sends one
    such search once the administrator is bound.  The filter is the
    RFC 4515 filter of the name exactly when the name holds none of the
    bytes RFC 4515 has escaped. *)
Theorem Authenticate_filter_verbatim `{Directory} (client : LdapClient)
    (username password : string) :
  (forall request,
     request ∈ searches (Authenticate client username password []).2 ->
     ldap.Filter request = "(cn=" ++ username ++ ")")
  ∧ ((getConnWithAdmin client []).1 = inr tt ->
     searches (Authenticate client username password []).2
     = [ buildSearchRequest (SearchBase client) ("(cn=" ++ username ++ ")")
           ["cn"; "gidNumber"; "memberUid"; "uid"; "uidNumber"; "mail"] ])
  ∧ (rfc4515_plain username = true ->
     searchFilter username = searchFilter_escaped username)
  ∧ (rfc4515_plain username = false ->
     searchFilter username ≠ searchFilter_escaped username).
Proof.
  split; [|split; [|split]].
  - intros request. rewrite Authenticate_searches. simpl.
    destruct ((getConnWithAdmin client []).1) as [err|conn].
    + intros Hin. by apply elem_of_nil in Hin.
    + intros Hin. apply list_elem_of_singleton in Hin. by subst request.
  - intros Hadmin. rewrite Authenticate_searches, Hadmin. reflexivity.
  - intros Hplain. unfold searchFilter, searchFilter_escaped.
    by rewrite rfc4515_escape_plain.
  - intros Hplain Heq. apply (f_equal String.length) in Heq.
    unfold searchFilter, searchFilter_escaped in Heq.
    rewrite !string_length_app in Heq.
    destruct (rfc4515_escape_length username) as [_ Hlt].
    specialize (Hlt Hplain). lia.
Qed.

(** C8 as stated fails: for the user name that is one asterisk the search
    sent carries the asterisk as it is, not its escape, and the directory
    answers with every person; the first whose password fits is
    authenticated. *)
Lemma Authenticate_filter_not_escaped :
  searches (Authenticate sampleClient "*" "secret" []).2
  = [ buildSearchRequest "ou=people,dc=example" "(cn=*)"
        ["cn"; "gidNumber"; "memberUid"; "uid"; "uidNumber"; "mail"] ]
  ∧ searchFilter_escaped "*" = "(cn=\2a)"
  ∧ "(cn=*)" ≠ searchFilter_escaped "*"
  ∧ (Authenticate sampleClient "*" "secret" []).1
    = inr (getAttributes entryAlice
             ["cn"; "gidNumber"; "memberUid"; "uid"; "uidNumber"; "mail"]).
Proof. repeat split; try reflexivity. vm_compute. discriminate. Qed.

Lemma Authenticate_filter_verbatim_witness :
  searches (Authenticate sampleClient "alice" "secret" []).2
  = [ buildSearchRequest "ou=people,dc=example" "(cn=alice)"
        ["cn"; "gidNumber"; "memberUid"; "uid"; "uidNumber"; "mail"] ]
  ∧ searchFilter "alice" = searchFilter_escaped "alice"
  ∧ searchFilter "a*" ≠ searchFilter_escaped "a*".
Proof.
  destruct (Authenticate_filter_verbatim sampleClient "alice" "secret")
    as (_ & Sent & Plain & _).
  destruct (Authenticate_filter_verbatim sampleClient "a*" "secret")
    as (_ & _ & _ & Special).
  split; [|split].
  - apply Sent. reflexivity.
  - apply Plain. reflexivity.
  - apply Special. reflexivity.
Defined.

(** * Further properties *)

(** ** Metadata and the configured service providers *)

Lemma fill_from {A B} (f : A -> B) (zero : B) (l : list A) : forall (pre : list B) k,
  length pre = k ->
  foldl (fun s iv => <[iv.1 := f iv.2]> s) (pre ++ replicate (length l) zero)%list
    (imap (fun i x => ((k + i)%nat, x)) l)
  = (pre ++ (f <$> l))%list.
Proof.
  induction l as [|x l IH]; intros pre k Hk; [done|].
  simpl. rewrite Nat.add_0_r.
  rewrite (insert_app_r_alt pre _ k) by lia.
  replace (k - length pre)%nat with 0%nat by lia. simpl.
  rewrite (imap_ext _ (fun i y => ((S k + i)%nat, y))).
  - rewrite (cons_middle (f x) pre), app_assoc.
    rewrite (IH (pre ++ [f x])%list (S k)).
    + by rewrite <- app_assoc.
    + rewrite length_app. simpl. lia.
  - intros j y _. simpl. f_equal. lia.
Qed.

Lemma fillSlice_fmap {A B} (f : A -> B) (zero : B) (l : list A) :
  fillSlice f zero l = f <$> l.
Proof. apply (fill_from f zero l [] 0%nat). reflexivity. Qed.

(** X1.  [convertMetadata] keeps the endpoints of the descriptor, in their
    order and number, takes the certificate of the X509Data element and
    leaves the key [nil]; without a descriptor or without the X509Data
    element it returns its two errors. *)
Theorem convertMetadata_copies_endpoints (spMeta : metadata.SPEntityDescriptor) :
  convertMetadata None = Err "service provider entity descriptor not found"
  ∧ (metadata.X509Data spMeta = None ->
     convertMetadata (Some spMeta)
     = Err "service provider's SSO descriptor does not contain required X509Data element")
  ∧ (forall certificate,
       metadata.X509Data spMeta = Some certificate ->
       convertMetadata (Some spMeta)
       = Ok (mkSP (metadata.EntityID spMeta)
               (toACS <$> metadata.AssertionConsumerService spMeta)
               (toSLO <$> metadata.SingleLogoutService spMeta)
               certificate NilKey)).
Proof.
  split; [done|]. split.
  - intros Hnone. unfold convertMetadata. by rewrite Hnone.
  - intros certificate Hsome. unfold convertMetadata. rewrite Hsome.
    by rewrite !fillSlice_fmap.
Qed.

Lemma convertMetadata_copies_endpoints_witness :
  convertMetadata
    (Some (metadata.mkDescriptor "https://sp.example/" (Some "RSA certificate")
             [metadata.mkEndpoint 1 false bindingPOST "https://sp.example/acs/u";
              metadata.mkEndpoint 0 false bindingPOST "https://sp.example/acs/v"]
             []))
  = Ok (mkSP "https://sp.example/" [acsU; acsV] [] "RSA certificate" NilKey).
Proof.
  destruct (convertMetadata_copies_endpoints
              (metadata.mkDescriptor "https://sp.example/" (Some "RSA certificate")
                 [metadata.mkEndpoint 1 false bindingPOST "https://sp.example/acs/u";
                  metadata.mkEndpoint 0 false bindingPOST "https://sp.example/acs/v"]
                 [])) as (_ & _ & Copy).
  apply (Copy "RSA certificate"). reflexivity.
Defined.

Lemma replaceFirst_None serviceProvider sps :
  replaceFirst serviceProvider sps = None
  <-> EntityID serviceProvider ∉ EntityID <$> sps.
Proof.
  induction sps as [|c sps IH]; simpl.
  - split; [|done]. intros _. apply not_elem_of_nil.
  - rewrite not_elem_of_cons. case_decide as Hc.
    + split; [done|]. intros [Hne _]. by destruct Hne.
    + destruct (replaceFirst serviceProvider sps); simpl.
      * split; [done|]. intros [_ Hnot]. by apply IH in Hnot.
      * split; [|done]. intros _. split; [done|]. by apply IH.
Qed.

Lemma replaceFirst_Some serviceProvider sps sps' :
  replaceFirst serviceProvider sps = Some sps' ->
  EntityID <$> sps' = EntityID <$> sps
  ∧ replaceFirst serviceProvider sps' = Some sps'
  ∧ serviceProvider ∈ sps'
  ∧ (forall c, EntityID c ≠ EntityID serviceProvider -> c ∈ sps' <-> c ∈ sps).
Proof.
  revert sps'. induction sps as [|c sps IH]; intros sps' Hrep; simpl in Hrep; [done|].
  case_decide as Hc.
  - injection Hrep as <-. split; [by rewrite !fmap_cons, Hc|].
    split; [simpl; by rewrite decide_True|].
    split; [by left|].
    intros d Hd. rewrite !elem_of_cons. split.
    + intros [->|Hin]; [done|]. by right.
    + intros [->|Hin]; [by rewrite Hc in Hd|]. by right.
  - destruct (replaceFirst serviceProvider sps) as [l|]; [|done].
    injection Hrep as <-.
    destruct (IH l eq_refl) as (Hids & Hagain & Hin & Hothers).
    split; [by rewrite !fmap_cons, Hids|].
    split; [simpl; rewrite decide_False by done; by rewrite Hagain|].
    split; [by right|].
    intros d Hd. rewrite !elem_of_cons. by rewrite (Hothers d Hd).
Qed.

(** X2.  The list [SaveSpFromMetadata] stores holds the new service
    provider; entries with another entity ID are kept as they are; entity
    IDs that were unique stay unique; storing the same service provider
    again changes nothing. *)
Theorem upsertSP_by_entity_id (serviceProvider : ServiceProvider)
    (sps : list ServiceProvider) :
  serviceProvider ∈ upsertSP serviceProvider sps
  ∧ (forall c, EntityID c ≠ EntityID serviceProvider ->
       c ∈ upsertSP serviceProvider sps <-> c ∈ sps)
  ∧ (NoDup (EntityID <$> sps) -> NoDup (EntityID <$> upsertSP serviceProvider sps))
  ∧ upsertSP serviceProvider (upsertSP serviceProvider sps) = upsertSP serviceProvider sps
  ∧ (EntityID serviceProvider ∈ EntityID <$> sps ->
     length (upsertSP serviceProvider sps) = length sps).
Proof.
  unfold upsertSP.
  destruct (replaceFirst serviceProvider sps) as [sps'|] eqn:Hrep.
  - destruct (replaceFirst_Some _ _ _ Hrep) as (Hids & Hagain & Hin & Hothers).
    rewrite Hagain. repeat split; try done.
    + by apply Hothers.
    + by apply Hothers.
    + by rewrite Hids.
    + intros _. rewrite <- (length_fmap EntityID sps'), Hids. by rewrite length_fmap.
  - pose proof (proj1 (replaceFirst_None _ _) Hrep) as Hfresh.
    repeat split.
    + apply elem_of_app. right. by apply list_elem_of_singleton.
    + intros Hin. apply elem_of_app in Hin as [Hin|Hin]; [done|].
      apply list_elem_of_singleton in Hin. by subst c.
    + intros Hin. apply elem_of_app. by left.
    + intros Hnodup. rewrite fmap_app. apply NoDup_app. split; [done|]. split.
      * intros id Hid Hnew. simpl in Hnew. apply list_elem_of_singleton in Hnew.
        by subst id.
      * simpl. apply NoDup_singleton.
    + assert (replaceFirst serviceProvider (sps ++ [serviceProvider])
              = Some (sps ++ [serviceProvider])%list) as ->; [|done].
      clear Hrep. induction sps as [|c sps IH]; simpl.
      * by rewrite decide_True.
      * simpl in Hfresh. apply not_elem_of_cons in Hfresh as [Hc Hfresh].
        rewrite decide_False by done. by rewrite IH.
    + intros Hin. by destruct Hfresh.
Qed.

Lemma upsertSP_by_entity_id_witness :
  NoDup (EntityID <$> upsertSP spLogout
           [mkSP "https://other.example/" [] [] "" NilKey; spConfigured])
  ∧ length (upsertSP spLogout
              [mkSP "https://other.example/" [] [] "" NilKey; spConfigured]) = 2%nat.
Proof.
  destruct (upsertSP_by_entity_id spLogout
              [mkSP "https://other.example/" [] [] "" NilKey; spConfigured])
    as (_ & _ & Unique & _ & Same).
  split.
  - apply Unique. apply (bool_decide_unpack _). vm_compute. exact I.
  - apply Same. apply (bool_decide_unpack _). vm_compute. exact I.
Defined.

Lemma upsertSP_idempotent (serviceProvider : ServiceProvider) (sps : list ServiceProvider) :
  upsertSP serviceProvider (upsertSP serviceProvider sps) = upsertSP serviceProvider sps.
Proof.
  unfold upsertSP.
  destruct (replaceFirst serviceProvider sps) as [sps'|] eqn:Hrep.
  - destruct (replaceFirst_Some _ _ _ Hrep) as (_ & -> & _). done.
  - pose proof (proj1 (replaceFirst_None _ _) Hrep) as Hfresh.
    assert (replaceFirst serviceProvider (sps ++ [serviceProvider])
            = Some (sps ++ [serviceProvider])%list) as ->; [|done].
    clear Hrep. induction sps as [|c sps IH]; simpl.
    + by rewrite decide_True.
    + rewrite fmap_cons in Hfresh. apply not_elem_of_cons in Hfresh as [Hc Hfresh].
      rewrite decide_False by done. by rewrite IH.
Qed.

(** X3.  [SaveSpFromMetadata] changes the configuration only after the
    metadata was read and the key [sps] was unmarshalled: a failure of
    either returns that error and leaves the configuration as it was.
    Past that point the list in memory is the updated one even when
    [viper.WriteConfig] fails, its error is what is returned, and saving
    the same metadata a second time leaves the list as the first save
    made it. *)
Theorem SaveSpFromMetadata_configuration `{ConfigLib} (text : string)
    (config : error + list ServiceProvider) :
  (forall e, ReadSPMetadata text = Err e ->
     SaveSpFromMetadata text config = (Err e, config))
  ∧ (forall serviceProvider e,
       ReadSPMetadata text = Ok serviceProvider -> config = inl e ->
       SaveSpFromMetadata text config = (Err e, config))
  ∧ (forall serviceProvider sps,
       ReadSPMetadata text = Ok serviceProvider -> config = inr sps ->
       SaveSpFromMetadata text config
       = (of_error (viper_WriteConfig (upsertSP serviceProvider sps)),
          inr (upsertSP serviceProvider sps))
       ∧ (SaveSpFromMetadata text (SaveSpFromMetadata text config).2).2
         = (SaveSpFromMetadata text config).2).
Proof.
  split; [|split].
  - intros e Hread. unfold SaveSpFromMetadata. by rewrite Hread.
  - intros serviceProvider e Hread ->. unfold SaveSpFromMetadata. by rewrite Hread.
  - intros serviceProvider sps Hread ->. unfold SaveSpFromMetadata. rewrite Hread.
    split; [done|]. simpl. by rewrite upsertSP_idempotent.
Qed.

Lemma SaveSpFromMetadata_configuration_witness :
  SaveSpFromMetadata "" (inr [spConfigured]) = (Err "EOF", inr [spConfigured])
  ∧ (SaveSpFromMetadata "https://sp.example/"
       (SaveSpFromMetadata "https://sp.example/" (inr [spConfigured])).2).2
    = (SaveSpFromMetadata "https://sp.example/" (inr [spConfigured])).2.
Proof.
  split.
  - destruct (SaveSpFromMetadata_configuration "" (inr [spConfigured])) as (Failed & _).
    apply Failed. reflexivity.
  - destruct (SaveSpFromMetadata_configuration "https://sp.example/" (inr [spConfigured]))
      as (_ & _ & Saved).
    destruct (Saved (mkSP "https://sp.example/"
                       [mkACS 0 true bindingPOST "https://sp.example/acs/v";
                        mkACS 1 false bindingArtifact "https://sp.example/acs/u"]
                       [mkSLO 0 false bindingPOST "https://sp.example/slo"]
                       "RSA certificate" NilKey)
                [spConfigured]) as [_ Twice]; [reflexivity|reflexivity|].
    exact Twice.
Defined.

Lemma parseCertificate_EntityID `{GoLib} (sp sp' : ServiceProvider) :
  parseCertificate sp = Ok sp' -> EntityID sp' = EntityID sp.
Proof.
  unfold parseCertificate. intros Hparse.
  destruct (base64_DecodeString (Certificate sp)); [done|].
  destruct (x509_ParseCertificate _); [done|].
  by injection Hparse as <-.
Qed.

Lemma registerSPs_app `{GoLib} (configured more : list ServiceProvider)
    (registry : gmap string ServiceProvider) :
  registerSPs (configured ++ more) registry
  = (registry' <- registerSPs configured registry ;; registerSPs more registry').
Proof.
  revert registry. induction configured as [|sp configured IH]; intros registry; [done|].
  simpl. destruct (parseCertificate sp) as [sp'| |]; simpl; [|done|done].
  apply IH.
Qed.



(** ** The signature of a redirect query, continued *)

Lemma foldl_insert_lastValue (ps : list (string * string)) (key : string) :
  forall pMap : gmap string string,
    foldl (fun m kv => <[kv.1 := kv.2]> m) pMap ps !! key
    = match lastValue key ps with Some v => Some v | None => pMap !! key end.
Proof.
  induction ps as [|kv ps IH] using rev_ind; intros pMap; [done|].
  rewrite foldl_app. simpl. unfold lastValue. rewrite List.filter_app. simpl.
  case_bool_decide as Hk.
  - rewrite last_snoc. simpl. subst key. by rewrite lookup_insert_eq.
  - rewrite app_nil_r. rewrite lookup_insert_ne by done. apply IH.
Qed.

(** X5.  For a query of parameters without stray separators the signed
    string is made of the LAST raw value of each of [SAMLRequest],
    [RelayState] and [SigAlg]: an earlier occurrence of a repeated
    parameter is not covered by the signature, a missing [SAMLRequest] or
    [SigAlg] is signed as the empty value and not refused, [RelayState] is
    left out when absent, and no other parameter counts.  The empty query
    is refused. *)
Theorem signedBytes_last_values `{GoLib} (ps : list (string * string)) :
  signedBytes (rawQueryOf []) = Err "trouble validating signature on request"
  ∧ (ps ≠ [] ->
     Forall encoded ps ->
     signedBytes (rawQueryOf ps)
     = Ok (bytes_of ("SAMLRequest=" ++ default "" (lastValue "SAMLRequest" ps)
                     ++ match lastValue "RelayState" ps with
                        | Some state => "&RelayState=" ++ state
                        | None => ""
                        end
                     ++ "&SigAlg=" ++ default "" (lastValue "SigAlg" ps)))).
Proof.
  split; [done|]. intros Hne Hps.
  unfold signedBytes, rawQueryOf.
  rewrite strings_Split_Join.
  - rewrite splitParams_components by done. simpl. do 2 f_equal.
    unfold signedString, index.
    rewrite !foldl_insert_lastValue, !lookup_empty.
    destruct (lastValue "SAMLRequest" ps), (lastValue "RelayState" ps),
      (lastValue "SigAlg" ps); simpl; unfold strings_Join; simpl;
      rewrite ?string_app_assoc; reflexivity.
  - by destruct ps.
  - apply Forall_fmap. eapply Forall_impl; [exact Hps|].
    intros kv Hkv. by apply component_no_amp.
Qed.

Lemma signedBytes_last_values_witness :
  signedBytes (rawQueryOf [("SAMLRequest", "first"); ("Signature", "c2ln");
                           ("SAMLRequest", "second")])
  = Ok (bytes_of "SAMLRequest=second&SigAlg=").
Proof.
  destruct (signedBytes_last_values
              [("SAMLRequest", "first"); ("Signature", "c2ln"); ("SAMLRequest", "second")])
    as [_ Last].
  apply Last; [discriminate|].
  repeat constructor.
Defined.

(** X6.  [verifySignature] returns without an error only when the
    library verified the decoded signature: the query split into
    parameters, [expectedSig] is base64, the algorithm is one of the four,
    the key of the service provider is of the kind the algorithm needs,
    and [rsa.VerifyPKCS1v15], or [dsa.Verify] on two positive integers
    without trailing bytes, accepted the digest of the signed bytes under
    that key, the digest being the one the algorithm names. *)
Theorem verifySignature_sound `{GoLib} (rawQuery alg expectedSig : string)
    (sp : ServiceProvider) :
  verifySignature rawQuery alg expectedSig sp = Ok tt ->
  exists sig signature,
    signedBytes rawQuery = Ok sig
    ∧ base64_DecodeString expectedSig = inr signature
    ∧ ((exists key hash sum,
          publicKey sp = RSAKey key
          ∧ ((alg = "http://www.w3.org/2000/09/xmldsig#rsa-sha1"
              ∧ hash = SHA1 ∧ sum = sha1_Sum sig)
             ∨ (alg = "http://www.w3.org/2001/04/xmldsig-more#rsa-sha256"
                ∧ hash = SHA256 ∧ sum = sha256_Sum sig))
          ∧ rsa_VerifyPKCS1v15 key hash sum signature = None)
       ∨ (exists key sum sigR sigS,
            publicKey sp = DSAKey key
            ∧ ((alg = "http://www.w3.org/2000/09/xmldsig#dsa-sha1" ∧ sum = sha1_Sum sig)
               ∨ (alg = "http://www.w3.org/2009/xmldsig11#dsa-sha256"
                  ∧ sum = sha256_Sum sig))
            ∧ asn1_Unmarshal signature = inr (sigR, sigS, [])
            ∧ 0 < sigR ∧ 0 < sigS
            ∧ dsa_Verify key sum sigR sigS = true)).
Proof.
  unfold verifySignature. intros Hok.
  destruct (signedBytes rawQuery) as [sig| |]; simpl in Hok; try done.
  destruct (base64_DecodeString expectedSig) as [|signature]; simpl in Hok; try done.
  exists sig, signature. split; [done|]. split; [done|].
  assert (forall sum, verifyDSA sp signature sum = Ok tt ->
            exists key sigR sigS,
              publicKey sp = DSAKey key
              ∧ asn1_Unmarshal signature = inr (sigR, sigS, [])
              ∧ 0 < sigR ∧ 0 < sigS ∧ dsa_Verify key sum sigR sigS = true) as Hdsa.
  { intros sum. unfold verifyDSA.
    destruct (asn1_Unmarshal signature) as [|[[sigR sigS] rest]]; [done|].
    case_decide as Hrest; [done|]. case_decide as Hsgn; [done|].
    destruct (publicKey sp) as [|key| |]; simpl; try done.
    destruct (dsa_Verify key sum sigR sigS) eqn:Hverify; [|done].
    intros _. exists key, sigR, sigS.
    destruct rest; [|done].
    repeat split; try done.
    - destruct sigR; simpl in Hsgn; lia.
    - destruct sigS; simpl in Hsgn; lia. }
  assert (forall hash sum,
            (key <- assertRSA (publicKey sp) ;;
             of_error (rsa_VerifyPKCS1v15 key hash sum signature)) = Ok tt ->
            exists key, publicKey sp = RSAKey key
                        ∧ rsa_VerifyPKCS1v15 key hash sum signature = None) as Hrsa.
  { intros hash sum. destruct (publicKey sp) as [key| | |]; simpl; try done.
    destruct (rsa_VerifyPKCS1v15 key hash sum signature) eqn:Hverify; [done|].
    intros _. by exists key. }
  unfold verifyWith in Hok. repeat case_decide.
  - apply Hdsa in Hok as (key & sigR & sigS & ? & ? & ? & ? & ?).
    right. exists key, (sha256_Sum sig), sigR, sigS. repeat split; try done. by right.
  - apply Hdsa in Hok as (key & sigR & sigS & ? & ? & ? & ? & ?).
    right. exists key, (sha1_Sum sig), sigR, sigS. repeat split; try done. by left.
  - apply Hrsa in Hok as (key & ? & ?).
    left. exists key, SHA1, (sha1_Sum sig). repeat split; try done. by left.
  - apply Hrsa in Hok as (key & ? & ?).
    left. exists key, SHA256, (sha256_Sum sig). repeat split; try done. by right.
  - done.
Qed.

Lemma verifySignature_sound_witness :
  exists sig signature,
    signedBytes "SAMLRequest=fZJNT8Mw&SigAlg=x" = Ok sig
    ∧ base64_DecodeString "SAMLRequest=fZJNT8Mw" = inr signature
    ∧ ((exists key hash sum,
          publicKey (spWith [acsV]) = RSAKey key
          ∧ (("http://www.w3.org/2000/09/xmldsig#rsa-sha1"
              = "http://www.w3.org/2000/09/xmldsig#rsa-sha1"
              ∧ hash = SHA1 ∧ sum = sha1_Sum sig)
             ∨ ("http://www.w3.org/2000/09/xmldsig#rsa-sha1"
                = "http://www.w3.org/2001/04/xmldsig-more#rsa-sha256"
                ∧ hash = SHA256 ∧ sum = sha256_Sum sig))
          ∧ rsa_VerifyPKCS1v15 key hash sum signature = None)
       ∨ (exists key sum sigR sigS,
            publicKey (spWith [acsV]) = DSAKey key
            ∧ (("http://www.w3.org/2000/09/xmldsig#rsa-sha1"
                = "http://www.w3.org/2000/09/xmldsig#dsa-sha1" ∧ sum = sha1_Sum sig)
               ∨ ("http://www.w3.org/2000/09/xmldsig#rsa-sha1"
                  = "http://www.w3.org/2009/xmldsig11#dsa-sha256"
                  ∧ sum = sha256_Sum sig))
            ∧ asn1_Unmarshal signature = inr (sigR, sigS, [])
            ∧ 0 < sigR ∧ 0 < sigS
            ∧ dsa_Verify key sum sigR sigS = true)).
Proof.
  apply (verifySignature_sound "SAMLRequest=fZJNT8Mw&SigAlg=x"
           "http://www.w3.org/2000/09/xmldsig#rsa-sha1" "SAMLRequest=fZJNT8Mw"
           (spWith [acsV])).
  vm_compute. reflexivity.
Defined.

(** ** What the two validations accept *)

(** X7.  [validateAuthRequest] returns without an error only for a request
    of a registered issuer whose signature [verifySignature] accepted
    under the key of that issuer; the consumer URL the request holds
    afterwards is the location of an entry of that service provider's
    metadata, and a URL the request brought is kept: nothing but an empty
    URL is changed. *)
Theorem validateAuthRequest_accepts `{GoLib} (i : IDP) (r : http.Request)
    (request request' : saml.AuthnRequest.t) :
  validateAuthRequest i r request = (Ok tt, request') ->
  exists sp k acs,
    saml.AuthnRequest.Issuer request ≠ ""
    ∧ sps i !! saml.AuthnRequest.Issuer request = Some sp
    ∧ AssertionConsumerServices sp !! k = Some acs
    ∧ saml.AuthnRequest.AssertionConsumerServiceURL request' = Location acs
    ∧ (saml.AuthnRequest.AssertionConsumerServiceURL request ≠ "" -> request' = request)
    ∧ saml.AuthnRequest.RequestAbstractType request'
      = saml.AuthnRequest.RequestAbstractType request
    ∧ saml.AuthnRequest.ProtocolBinding request' = saml.AuthnRequest.ProtocolBinding request
    ∧ saml.AuthnRequest.AssertionConsumerServiceIndex request'
      = saml.AuthnRequest.AssertionConsumerServiceIndex request
    ∧ verifySignature (http.RawQuery r) (http.Form_Get r "SigAlg")
        (http.Form_Get r "Signature") sp = Ok tt.
Proof.
  unfold validateAuthRequest. intros Hvalid.
  case_decide as Hissuer; [done|].
  destruct (sps i !! saml.AuthnRequest.Issuer request) as [sp|] eqn:Hsp; [|done].
  unfold selectedACS in Hvalid.
  destruct (selectACS sp request) as [[k acs]|] eqn:Hsel; simpl in Hvalid; [|done].
  apply selectACS_lookup in Hsel.
  exists sp, k, acs. case_decide as Hurl.
  - injection Hvalid as Hverify <-. simpl. by repeat split.
  - case_decide as Hloc; [done|]. injection Hvalid as Hverify <-.
    repeat split; try done; by apply dec_stable.
Qed.

Lemma validateAuthRequest_accepts_witness :
  exists sp k acs,
    saml.AuthnRequest.Issuer (requestFor "" 0) ≠ ""
    ∧ sps exampleIDP !! saml.AuthnRequest.Issuer (requestFor "" 0) = Some sp
    ∧ AssertionConsumerServices sp !! k = Some acs
    ∧ saml.AuthnRequest.AssertionConsumerServiceURL (requestFor "https://sp.example/acs/v" 0)
      = Location acs
    ∧ (saml.AuthnRequest.AssertionConsumerServiceURL (requestFor "" 0) ≠ "" ->
       requestFor "https://sp.example/acs/v" 0 = requestFor "" 0)
    ∧ saml.AuthnRequest.RequestAbstractType (requestFor "https://sp.example/acs/v" 0)
      = saml.AuthnRequest.RequestAbstractType (requestFor "" 0)
    ∧ saml.AuthnRequest.ProtocolBinding (requestFor "https://sp.example/acs/v" 0)
      = saml.AuthnRequest.ProtocolBinding (requestFor "" 0)
    ∧ saml.AuthnRequest.AssertionConsumerServiceIndex (requestFor "https://sp.example/acs/v" 0)
      = saml.AuthnRequest.AssertionConsumerServiceIndex (requestFor "" 0)
    ∧ verifySignature
        (http.RawQuery (ssoRequest "fZJNT8Mw" "" "SAMLRequest=fZJNT8Mw" []))
        (http.Form_Get (ssoRequest "fZJNT8Mw" "" "SAMLRequest=fZJNT8Mw" []) "SigAlg")
        (http.Form_Get (ssoRequest "fZJNT8Mw" "" "SAMLRequest=fZJNT8Mw" []) "Signature")
        sp = Ok tt.
Proof.
  apply (validateAuthRequest_accepts exampleIDP
           (ssoRequest "fZJNT8Mw" "" "SAMLRequest=fZJNT8Mw" [])
           (requestFor "" 0) (requestFor "https://sp.example/acs/v" 0)).
  vm_compute. reflexivity.
Defined.

(** X8.  [validateLogoutRequest] accepts a request only from a registered
    issuer with at least one logout endpoint; the logout URL the request
    holds afterwards is the location of the FIRST endpoint, whatever the
    others are; the binding is taken from that endpoint only when the
    request brought no URL, otherwise the request says which binding is
    used.  The HTTP request is never read: no signature is verified. *)
Theorem validateLogoutRequest_accepts (i : IDP) (r : http.Request)
    (request request' : LogoutRequest.t) :
  validateLogoutRequest i r request = (Ok tt, request') ->
  (exists sp slos rest,
     LogoutRequest.Issuer request ≠ ""
     ∧ sps i !! LogoutRequest.Issuer request = Some sp
     ∧ SingleLogoutServices sp = slos :: rest
     ∧ LogoutRequest.SingleLogoutServiceUrl request' = sloLocation slos
     ∧ (LogoutRequest.SingleLogoutServiceUrl request = "" ->
        LogoutRequest.ProtocolBinding request' = sloBinding slos)
     ∧ (LogoutRequest.SingleLogoutServiceUrl request ≠ "" -> request' = request)
     ∧ LogoutRequest.RequestAbstractType request' = LogoutRequest.RequestAbstractType request
     ∧ LogoutRequest.LogoutResponse request' = LogoutRequest.LogoutResponse request)
  ∧ forall r', validateLogoutRequest i r' request = (Ok tt, request').
Proof.
  intros Hvalid. split; [|intros r'; exact Hvalid].
  unfold validateLogoutRequest in Hvalid.
  case_decide as Hissuer; [done|].
  destruct (sps i !! LogoutRequest.Issuer request) as [sp|] eqn:Hsp; [|done].
  destruct (SingleLogoutServices sp) as [|slos rest] eqn:Hslo; [done|].
  exists sp, slos, rest. case_decide as Hurl.
  - injection Hvalid as <-. simpl. by repeat split.
  - case_decide as Hloc; [done|]. injection Hvalid as <-.
    repeat split; try done; by apply dec_stable.
Qed.

Lemma validateLogoutRequest_accepts_witness :
  validateLogoutRequest (idp sessionState)
    (ssoRequest "logout" "" "" [sessionCookie (idp sessionState) "sess-1"]) exampleLogout
  = (Ok tt,
     LogoutRequest.mk (LogoutRequest.RequestAbstractType exampleLogout)
       "https://sp.example/slo" ""
       "urn:oasis:names:tc:SAML:2.0:bindings:HTTP-Redirect").
Proof.
  destruct (validateLogoutRequest_accepts (idp sessionState) (requestWith "" ∅ "")
              exampleLogout
              (LogoutRequest.mk (LogoutRequest.RequestAbstractType exampleLogout)
                 "https://sp.example/slo" ""
                 "urn:oasis:names:tc:SAML:2.0:bindings:HTTP-Redirect")
              eq_refl) as [_ Any].
  exact (Any (ssoRequest "logout" "" "" [sessionCookie (idp sessionState) "sess-1"])).
Defined.

(** ** The redirect handlers *)

(** X9.  A redirect request that does not pass the checks up to
    [validateAuthRequest] changes nothing: the caches and the registry are
    as before, neither the clock nor a fresh identifier is used, and the
    response is the error with status 400, or nothing at all when the
    validation panicked. *)
Theorem DefaultRedirectSSOHandler_unvalidated `{GoLib} `{Deps} `{SSODeps}
    (r : http.Request) (s : St) :
  ¬ validated (idp s) r ->
  let outcome := (DefaultRedirectSSOHandler r s).1 in
  let s' := (DefaultRedirectSSOHandler r s).2 in
  idp s' = idp s
  ∧ world s' = world s
  ∧ ((outcome = Ok tt ∧ exists e, w s' = Error (idp s) e StatusBadRequest (w s))
     ∨ (exists reason, outcome = Panic reason ∧ w s' = w s)).
Proof.
  intros Hnot outcome s'. unfold validated in Hnot.
  destruct (DefaultRedirectSSOHandler r s) as [out st] eqn:Hrun.
  subst outcome s'. simpl. revert Hrun.
  unfold DefaultRedirectSSOHandler, redirectSSO.
  destruct (http.ParseFormErr r) as [err|] eqn:Hform.
  { unfold bindM, ret, IDP_Error. simpl. intros [= <- <-].
    repeat split. left. split; [done|]. by exists err. }
  case_decide as Hlen.
  { unfold bindM, ret, IDP_Error. simpl. intros [= <- <-].
    repeat split. left. split; [done|]. by eexists. }
  destruct (base64_DecodeString (http.Form_Get r "SAMLRequest")) as [err|reqBytes] eqn:Hb64.
  { unfold bindE, bindM, ret, IDP_Error. simpl. intros [= <- <-].
    repeat split. left. split; [done|]. by exists err. }
  destruct (flate_xml_Decode_AuthnRequest reqBytes) as [err|loginReq] eqn:Hdec.
  { unfold bindE, bindM, ret, IDP_Error. simpl. rewrite Hdec. simpl. intros [= <- <-].
    repeat split. left. split; [done|]. by exists err. }
  unfold bindE at 1 2. unfold bindM at 1 2. unfold ret at 1 2. unfold getIDP at 1.
  simpl. rewrite Hdec. simpl.
  destruct (validateAuthRequest (idp s) r loginReq) as [valid request'] eqn:Hvalid.
  destruct valid as [[]|e|reason].
  - destruct Hnot. split; [done|]. split; [lia|]. by exists reqBytes, loginReq, request'.
  - unfold bindE, bindM, ret, IDP_Error. simpl. intros [= <- <-].
    repeat split. left. split; [done|]. by exists e.
  - unfold bindE, bindM, ret, IDP_Error. simpl. intros [= <- <-].
    repeat split. right. by exists reason.
Qed.

Lemma DefaultRedirectSSOHandler_unvalidated_witness :
  idp (DefaultRedirectSSOHandler (ssoRequest "stranger" "" "" []) sessionState).2
  = idp sessionState
  ∧ world (DefaultRedirectSSOHandler (ssoRequest "stranger" "" "" []) sessionState).2
    = world sessionState.
Proof.
  destruct (DefaultRedirectSSOHandler_unvalidated (ssoRequest "stranger" "" "" [])
              sessionState) as (Hidp & Hworld & _); [|by split].
  intros (_ & _ & reqBytes & loginReq & request' & Hb64 & Hdec & Hvalid).
  vm_compute in Hb64. injection Hb64 as <-.
  vm_compute in Hdec. injection Hdec as <-.
  vm_compute in Hvalid. discriminate Hvalid.
Defined.

Lemma store_Get_Set (key : string) (value : bytes) (now t : Z) (c : store.Cache) :
  store.Get key t (store.Set_ key value now c)
  = if decide (now + store.ttl c <= t) then inl "expired" else inr value.
Proof. unfold store.Get, store.Set_. simpl. by rewrite lookup_insert_eq. Qed.

Lemma store_Get_Set_ne (key key' : string) (value : bytes) (now t : Z) (c : store.Cache) :
  key ≠ key' ->
  store.Get key' t (store.Set_ key value now c) = store.Get key' t c.
Proof. intros Hne. unfold store.Get, store.Set_. simpl. by rewrite lookup_insert_ne. Qed.

Lemma getUserFromSession_state `{SSODeps} (r : http.Request) (s : St) :
  idp (getUserFromSession r s).2 = idp s ∧ w (getUserFromSession r s).2 = w s.
Proof.
  unfold getUserFromSession, bindM, getIDP, UserCache_Get, liftW, ret. simpl.
  destruct (http.Request_Cookie r (cookieName (idp s))) as [cookie|]; [|done]. simpl.
  destruct (store.Get _ _ _) as [|data]; [done|].
  by destruct (proto_Unmarshal_User data).
Qed.



(** ** Sessions *)

Lemma sendArtifactResponse_UserCache `{GoLib} `{Deps} (authRequest : model.AuthnRequest.t)
    (user : model.User.t) (r : http.Request) (s : St) :
  UserCache (idp (sendArtifactResponse authRequest user r s).2) = UserCache (idp s).
Proof.
  unfold sendArtifactResponse, bindM, ret, getIDP, liftW, IDP_Error, TempCache_Set, writer.
  destruct (url_Parse (model.AuthnRequest.AssertionConsumerServiceURL authRequest)); simpl;
    destruct (getArtifact (entityID (idp s)) (world s)); simpl;
    destruct (proto_Marshal_ArtifactResponse (model.ArtifactResponse.mk user authRequest));
    simpl; reflexivity.
Qed.



Lemma deleteUserFromSession_state `{SSODeps} (r : http.Request) (s : St) :
  let s' := (deleteUserFromSession r s).2 in
  w s' = w s
  ∧ TempCache (idp s') = TempCache (idp s)
  ∧ cookieName (idp s') = cookieName (idp s)
  ∧ Error (idp s') = Error (idp s)
  ∧ (http.Request_Cookie r (cookieName (idp s)) = None -> s' = s)
  ∧ (forall cookie,
       http.Request_Cookie r (cookieName (idp s)) = Some cookie ->
       match store.Get (http.Value cookie) (hd 0 (clock (world s))) (UserCache (idp s)) with
       | inr _ => UserCache (idp s') = store.Delete (http.Value cookie) (UserCache (idp s))
       | inl _ => idp s' = idp s
       end).
Proof.
  unfold deleteUserFromSession, bindM, getIDP, UserCache_Get, UserCache_Delete, liftW,
    time_Now, ret. simpl.
  destruct (http.Request_Cookie r (cookieName (idp s))) as [cookie|]; simpl.
  - destruct (store.Get (http.Value cookie) (hd 0 (clock (world s))) (UserCache (idp s)))
      eqn:Hget; simpl; repeat split; try done; intros c [= <-]; by rewrite Hget.
  - repeat split; done.
Qed.

(** X12.  [DefaultRedirectSLOHandler], for a logout request that
    [validateLogoutRequest] accepts, ends the session the cookie names:
    a live entry of the user cache is deleted, so that no later lookup
    finds it, and a cookie of the configured name with a negative maximal
    age is set; without a session cookie the caches stay as they are.
    With the HTTP-Redirect binding the response is a redirect with status
    302 to the logout URL of the request, with HTTP-POST the page with
    the form; with any other binding the response is the error with
    status 400, after the session was ended and the cookie set.  The
    request cache is never touched. *)
Theorem DefaultRedirectSLOHandler_ends_session `{GoLib} `{Deps} `{SSODeps}
    (r : http.Request) (s : St) (reqBytes : bytes) (logoutReq request' : LogoutRequest.t) :
  http.ParseFormErr r = None ->
  base64_DecodeString (http.Form_Get r "SAMLRequest") = inr reqBytes ->
  flate_xml_Decode_LogoutRequest reqBytes = inr logoutReq ->
  validateLogoutRequest (idp s) r logoutReq = (Ok tt, request') ->
  let s' := (DefaultRedirectSLOHandler r s).2 in
  let binding := LogoutRequest.ProtocolBinding request' in
  (DefaultRedirectSLOHandler r s).1 = Ok tt
  ∧ TempCache (idp s') = TempCache (idp s)
  ∧ (forall cookie data,
       http.Request_Cookie r (cookieName (idp s)) = Some cookie ->
       store.Get (http.Value cookie) (hd 0 (clock (world s))) (UserCache (idp s)) = inr data ->
       UserCache (idp s') = store.Delete (http.Value cookie) (UserCache (idp s))
       ∧ forall t, store.Get (http.Value cookie) t (UserCache (idp s')) = inl "not found")
  ∧ (http.Request_Cookie r (cookieName (idp s)) = None ->
     idp s' = idp s ∧ world s' = world s)
  ∧ (binding = "urn:oasis:names:tc:SAML:2.0:bindings:HTTP-Redirect" ->
     w s' = http.Redirect (LogoutRequest.SingleLogoutServiceUrl request') http.StatusFound
              (http.SetCookie (expiredCookie (idp s)) (w s)))
  ∧ (binding = "urn:oasis:names:tc:SAML:2.0:bindings:HTTP-POST" ->
     w s' = http.Write "</body></html>"
              (http.Write (LogoutPost request')
                 (http.Write "<!DOCTYPE html><html><body>"
                    (http.SetCookie (expiredCookie (idp s)) (w s)))))
  ∧ (binding ≠ "urn:oasis:names:tc:SAML:2.0:bindings:HTTP-POST" ->
     binding ≠ "urn:oasis:names:tc:SAML:2.0:bindings:HTTP-Redirect" ->
     w s' = Error (idp s) "unsupported protocol binding" StatusBadRequest
              (http.SetCookie (expiredCookie (idp s)) (w s))).
Proof.
  intros Hform Hb64 Hdec Hvalid s' binding.
  destruct (deleteUserFromSession_state r s) as (Hw & Htemp & Hname & Herror & Hnone & Hsome).
  destruct (deleteUserFromSession r s) as [[] s1] eqn:Hdelete. simpl in *.
  assert (DefaultRedirectSLOHandler r s
          = if decide (binding = "urn:oasis:names:tc:SAML:2.0:bindings:HTTP-POST") then
              (Ok tt,
               mkSt (idp s1) (world s1)
                 (http.Write "</body></html>"
                    (http.Write (LogoutPost request')
                       (http.Write "<!DOCTYPE html><html><body>"
                          (http.SetCookie (expiredCookie (idp s)) (w s))))))
            else if decide (binding = "urn:oasis:names:tc:SAML:2.0:bindings:HTTP-Redirect")
            then
              (Ok tt,
               mkSt (idp s1) (world s1)
                 (http.Redirect (LogoutRequest.SingleLogoutServiceUrl request')
                    http.StatusFound (http.SetCookie (expiredCookie (idp s)) (w s))))
            else
              (Ok tt,
               mkSt (idp s1) (world s1)
                 (Error (idp s) "unsupported protocol binding" StatusBadRequest
                    (http.SetCookie (expiredCookie (idp s)) (w s))))) as Hrun.
  { unfold DefaultRedirectSLOHandler, redirectSLO. rewrite Hform, Hb64.
    unfold bindE at 1 2. unfold bindM at 1 2. unfold ret at 1 2. unfold getIDP at 1.
    simpl. rewrite Hdec. simpl. rewrite Hvalid.
    unfold bindE at 1. unfold bindM at 1 2. unfold ret at 1. simpl. rewrite Hdelete.
    subst binding. unfold expiredCookie.
    repeat case_decide; unfold bindM, writer, ret, IDP_Error; simpl;
      rewrite ?Hw, ?Herror; reflexivity. }
  subst s'. rewrite Hrun. clear Hrun.
  split; [by repeat case_decide|].
  split; [by repeat case_decide|].
  split.
  { intros cookie data Hcookie Hget. specialize (Hsome cookie Hcookie).
    rewrite Hget in Hsome.
    assert (UserCache (idp s1) = store.Delete (http.Value cookie) (UserCache (idp s)))
      as Hdeleted by done.
    split; [by repeat case_decide|].
    intros t. repeat case_decide; simpl; rewrite Hdeleted;
      unfold store.Get, store.Delete; simpl; by rewrite lookup_delete_eq. }
  split.
  { intros Hcookie. rewrite (Hnone Hcookie). by repeat case_decide. }
  split.
  { intros Hredirect. rewrite decide_False by (rewrite Hredirect; discriminate).
    by rewrite decide_True. }
  split.
  { intros Hpost. by rewrite decide_True. }
  intros Hpost Hredirect. by rewrite !decide_False.
Qed.

Lemma DefaultRedirectSLOHandler_ends_session_witness :
  (DefaultRedirectSLOHandler
     (ssoRequest "logout" "" "" [sessionCookie (idp sessionState) "sess-1"])
     sessionState).1 = Ok tt
  ∧ UserCache (idp (DefaultRedirectSLOHandler
                      (ssoRequest "logout" "" "" [sessionCookie (idp sessionState) "sess-1"])
                      sessionState).2)
    = store.Delete "sess-1" (UserCache (idp sessionState))
  ∧ w (DefaultRedirectSLOHandler
         (ssoRequest "logout" "" "" [sessionCookie (idp sessionState) "sess-1"])
         sessionState).2
    = http.Redirect "https://sp.example/slo" http.StatusFound
        (http.SetCookie (expiredCookie (idp sessionState)) http.empty).
Proof.
  destruct (DefaultRedirectSLOHandler_ends_session
              (ssoRequest "logout" "" "" [sessionCookie (idp sessionState) "sess-1"])
              sessionState (bytes_of "logout") exampleLogout
              (LogoutRequest.mk (LogoutRequest.RequestAbstractType exampleLogout)
                 "https://sp.example/slo" ""
                 "urn:oasis:names:tc:SAML:2.0:bindings:HTTP-Redirect"))
    as (Hout & _ & Hdeleted & _ & Hredirect & _); try (vm_compute; reflexivity).
  split; [exact Hout|]. split.
  - apply (Hdeleted (sessionCookie (idp sessionState) "sess-1") (bytes_of "user"));
      vm_compute; reflexivity.
  - rewrite Hredirect by reflexivity. reflexivity.
Defined.

(** ** The password handler without a cached request *)

(** X13.  When the request cache has no live entry under the [requestId]
    of the form, or the entry does not unmarshal, the password handler
    does not look at the user name and password: the validator's answer
    makes no difference, the caches stay as they are, no cookie is set,
    and the response is a redirect with status 302 to the login page that
    carries the request identifier and the text of the error, both
    escaped. *)
Theorem DefaultPasswordLoginHandler_without_request `{GoLib} `{Deps}
    (s : St) (r : http.Request) (e : error) :
  http.ParseFormErr r = None ->
  (store.Get (http.Form_Get r "requestId") (hd 0 (clock (world s))) (TempCache (idp s))
   = inl e
   ∨ exists data,
       store.Get (http.Form_Get r "requestId") (hd 0 (clock (world s))) (TempCache (idp s))
       = inr data
       ∧ proto_Unmarshal_AuthnRequest data = inl e) ->
  DefaultPasswordLoginHandler r s
  = (Ok tt,
     mkSt (idp s) (time_Now (world s)).2
       (http.Redirect
          ("/idp/static/login.html?requestId=" ++ url_QueryEscape (http.Form_Get r "requestId")
           ++ "&error=" ++ url_QueryEscape e)
          http.StatusFound (w s))).
Proof.
  intros Hform Hget.
  unfold DefaultPasswordLoginHandler. rewrite Hform.
  unfold passwordLogin, bindE, bindM, TempCache_Get, liftW, getIDP, ret, writer, time_Now.
  simpl. destruct Hget as [Hget|(data & Hget & Hdata)]; rewrite Hget; simpl.
  - reflexivity.
  - rewrite Hdata. reflexivity.
Qed.

Lemma DefaultPasswordLoginHandler_without_request_witness :
  DefaultPasswordLoginHandler (requestWith "" (loginForm "9 9" "alice" "secret") "")
    loginState
  = (Ok tt,
     mkSt (idp loginState) (mkWorld [4001] ["uuid-1"; "uuid-2"])
       (http.Redirect "/idp/static/login.html?requestId=9+9&error=not+found"
          http.StatusFound http.empty)).
Proof.
  apply (DefaultPasswordLoginHandler_without_request loginState
           (requestWith "" (loginForm "9 9" "alice" "secret") "") "not found").
  - reflexivity.
  - left. vm_compute. reflexivity.
Defined.

(** ** Resolving and sending artifacts *)


(** X15.  The two error branches of [sendArtifactResponse] do not
    return.  When the consumer URL does not parse, the error is written
    with status 500, the artifact is made and the blob stored all the
    same, and the call panics on the [nil] target instead of returning.
    When the blob does not marshal, the error is written with status 500,
    an EMPTY blob is stored under the artifact, and the redirect with
    that artifact is issued on top of the error. *)
Theorem sendArtifactResponse_error_branches `{GoLib} `{Deps}
    (authRequest : model.AuthnRequest.t) (user : model.User.t) (r : http.Request) (s : St) :
  let artifact := (getArtifact (entityID (idp s)) (world s)).1 in
  let now := hd 0 (clock (world s)) in
  let s' := (sendArtifactResponse authRequest user r s).2 in
  (forall err data,
     url_Parse (model.AuthnRequest.AssertionConsumerServiceURL authRequest) = inl err ->
     proto_Marshal_ArtifactResponse (model.ArtifactResponse.mk user authRequest) = inr data ->
     (sendArtifactResponse authRequest user r s).1
     = Panic "invalid memory address or nil pointer dereference"
     ∧ w s' = Error (idp s) err http.StatusInternalServerError (w s)
     ∧ TempCache (idp s') = store.Set_ artifact data now (TempCache (idp s)))
  ∧ (forall target err,
       url_Parse (model.AuthnRequest.AssertionConsumerServiceURL authRequest) = inr target ->
       proto_Marshal_ArtifactResponse (model.ArtifactResponse.mk user authRequest) = inl err ->
       (sendArtifactResponse authRequest user r s).1 = Ok tt
       ∧ TempCache (idp s') = store.Set_ artifact [] now (TempCache (idp s))
       ∧ w s' = http.Redirect
                  (url_String_with_RawQuery target
                     ("RelayState="
                      ++ url_QueryEscape (model.AuthnRequest.RelayState authRequest)
                      ++ "&SAMLart=" ++ url_QueryEscape artifact))
                  http.StatusFound
                  (Error (idp s) err http.StatusInternalServerError (w s))).
Proof.
  intros artifact now s'. subst artifact now s'. split.
  - intros err data Hparse Hmarshal.
    unfold sendArtifactResponse. rewrite Hparse, Hmarshal.
    unfold bindM, ret, getIDP, liftW, IDP_Error, TempCache_Set, writer, time_Now.
    cbn -[getArtifact].
    destruct (getArtifact (entityID (idp s)) (world s)) as [artifact wd] eqn:Hart.
    rewrite getArtifact_bytes in Hart. injection Hart as <- <-. by repeat split.
  - intros target err Hparse Hmarshal.
    unfold sendArtifactResponse. rewrite Hparse, Hmarshal.
    unfold bindM, ret, getIDP, liftW, IDP_Error, TempCache_Set, writer, time_Now.
    cbn -[getArtifact].
    destruct (getArtifact (entityID (idp s)) (world s)) as [artifact wd] eqn:Hart.
    rewrite getArtifact_bytes in Hart. injection Hart as <- <-. by repeat split.
Qed.

Lemma sendArtifactResponse_error_branches_witness :
  (@sendArtifactResponse sampleLib strictDeps
     (model.AuthnRequest.mk "_abc" "https://sp.example/" "https://sp example/acs" 0
        bindingArtifact "state" 0 "")
     exampleUser (requestWith "" ∅ "") artifactState).1
  = Panic "invalid memory address or nil pointer dereference"
  ∧ (@sendArtifactResponse sampleLib strictDeps exampleRequest
       (model.User.mk "" "" "" "" [] []) (requestWith "" ∅ "") artifactState).1
    = Ok tt.
Proof.
  split.
  - destruct (@sendArtifactResponse_error_branches sampleLib strictDeps
                (model.AuthnRequest.mk "_abc" "https://sp.example/" "https://sp example/acs" 0
                   bindingArtifact "state" 0 "")
                exampleUser (requestWith "" ∅ "") artifactState) as [Parse _].
    destruct (Parse "invalid character in host name" (bytes_of "artifact response"))
      as (Hout & _); [reflexivity|reflexivity|exact Hout].
  - destruct (@sendArtifactResponse_error_branches sampleLib strictDeps exampleRequest
                (model.User.mk "" "" "" "" [] []) (requestWith "" ∅ "") artifactState)
      as [_ Marshal].
    destruct (Marshal "https://sp.example/acs/v" "proto: required field not set")
      as (Hout & _); [reflexivity|reflexivity|exact Hout].
Defined.

(** ** The LDAP validator, continued *)

Section LdapFurther.
Context `{Directory}.

Lemma getConn_canBind (client : LdapClient) (username password : string)
    (sent : list ldap.Op) :
  if canBind client username password
  then (getConn client username password sent).1 = inr tt
  else exists err, (getConn client username password sent).1 = inl err.
Proof.
  unfold canBind, getConn, bindM, send, ret. simpl.
  destruct (ldap_DialURL (Addr client)) as [err|]; simpl; [by exists err|].
  destruct (ldap_SimpleBind username password) as [err|]; simpl; [by exists err|done].
Qed.

Lemma bindEntries_find (client : LdapClient) (password : string) (attributes : list string)
    (entries : list ldap.Entry) : forall sent,
  (bindEntries client password attributes entries sent).1
  = match List.find (fun entry => canBind client (ldap.DN entry) password) entries with
    | Some entry => inr (getAttributes entry attributes)
    | None => inl ldap.NoSuchObject
    end.
Proof.
  induction entries as [|entry entries IH]; intros sent; [done|].
  simpl. unfold bindM at 1.
  pose proof (getConn_canBind client (ldap.DN entry) password sent) as Hconn.
  destruct (getConn client (ldap.DN entry) password sent) as [conn sent'].
  destruct (canBind client (ldap.DN entry) password); simpl in Hconn.
  - by subst conn.
  - destruct Hconn as [err ->]. apply IH.
Qed.

(** X16.  What [Authenticate] returns: when the administrator cannot
    bind, or the search fails, the error "can not find user's DN";
    otherwise the six attributes of the FIRST entry of the search result
    under whose DN the password binds, entries before it that refuse the
    bind being skipped; the error "No Such Object" when no entry binds,
    and so also when the search finds nothing. *)
Theorem Authenticate_first_bindable (client : LdapClient) (username password : string)
    (sent : list ldap.Op) :
  (Authenticate client username password sent).1
  = if canBind client (BindDN client) (BindDNCredential client) then
      match ldap_Search (buildSearchRequest (SearchBase client) ("(cn=" ++ username ++ ")")
                           ldapAttributes) with
      | inl _ => inl "can not find user's DN"
      | inr entries =>
          match List.find (fun entry => canBind client (ldap.DN entry) password) entries with
          | Some entry => inr (getAttributes entry ldapAttributes)
          | None => inl ldap.NoSuchObject
          end
      end
    else inl "can not find user's DN".
Proof.
  unfold Authenticate. unfold bindM at 1. unfold sendRequest. unfold bindM at 1.
  unfold getConnWithAdmin.
  pose proof (getConn_canBind client (BindDN client) (BindDNCredential client) sent) as Hconn.
  destruct (getConn client (BindDN client) (BindDNCredential client) sent) as [conn sent'].
  destruct (canBind client (BindDN client) (BindDNCredential client)); simpl in Hconn.
  - subst conn. unfold bindM, send, ret. simpl.
    fold (searchFilter username). fold ldapAttributes.
    destruct (ldap_Search _) as [err|entries]; [done|].
    apply bindEntries_find.
  - by destruct Hconn as [err ->].
Qed.

Lemma getAttributes_lookup_aux (entry : ldap.Entry) (attributes : list string)
    (attribute : string) : forall attrs : gmap string (list string),
  foldl (fun attrs attribute => <[attribute := ldap.GetAttributeValues entry attribute]> attrs)
    attrs attributes !! attribute
  = if decide (attribute ∈ attributes)
    then Some (ldap.GetAttributeValues entry attribute)
    else attrs !! attribute.
Proof.
  induction attributes as [|a attributes IH] using rev_ind; intros attrs.
  - rewrite decide_False; [done|]. apply not_elem_of_nil.
  - rewrite foldl_app. simpl. destruct (decide (a = attribute)) as [->|Hne].
    + rewrite lookup_insert_eq. rewrite decide_True; [done|].
      apply elem_of_app. right. by apply list_elem_of_singleton.
    + rewrite lookup_insert_ne by done. rewrite IH.
      destruct (decide (attribute ∈ attributes)) as [Hin|Hout].
      * rewrite decide_True; [done|]. apply elem_of_app. by left.
      * rewrite decide_False; [done|]. intros Hin.
        apply elem_of_app in Hin as [Hin|Hin]; [done|].
        apply list_elem_of_singleton in Hin. congruence.
Qed.

(** X17.  The map [getAttributes] returns has exactly the requested
    attributes as keys: one the entry lacks is present with no values,
    one that was not requested is absent whatever the entry holds. *)
Theorem getAttributes_keys (entry : ldap.Entry) (attributes : list string)
    (attribute : string) :
  (attribute ∈ attributes ->
   getAttributes entry attributes !! attribute
   = Some (default [] (ldap.Values entry !! attribute)))
  ∧ (attribute ∉ attributes -> getAttributes entry attributes !! attribute = None)
  ∧ (attribute ∈ attributes -> ldap.Values entry !! attribute = None ->
     getAttributes entry attributes !! attribute = Some []).
Proof.
  unfold getAttributes. rewrite getAttributes_lookup_aux.
  split; [|split].
  - intros Hin. by rewrite decide_True.
  - intros Hout. by rewrite decide_False.
  - intros Hin Hnone. rewrite decide_True by done.
    unfold ldap.GetAttributeValues. by rewrite Hnone.
Qed.

End LdapFurther.

Lemma getAttributes_keys_witness :
  getAttributes entryAlice ldapAttributes !! "mail" = Some []
  ∧ getAttributes entryAlice ["cn"] !! "uid" = None.
Proof.
  destruct (getAttributes_keys entryAlice ldapAttributes "mail") as (_ & _ & Lacking).
  destruct (getAttributes_keys entryAlice ["cn"] "uid") as (_ & Absent & _).
  split.
  - apply Lacking; [|reflexivity].
    unfold ldapAttributes. rewrite !elem_of_cons. tauto.
  - apply Absent. rewrite elem_of_cons. intros [Heq|Hin]; [discriminate|].
    by apply elem_of_nil in Hin.
Defined.

Section LdapConnections.
Context `{Directory}.

Lemma dials_app (a b : list ldap.Op) : dials (a ++ b) = (dials a + dials b)%nat.
Proof. unfold dials. by rewrite List.filter_app, length_app. Qed.

Lemma closes_app (a b : list ldap.Op) : closes (a ++ b) = (closes a + closes b)%nat.
Proof. unfold closes. by rewrite List.filter_app, length_app. Qed.

Lemma failedBinds_app (a b : list ldap.Op) :
  failedBinds (a ++ b) = (failedBinds a + failedBinds b)%nat.
Proof. unfold failedBinds. by rewrite List.filter_app, length_app. Qed.

Lemma getConn_trace (client : LdapClient) (username password : string)
    (sent : list ldap.Op) :
  ldap_DialURL (Addr client) = None ->
  exists added,
    (getConn client username password sent).2 = (sent ++ added)%list
    ∧ closes added = 0%nat
    ∧ match (getConn client username password sent).1 with
      | inr _ => dials added = 1%nat ∧ failedBinds added = 0%nat
      | inl _ => dials added = 1%nat ∧ failedBinds added = 1%nat
      end.
Proof.
  intros Hdial. exists [ldap.Dial (Addr client); ldap.SimpleBind username password].
  unfold getConn, bindM, send, ret. simpl. rewrite Hdial. simpl.
  unfold failedBinds, dials, closes. simpl.
  destruct (ldap_SimpleBind username password) as [err|] eqn:Hbind; simpl;
    rewrite <- app_assoc; repeat split.
Qed.

Lemma bindEntries_trace (client : LdapClient) (password : string) (attributes : list string)
    (entries : list ldap.Entry) : forall sent,
  ldap_DialURL (Addr client) = None ->
  exists added,
    (bindEntries client password attributes entries sent).2 = (sent ++ added)%list
    ∧ dials added = (closes added + failedBinds added)%nat.
Proof.
  induction entries as [|entry entries IH]; intros sent Hdial.
  - exists []. simpl. by rewrite app_nil_r.
  - simpl. unfold bindM at 1.
    destruct (getConn_trace client (ldap.DN entry) password sent Hdial)
      as (added & Hsent & Hcloses & Hconn).
    destruct (getConn client (ldap.DN entry) password sent) as [conn sent'].
    simpl in Hsent, Hconn. subst sent'. destruct conn as [err|[]].
    + destruct (IH (sent ++ added)%list Hdial) as (more & -> & Hmore).
      exists (added ++ more)%list. rewrite app_assoc. split; [done|].
      rewrite dials_app, closes_app, failedBinds_app. lia.
    + exists (added ++ [ldap.Close])%list. unfold bindM, send, ret. simpl.
      rewrite app_assoc. split; [done|].
      rewrite dials_app, closes_app, failedBinds_app.
      unfold dials at 2, closes at 2, failedBinds at 2. simpl. lia.
Qed.

(** X18.  With a directory that can be dialled, every connection
    [Authenticate] opens is closed again except those whose bind was
    refused: of the operations it sends, the dials are as many as the
    closes and the refused binds together.  A refused bind, of the
    administrator or under an entry's DN, leaves its connection open. *)
Theorem Authenticate_connections (client : LdapClient) (username password : string)
    (sent : list ldap.Op) :
  ldap_DialURL (Addr client) = None ->
  exists added,
    (Authenticate client username password sent).2 = (sent ++ added)%list
    ∧ dials added = (closes added + failedBinds added)%nat.
Proof.
  intros Hdial.
  unfold Authenticate. unfold bindM at 1. unfold sendRequest. unfold bindM at 1.
  unfold getConnWithAdmin.
  destruct (getConn_trace client (BindDN client) (BindDNCredential client) sent Hdial)
    as (added & Hsent & Hcloses & Hconn).
  destruct (getConn client (BindDN client) (BindDNCredential client) sent) as [conn sent'].
  simpl in Hsent, Hconn. subst sent'. destruct conn as [err|[]].
  - exists added. simpl. split; [done|]. lia.
  - unfold bindM, send, ret. simpl.
    destruct (ldap_Search _) as [err|entries].
    + exists (added ++ [ldap.Search
                         (buildSearchRequest (SearchBase client) (searchFilter username)
                            ["cn"; "gidNumber"; "memberUid"; "uid"; "uidNumber"; "mail"]);
                       ldap.Close])%list.
      simpl. rewrite <- !app_assoc. split; [done|].
      rewrite dials_app, closes_app, failedBinds_app.
      unfold dials at 2, closes at 2, failedBinds at 2. simpl. lia.
    + destruct (bindEntries_trace client password
                  ["cn"; "gidNumber"; "memberUid"; "uid"; "uidNumber"; "mail"] entries
                  (((sent ++ added) ++ [ldap.Search
                         (buildSearchRequest (SearchBase client) (searchFilter username)
                            ["cn"; "gidNumber"; "memberUid"; "uid"; "uidNumber"; "mail"])])
                   ++ [ldap.Close])%list Hdial) as (more & -> & Hmore).
      exists (added ++ [ldap.Search
                         (buildSearchRequest (SearchBase client) (searchFilter username)
                            ["cn"; "gidNumber"; "memberUid"; "uid"; "uidNumber"; "mail"]);
                       ldap.Close] ++ more)%list.
      split; [by rewrite <- !app_assoc|].
      rewrite !dials_app, !closes_app, !failedBinds_app.
      unfold dials at 2, closes at 2, failedBinds at 2. simpl. lia.
Qed.

End LdapConnections.

Lemma Authenticate_connections_witness :
  exists added,
    (Authenticate sampleClient "*" "wrong" []).2 = ([] ++ added)%list
    ∧ dials added = (closes added + failedBinds added)%nat.
Proof.
  apply (Authenticate_connections sampleClient "*" "wrong" []). reflexivity.
Defined.

(** ** The remote address and the attribute sources *)

Lemma strings_Split_hd sep s :
  occurs sep s = true ->
  exists rest, s = hd "" (strings_Split s sep) ++ String sep rest.
Proof.
  induction s as [|c s IH]; simpl; [done|]. intros Hocc.
  destruct (decide (c = sep)) as [->|Hne].
  - by exists s.
  - rewrite bool_decide_eq_false_2 in Hocc by done. simpl in Hocc.
    destruct (IH Hocc) as [rest Hrest].
    destruct (strings_Split s sep) as [|p ps] eqn:Hsplit.
    + by apply strings_Split_nonempty in Hsplit.
    + simpl in *. exists rest. rewrite append_cons. by rewrite <- Hrest.
Qed.

(** X19.  The text [getIP] hands to [net.ParseIP] is the remote address up
    to its first colon, the port and all the rest cut off, and the whole
    address when it has no colon.  That text never holds a colon, so for
    a remote address with an IPv6 host, which [net/http] writes in
    brackets with colons inside, what is parsed is not the host. *)
Theorem getIP_text_before_first_colon (remoteAddr : string) :
  occurs ":" (getIP_text remoteAddr) = false
  ∧ (occurs ":" remoteAddr = false -> getIP_text remoteAddr = remoteAddr)
  ∧ (occurs ":" remoteAddr = true ->
     exists rest, remoteAddr = getIP_text remoteAddr ++ ":" ++ rest).
Proof.
  unfold getIP_text. destruct (occurs ":" remoteAddr) eqn:Hocc.
  - split; [|split; [done|]].
    + pose proof (strings_Split_free ":" remoteAddr) as Hfree.
      destruct (strings_Split remoteAddr ":") as [|p ps] eqn:Hsplit.
      * by apply strings_Split_nonempty in Hsplit.
      * simpl. by apply Forall_cons in Hfree as [Hp _].
    + intros _. destruct (strings_Split_hd ":" remoteAddr Hocc) as [rest Hrest].
      by exists rest.
  - by repeat split.
Qed.

Lemma getIP_text_before_first_colon_witness :
  exists rest, "[2001:db8::1]:443" = getIP_text "[2001:db8::1]:443" ++ ":" ++ rest.
Proof.
  destruct (getIP_text_before_first_colon "[2001:db8::1]:443") as (_ & _ & Cut).
  apply Cut. reflexivity.
Defined.

Lemma User_AppendAttributes_nil (user : model.User.t) :
  User_AppendAttributes [] user = user.
Proof. destruct user. unfold User_AppendAttributes. simpl. by rewrite app_nil_r. Qed.

Lemma User_AppendAttributes_app (a b : list model.Attribute.t) (user : model.User.t) :
  User_AppendAttributes b (User_AppendAttributes a user) = User_AppendAttributes (a ++ b) user.
Proof. unfold User_AppendAttributes. simpl. by rewrite app_assoc. Qed.

(** X20.  Attribute sources of the simple kind never fail and touch
    nothing but the attributes: after [setUserAttributes] over such
    sources the user has the former attributes followed by what each
    source holds under the user's name, in the order of the sources; a
    source that does not know the name adds nothing. *)
Theorem setUserAttributes_simple_sources
    (sources : list (gmap string (list model.Attribute.t)))
    (req : model.AuthnRequest.t) (user : model.User.t) :
  setUserAttributes (simpleSource <$> sources) req user
  = (None,
     User_AppendAttributes
       (concat ((fun users => default [] (users !! model.User.Name user)) <$> sources))
       user).
Proof.
  revert user. induction sources as [|users sources IH]; intros user.
  - simpl. by rewrite User_AppendAttributes_nil.
  - simpl. unfold simpleSource at 1.
    destruct (users !! model.User.Name user) as [atts|] eqn:Hatts; simpl.
    + rewrite IH. simpl. by rewrite User_AppendAttributes_app.
    + by rewrite IH.
Qed.

(** ** Single sign-on with a session *)

Lemma respond_artifact_run `{GoLib} `{Deps} (authRequest : model.AuthnRequest.t)
    (user : model.User.t) (r : http.Request) (s : St) (data blob : bytes) target :
  proto_Marshal_User user = inr data ->
  model.AuthnRequest.ProtocolBinding authRequest
  = "urn:oasis:names:tc:SAML:2.0:bindings:HTTP-Artifact" ->
  url_Parse (model.AuthnRequest.AssertionConsumerServiceURL authRequest) = inr target ->
  proto_Marshal_ArtifactResponse (model.ArtifactResponse.mk user authRequest) = inr blob ->
  let session := hd "" (fresh (world s)) in
  let artifact :=
    base64_EncodeToString (artifactBytes (entityID (idp s)) (hd "" (tl (fresh (world s))))) in
  respond authRequest user r s
  = (Ok tt,
     mkSt (with_TempCache
             (store.Set_ artifact blob (hd 0 (tl (clock (world s)))) (TempCache (idp s)))
             (with_UserCache
                (store.Set_ session data (hd 0 (clock (world s))) (UserCache (idp s)))
                (idp s)))
          {| clock := tl (tl (clock (world s))); fresh := tl (tl (fresh (world s))) |}
          (http.Redirect
             (url_String_with_RawQuery target
                ("RelayState=" ++ url_QueryEscape (model.AuthnRequest.RelayState authRequest)
                 ++ "&SAMLart=" ++ url_QueryEscape artifact))
             http.StatusFound
             (http.SetCookie (sessionCookie (idp s) session) (w s)))).
Proof.
  intros Huser Hbinding Hparse Hblob session artifact. subst session artifact.
  unfold respond. rewrite Huser.
  unfold bindM at 1 2 3 4. unfold liftW, uuid_New, UserCache_Set, time_Now, getIDP, writer.
  unfold bindM at 1. simpl. rewrite decide_True by done.
  unfold sendArtifactResponse. rewrite Hparse, Hblob.
  unfold bindM, ret, getIDP, liftW, IDP_Error, TempCache_Set, writer, time_Now.
  cbn -[getArtifact]. rewrite getArtifact_bytes. reflexivity.
Qed.



(** ** The password handler with a valid password *)


